(** * Final Note: lifecycle state machine, verification quorum, scheduler
      and message confidentiality layer

    A shallow embedding of the TypeScript sources of the dead man's switch
    (state machine, verification system, scheduler, e-mail delivery and
    encryption helpers) together with the properties claimed for them.

    Conventions of the embedding.
    - A [Date] is its number of milliseconds since the epoch, a [Z]; every
      operation takes the reading of the clock ([new Date()], [Date.now()])
      as its argument [now].
    - The Prisma client is a record of tables, each a finite map from the
      primary key to the row.  [create] picks a key that is not in the table,
      [update] raises when the row is missing, [$transaction] rolls the
      tables back when its body raises.
    - An [async] function is a computation in a state-and-exception monad
      over the tables and the SMTP outbox. *)

From Stdlib Require Import ZArith String List Bool Ascii Lia.
From stdpp Require Import gmap strings list fin_maps pretty.

Open Scope string_scope.
Open Scope Z_scope.

(** ** JavaScript runtime: exceptions, promises over a store *)

Inductive Exn := Error (message : string).

Inductive Result (A : Type) :=
| Ok (a : A)
| Throw (e : Exn).
Arguments Ok {A} a.
Arguments Throw {A} e.

Definition Date := Z.

(** [a || null] on an optional string: the empty string is falsy. *)
Definition orNull (o : option string) : option string :=
  match o with
  | Some s => if String.eqb s "" then None else Some s
  | None => None
  end.

(** Truthiness of a string. *)
Definition truthy (s : string) : bool := negb (String.eqb s "").

(** ** src/types/switch.ts *)

Module SwitchTypes.

Inductive SwitchStatus :=
| ACTIVE
| OVERDUE
| GRACE_PERIOD
| PENDING_VERIFICATION
| VERIFIED
| EXECUTED
| CANCELED
| PAUSED.

#[export] Instance SwitchStatus_eq_dec : EqDecision SwitchStatus.
Proof. solve_decision. Defined.

(** The string value of each enum member. *)
Definition statusName (s : SwitchStatus) : string :=
  match s with
  | ACTIVE => "ACTIVE"
  | OVERDUE => "OVERDUE"
  | GRACE_PERIOD => "GRACE_PERIOD"
  | PENDING_VERIFICATION => "PENDING_VERIFICATION"
  | VERIFIED => "VERIFIED"
  | EXECUTED => "EXECUTED"
  | CANCELED => "CANCELED"
  | PAUSED => "PAUSED"
  end.

Record Switch := mkSwitch {
  sw_id : string;
  sw_userId : string;
  sw_name : string;
  status : SwitchStatus;
  checkInIntervalDays : Z;
  gracePeriodDays : Z;
  verificationWindowDays : Z;
  finalDelayHours : Z;
  useVerifiers : bool;
  requiredConfirmations : Z;
  lastCheckInAt : option Date;
  nextCheckInDueAt : option Date;
  gracePeriodEndsAt : option Date;
  scheduledExecutionAt : option Date
}.

(** [VALID_TRANSITIONS], the lookup table of the state graph. *)
Definition VALID_TRANSITIONS (from : SwitchStatus) : list SwitchStatus :=
  match from with
  | ACTIVE => [OVERDUE; CANCELED; PAUSED]
  | OVERDUE => [GRACE_PERIOD; ACTIVE; CANCELED; PAUSED]
  | GRACE_PERIOD => [PENDING_VERIFICATION; ACTIVE; CANCELED; PAUSED; VERIFIED]
  | PENDING_VERIFICATION => [VERIFIED; ACTIVE; CANCELED; PAUSED]
  | VERIFIED => [EXECUTED; ACTIVE; CANCELED; PAUSED]
  | EXECUTED => []
  | CANCELED => [ACTIVE]
  | PAUSED => [ACTIVE; CANCELED]
  end.

(** [Array.prototype.includes] on statuses. *)
Definition includes (l : list SwitchStatus) (x : SwitchStatus) : bool :=
  existsb (fun y => bool_decide (y = x)) l.

Definition isValidTransition (from to : SwitchStatus) : bool :=
  includes (VALID_TRANSITIONS from) to.

End SwitchTypes.
Export SwitchTypes.

(** The adjacency relation as the specification words it (section 4.2),
    kept apart from the table of the code so that the two can be compared. *)
Inductive spec_edge : SwitchStatus -> SwitchStatus -> Prop :=
| edge_active_overdue : spec_edge ACTIVE OVERDUE
| edge_active_canceled : spec_edge ACTIVE CANCELED
| edge_active_paused : spec_edge ACTIVE PAUSED
| edge_overdue_grace : spec_edge OVERDUE GRACE_PERIOD
| edge_overdue_active : spec_edge OVERDUE ACTIVE
| edge_overdue_canceled : spec_edge OVERDUE CANCELED
| edge_overdue_paused : spec_edge OVERDUE PAUSED
| edge_grace_pending : spec_edge GRACE_PERIOD PENDING_VERIFICATION
| edge_grace_verified : spec_edge GRACE_PERIOD VERIFIED
| edge_grace_active : spec_edge GRACE_PERIOD ACTIVE
| edge_grace_canceled : spec_edge GRACE_PERIOD CANCELED
| edge_grace_paused : spec_edge GRACE_PERIOD PAUSED
| edge_pending_verified : spec_edge PENDING_VERIFICATION VERIFIED
| edge_pending_active : spec_edge PENDING_VERIFICATION ACTIVE
| edge_pending_canceled : spec_edge PENDING_VERIFICATION CANCELED
| edge_pending_paused : spec_edge PENDING_VERIFICATION PAUSED
| edge_verified_executed : spec_edge VERIFIED EXECUTED
| edge_verified_active : spec_edge VERIFIED ACTIVE
| edge_verified_canceled : spec_edge VERIFIED CANCELED
| edge_verified_paused : spec_edge VERIFIED PAUSED
| edge_canceled_active : spec_edge CANCELED ACTIVE
| edge_paused_active : spec_edge PAUSED ACTIVE
| edge_paused_canceled : spec_edge PAUSED CANCELED.

(** ** src/types/verifier.ts, src/types/email.ts, src/types/message.ts *)

Module VerifierTypes.

Inductive VerificationVote := CONFIRM | DENY.

#[export] Instance VerificationVote_eq_dec : EqDecision VerificationVote.
Proof. solve_decision. Defined.

Definition voteName (v : VerificationVote) : string :=
  match v with CONFIRM => "CONFIRM" | DENY => "DENY" end.

Inductive RequestResult := Confirmed | Denied | Expired.

#[export] Instance RequestResult_eq_dec : EqDecision RequestResult.
Proof. solve_decision. Defined.

Record VerificationRequest := mkVerificationRequest {
  vr_id : string;
  vr_switchId : string;
  vr_startedAt : Date;
  vr_expiresAt : Date;
  vr_requiredConfirmations : Z;
  vr_completedAt : option Date;
  vr_result : option RequestResult
}.

Record VerificationToken := mkVerificationToken {
  vt_id : string;
  vt_verificationRequestId : string;
  vt_verifierId : string;
  vt_token : string;
  vt_otp : option string;
  vt_otpExpiresAt : option Date;
  vt_expiresAt : Date;
  vt_usedAt : option Date
}.

Record VerificationVoteRecord := mkVoteRecord {
  vv_id : string;
  vv_verificationRequestId : string;
  vv_verifierId : string;
  vv_vote : VerificationVote;
  vv_votedAt : Date;
  vv_ipAddress : option string;
  vv_userAgent : option string
}.

End VerifierTypes.
Export VerifierTypes.

Module EmailTypes.

Inductive EmailDeliveryStatus := PENDING | SENT | FAILED.

#[export] Instance EmailDeliveryStatus_eq_dec : EqDecision EmailDeliveryStatus.
Proof. solve_decision. Defined.

Record EmailDelivery := mkEmailDelivery {
  ed_id : string;
  ed_messageId : string;
  ed_provider : string;
  ed_status : EmailDeliveryStatus;
  ed_providerMessageId : option string;
  ed_attemptedAt : option Date;
  ed_sentAt : option Date;
  ed_failedAt : option Date;
  ed_errorMessage : option string;
  ed_retryCount : Z
}.

Record SendEmailInput := mkSendEmailInput {
  to : string;
  toName : option string;
  subject : string;
  htmlContent : string;
  textContent : option string
}.

End EmailTypes.
Export EmailTypes.

Record Recipient := mkRecipient {
  rc_id : string;
  rc_switchId : string;
  rc_email : string;
  rc_name : option string
}.

Record Message := mkMessage {
  msg_id : string;
  msg_switchId : string;
  msg_recipientId : string;
  msg_encryptedContent : string;
  msg_encryptionIv : string;
  msg_subject : option string
}.

Record CheckInToken := mkCheckInToken {
  ct_id : string;
  ct_switchId : string;
  ct_token : string;
  ct_expiresAt : Date;
  ct_usedAt : option Date
}.

Record AuditLog := mkAuditLog {
  entityType : string;
  entityId : string;
  action : string;
  al_userId : option string;
  metadata : list (string * string);
  al_ipAddress : option string;
  al_userAgent : option string
}.

(** ** src/types/audit.ts (the constants used below) *)

Module ENTITY_TYPES.
Definition SWITCH := "switch".
Definition VERIFICATION_REQUEST := "verification_request".
Definition VERIFICATION_VOTE := "verification_vote".
Definition EMAIL_DELIVERY := "email_delivery".
End ENTITY_TYPES.

Module AUDIT_ACTIONS.
Definition SWITCH_CHECKED_IN := "switch_checked_in".
Definition SWITCH_STATUS_CHANGED := "switch_status_changed".
Definition SWITCH_EXECUTED := "switch_executed".
Definition MESSAGE_SENT := "message_sent".
Definition VERIFICATION_VOTE_SUBMITTED := "verification_vote_submitted".
Definition VERIFICATION_EXPIRED := "verification_expired".
Definition VERIFICATION_OTP_FAILED := "verification_otp_failed".
Definition VERIFICATION_OTP_VERIFIED := "verification_otp_verified".
End AUDIT_ACTIONS.

(** ** The record store (Prisma client) and the outside world *)

Record Db := mkDb {
  switches : gmap string Switch;
  verificationRequests : gmap string VerificationRequest;
  verificationTokens : gmap string VerificationToken;
  verificationVoteRecords : gmap string VerificationVoteRecord;
  checkInTokens : gmap string CheckInToken;
  recipients : gmap string Recipient;
  messages : gmap string Message;
  emailDeliveries : gmap string EmailDelivery;
  auditLogs : list AuditLog
}.

(** The tables and every mail handed to the SMTP transport so far. *)
Record World := mkWorld {
  prisma : Db;
  outbox : list SendEmailInput
}.

Definition Async (A : Type) : Type := World -> Result A * World.

Definition ret {A} (a : A) : Async A := fun w => (Ok a, w).

Definition throw {A} (e : Exn) : Async A := fun w => (Throw e, w).

Definition bind {A B} (m : Async A) (k : A -> Async B) : Async B :=
  fun w =>
    match m w with
    | (Ok a, w') => k a w'
    | (Throw e, w') => (Throw e, w')
    end.

#[export] Instance Async_ret : MRet Async := @ret.
#[export] Instance Async_bind : MBind Async := fun A B k m => bind m k.

(** [try { m } catch (error) { h error }]. *)
Definition tryCatch {A} (m : Async A) (h : Exn -> Async A) : Async A :=
  fun w =>
    match m w with
    | (Ok a, w') => (Ok a, w')
    | (Throw e, w') => h e w'
    end.

(** [prisma.$transaction]: when the body raises, the tables are restored and
    the exception is raised again. *)
Definition transaction {A} (m : Async A) : Async A :=
  fun w =>
    match m w with
    | (Ok a, w') => (Ok a, w')
    | (Throw e, w') => (Throw e, mkWorld (prisma w) (outbox w'))
    end.

(** A table of the client: how to read it from and write it to the store. *)
Record Table (R : Type) := mkTable {
  rows : Db -> gmap string R;
  setRows : gmap string R -> Db -> Db
}.
Arguments rows {R} _ _.
Arguments setRows {R} _ _ _.

Definition switchT : Table Switch :=
  mkTable Switch switches
    (fun t d => mkDb t (verificationRequests d) (verificationTokens d)
       (verificationVoteRecords d) (checkInTokens d) (recipients d)
       (messages d) (emailDeliveries d) (auditLogs d)).

Definition verificationRequestT : Table VerificationRequest :=
  mkTable VerificationRequest verificationRequests
    (fun t d => mkDb (switches d) t (verificationTokens d)
       (verificationVoteRecords d) (checkInTokens d) (recipients d)
       (messages d) (emailDeliveries d) (auditLogs d)).

Definition verificationTokenT : Table VerificationToken :=
  mkTable VerificationToken verificationTokens
    (fun t d => mkDb (switches d) (verificationRequests d) t
       (verificationVoteRecords d) (checkInTokens d) (recipients d)
       (messages d) (emailDeliveries d) (auditLogs d)).

Definition verificationVoteRecordT : Table VerificationVoteRecord :=
  mkTable VerificationVoteRecord verificationVoteRecords
    (fun t d => mkDb (switches d) (verificationRequests d)
       (verificationTokens d) t (checkInTokens d) (recipients d)
       (messages d) (emailDeliveries d) (auditLogs d)).

Definition checkInTokenT : Table CheckInToken :=
  mkTable CheckInToken checkInTokens
    (fun t d => mkDb (switches d) (verificationRequests d)
       (verificationTokens d) (verificationVoteRecords d) t (recipients d)
       (messages d) (emailDeliveries d) (auditLogs d)).

Definition recipientT : Table Recipient :=
  mkTable Recipient recipients
    (fun t d => mkDb (switches d) (verificationRequests d)
       (verificationTokens d) (verificationVoteRecords d) (checkInTokens d) t
       (messages d) (emailDeliveries d) (auditLogs d)).

Definition messageT : Table Message :=
  mkTable Message messages
    (fun t d => mkDb (switches d) (verificationRequests d)
       (verificationTokens d) (verificationVoteRecords d) (checkInTokens d)
       (recipients d) t (emailDeliveries d) (auditLogs d)).

Definition emailDeliveryT : Table EmailDelivery :=
  mkTable EmailDelivery emailDeliveries
    (fun t d => mkDb (switches d) (verificationRequests d)
       (verificationTokens d) (verificationVoteRecords d) (checkInTokens d)
       (recipients d) (messages d) t (auditLogs d)).

Definition setAuditLogs (l : list AuditLog) (d : Db) : Db :=
  mkDb (switches d) (verificationRequests d) (verificationTokens d)
    (verificationVoteRecords d) (checkInTokens d) (recipients d)
    (messages d) (emailDeliveries d) l.

Module Prisma.

Section Client.
Context {R : Type} (T : Table R).

(** The rows of a table, in the order the store returns them. *)
Definition allRows (d : Db) : list R := (map_to_list (rows T d)).*2.

(** [findUnique({ where: { id } })]. *)
Definition findUnique (id : string) : Async (option R) :=
  fun w => (Ok (rows T (prisma w) !! id), w).

(** [findMany({ where })]. *)
Definition findMany (where_ : R -> bool) : Async (list R) :=
  fun w => (Ok (List.filter where_ (allRows (prisma w))), w).

(** [findFirst({ where })], also [findUnique] on a unique column. *)
Definition findFirst (where_ : R -> bool) : Async (option R) :=
  fun w => (Ok (List.find where_ (allRows (prisma w))), w).

(** [count({ where })]. *)
Definition count (where_ : R -> bool) : Async Z :=
  fun w => (Ok (Z.of_nat (length (List.filter where_ (allRows (prisma w))))), w).

(** [update({ where: { id }, data })]: raises when there is no such row. *)
Definition update (id : string) (data : R -> R) : Async R :=
  fun w =>
    match rows T (prisma w) !! id with
    | Some r =>
        (Ok (data r),
         mkWorld (setRows T (<[id := data r]> (rows T (prisma w))) (prisma w))
           (outbox w))
    | None => (Throw (Error "Record to update not found."), w)
    end.

(** [updateMany({ where, data })]. *)
Definition updateMany (where_ : R -> bool) (data : R -> R) : Async unit :=
  fun w =>
    (Ok tt,
     mkWorld
       (setRows T ((fun r => if where_ r then data r else r) <$> rows T (prisma w))
          (prisma w))
       (outbox w)).

(** [create({ data })]: the row gets an identifier that is not in the table;
    [unique] tells which existing rows collide with the new one on a unique
    constraint. *)
Definition create (unique : R -> R -> bool) (data : string -> R) : Async R :=
  fun w =>
    let id := fresh (dom (rows T (prisma w))) in
    let r := data id in
    if existsb (unique r) (allRows (prisma w))
    then (Throw (Error "Unique constraint failed"), w)
    else
      (Ok r,
       mkWorld (setRows T (<[id := r]> (rows T (prisma w))) (prisma w))
         (outbox w)).

End Client.

Definition noConstraint {R} (_ : R) : R -> bool := fun _ => false.

(** [auditLog.create({ data })]: the sink is append-only. *)
Definition auditLog_create (entry : AuditLog) : Async unit :=
  fun w =>
    (Ok tt,
     mkWorld (setAuditLogs (auditLogs (prisma w) ++ [entry]) (prisma w))
       (outbox w)).

End Prisma.

(** ** src/lib/audit.ts *)

Record CreateAuditLogInput := mkAuditInput {
  ai_entityType : string;
  ai_entityId : string;
  ai_action : string;
  ai_userId : option string;
  ai_metadata : list (string * string);
  ai_ipAddress : option string;
  ai_userAgent : option string
}.

Definition createAuditLog (input : CreateAuditLogInput) : Async unit :=
  Prisma.auditLog_create
    {| entityType := ai_entityType input;
       entityId := ai_entityId input;
       action := ai_action input;
       al_userId := orNull (ai_userId input);
       metadata := ai_metadata input;
       al_ipAddress := orNull (ai_ipAddress input);
       al_userAgent := orNull (ai_userAgent input) |}.

(** ** src/lib/stateMachine.ts *)

Module StateMachine.

Record StateTransitionResult := mkResult {
  success : bool;
  previousStatus : SwitchStatus;
  newStatus : SwitchStatus;
  error : option string
}.

Record Options := mkOptions {
  userId : option string;
  ipAddress : option string;
  userAgent : option string;
  o_metadata : list (string * string)
}.

(** [options?.field]. *)
Definition opt {A} (options : option Options) (f : Options -> option A)
  : option A :=
  match options with Some o => f o | None => None end.

Definition optMetadata (options : option Options) : list (string * string) :=
  match options with Some o => o_metadata o | None => [] end.

(** The [data] of a partial update of a switch: [None] leaves the column
    alone, [Some v] writes [v] (for a timer, [Some None] writes [null]). *)
Record SwitchUpdate := mkSwitchUpdate {
  u_status : option SwitchStatus;
  u_lastCheckInAt : option (option Date);
  u_nextCheckInDueAt : option (option Date);
  u_gracePeriodEndsAt : option (option Date);
  u_scheduledExecutionAt : option (option Date)
}.

Definition applyUpdate (u : SwitchUpdate) (s : Switch) : Switch :=
  mkSwitch (sw_id s) (sw_userId s) (sw_name s)
    (default (status s) (u_status u))
    (checkInIntervalDays s) (gracePeriodDays s) (verificationWindowDays s)
    (finalDelayHours s) (useVerifiers s) (requiredConfirmations s)
    (default (lastCheckInAt s) (u_lastCheckInAt u))
    (default (nextCheckInDueAt s) (u_nextCheckInDueAt u))
    (default (gracePeriodEndsAt s) (u_gracePeriodEndsAt u))
    (default (scheduledExecutionAt s) (u_scheduledExecutionAt u)).

Definition days (n : Z) : Z := n * 24 * 60 * 60 * 1000.
Definition hours (n : Z) : Z := n * 60 * 60 * 1000.

(** The [switch (newStatus)] that fills [updateData]. *)
Definition transitionData (now : Date) (currentSwitch : Switch)
    (newStatus : SwitchStatus) : SwitchUpdate :=
  match newStatus with
  | ACTIVE =>
      mkSwitchUpdate (Some newStatus)
        (Some (Some now))
        (Some (Some (now + days (checkInIntervalDays currentSwitch))))
        (Some None)
        (Some None)
  | GRACE_PERIOD =>
      mkSwitchUpdate (Some newStatus) None None
        (Some (Some (now + days (gracePeriodDays currentSwitch))))
        None
  | VERIFIED =>
      mkSwitchUpdate (Some newStatus) None None None
        (Some (Some (now + hours (finalDelayHours currentSwitch))))
  | EXECUTED | CANCELED =>
      mkSwitchUpdate (Some newStatus) None (Some None) (Some None) (Some None)
  | _ => mkSwitchUpdate (Some newStatus) None None None None
  end.

(** The entry [transitionSwitchState] writes to the audit log. *)
Definition transitionAudit (switchId : string)
    (previousStatus newStatus : SwitchStatus) (options : option Options)
  : AuditLog :=
  {| entityType := ENTITY_TYPES.SWITCH;
     entityId := switchId;
     action := AUDIT_ACTIONS.SWITCH_STATUS_CHANGED;
     al_userId := orNull (opt options userId);
     metadata :=
       [("previousStatus", statusName previousStatus);
        ("newStatus", statusName newStatus)]
       ++ optMetadata options;
     al_ipAddress := orNull (opt options ipAddress);
     al_userAgent := orNull (opt options userAgent) |}.

(** The entry [checkIn] writes to the audit log. *)
Definition checkInAudit (switchId : string) (previousStatus : SwitchStatus)
    (options : option Options) : AuditLog :=
  {| entityType := ENTITY_TYPES.SWITCH;
     entityId := switchId;
     action := AUDIT_ACTIONS.SWITCH_CHECKED_IN;
     al_userId := orNull (opt options userId);
     metadata :=
       [("previousStatus", statusName previousStatus);
        ("newStatus", statusName ACTIVE)];
     al_ipAddress := orNull (opt options ipAddress);
     al_userAgent := orNull (opt options userAgent) |}.

Definition transitionSwitchState (now : Date) (switchId : string)
    (newStatus : SwitchStatus) (options : option Options)
  : Async StateTransitionResult :=
  transaction (
    currentSwitch ← Prisma.findUnique switchT switchId;
    match currentSwitch with
    | None =>
        ret (mkResult false ACTIVE newStatus (Some "Switch not found"))
    | Some currentSwitch =>
        let previousStatus := status currentSwitch in
        if negb (isValidTransition previousStatus newStatus) then
          ret (mkResult false previousStatus newStatus
                 (Some ("Invalid transition from " ++ statusName previousStatus
                        ++ " to " ++ statusName newStatus)))
        else
          let updateData := transitionData now currentSwitch newStatus in
          Prisma.update switchT switchId (applyUpdate updateData);;
          Prisma.auditLog_create
            (transitionAudit switchId previousStatus newStatus options);;
          ret (mkResult true previousStatus newStatus None)
    end).

Definition validCheckInStates : list SwitchStatus :=
  [ACTIVE; OVERDUE; GRACE_PERIOD; PENDING_VERIFICATION; VERIFIED].

Definition completeRequest (now : Date) (res : RequestResult)
    (r : VerificationRequest) : VerificationRequest :=
  mkVerificationRequest (vr_id r) (vr_switchId r) (vr_startedAt r)
    (vr_expiresAt r) (vr_requiredConfirmations r) (Some now) (Some res).

Definition isOpenFor (switchId : string) (r : VerificationRequest) : bool :=
  String.eqb (vr_switchId r) switchId && bool_decide (vr_completedAt r = None).

Definition checkIn (now : Date) (switchId : string) (options : option Options)
  : Async StateTransitionResult :=
  transaction (
    currentSwitch ← Prisma.findUnique switchT switchId;
    match currentSwitch with
    | None => ret (mkResult false ACTIVE ACTIVE (Some "Switch not found"))
    | Some currentSwitch =>
        let previousStatus := status currentSwitch in
        if negb (includes validCheckInStates previousStatus) then
          ret (mkResult false previousStatus ACTIVE
                 (Some ("Cannot check in from " ++ statusName previousStatus
                        ++ " state")))
        else
          let nextCheckInDueAt :=
            now + days (checkInIntervalDays currentSwitch) in
          Prisma.update switchT switchId
            (applyUpdate
               (mkSwitchUpdate (Some ACTIVE) (Some (Some now))
                  (Some (Some nextCheckInDueAt)) (Some None) (Some None)));;
          Prisma.updateMany verificationRequestT (isOpenFor switchId)
            (completeRequest now Denied);;
          Prisma.auditLog_create (checkInAudit switchId previousStatus options);;
          ret (mkResult true previousStatus ACTIVE None)
    end).

End StateMachine.

(** ** The Node.js runtime the sources call into

    [crypto], [Buffer], [process.env] and the SMTP transport are not code of
    the repository; they are taken as a parameter.  Nothing is assumed of
    them in the definitions; the theorems that need a contract of the runtime
    state it as a hypothesis ([RuntimeContract] below). *)

Definition Buffer := list ascii.

Record Runtime := mkRuntime {
  (** [process.env.ENCRYPTION_KEY] *)
  ENCRYPTION_KEY : option string;
  (** [Buffer.from(s, 'hex')] *)
  fromHex : string -> Buffer;
  (** [buf.toString('base64')] and [Buffer.from(s, 'base64')] *)
  toBase64 : Buffer -> string;
  fromBase64 : string -> Buffer;
  (** [Buffer.from(s, 'utf8')] and [buf.toString('utf8')] *)
  toUtf8 : string -> Buffer;
  fromUtf8 : Buffer -> string;
  (** [scryptSync(password, salt, keylen)] *)
  scryptSync : Buffer -> Buffer -> Z -> Buffer;
  (** [createCipheriv('aes-256-gcm', key, iv)], [update] and [final], then
      [getAuthTag]: the ciphertext and the tag *)
  gcmSeal : Buffer -> Buffer -> Buffer -> Buffer * Buffer;
  (** [createDecipheriv('aes-256-gcm', key, iv)], [setAuthTag], [update] and
      [final]: [None] when any of them raises *)
  gcmOpen : Buffer -> Buffer -> Buffer -> Buffer -> option Buffer;
  (** [createHash('sha256').update(s).digest('hex')] *)
  sha256Hex : string -> string;
  (** [transport.sendMail(mailOptions)], given the mails handed over before:
      the provider's message id, or the exception it raises (a missing
      [GMAIL_USER]/[GMAIL_PASS] included) *)
  sendMail : list SendEmailInput -> SendEmailInput -> Result string;
  (** the HTML template of the final message (emailService.ts) *)
  wrapInEmailTemplate : string -> option string -> string
}.

(** ** src/lib/encryption.ts *)

Module Encryption.

Definition IV_LENGTH : Z := 16.
Definition SALT_LENGTH : Z := 16.
Definition KEY_LENGTH : Z := 32.

(** [String.prototype.split] on a one-character separator. *)
Fixpoint split (sep : ascii) (s : string) : list string :=
  match s with
  | EmptyString => [EmptyString]
  | String c rest =>
      if Ascii.eqb c sep then EmptyString :: split sep rest
      else
        match split sep rest with
        | [] => [String c EmptyString]
        | h :: t => String c h :: t
        end
  end.

(** [Array.prototype.join]. *)
Definition join (sep : string) (l : list string) : string :=
  String.concat sep l.

Record Encrypted := mkEncrypted {
  encrypted : string;
  iv : string
}.

Section WithRuntime.
Variable rt : Runtime.

Definition getEncryptionKey : Result Buffer :=
  match ENCRYPTION_KEY rt with
  | Some key =>
      if negb (truthy key) || negb (Z.of_nat (String.length key) =? 64)
      then Throw (Error "ENCRYPTION_KEY must be 64 hex characters")
      else Ok (fromHex rt key)
  | None => Throw (Error "ENCRYPTION_KEY must be 64 hex characters")
  end.

(** [encrypt]; [iv] and [salt] are the two draws of [randomBytes]. *)
Definition encrypt (iv salt : Buffer) (plaintext : string) : Result Encrypted :=
  match getEncryptionKey with
  | Throw e => Throw e
  | Ok key =>
      let derivedKey := scryptSync rt key salt KEY_LENGTH in
      let '(ciphertext, authTag) := gcmSeal rt derivedKey iv (toUtf8 rt plaintext) in
      let encrypted := toBase64 rt ciphertext in
      let combined :=
        join ":" [toBase64 rt salt; toBase64 rt iv; toBase64 rt authTag; encrypted] in
      Ok (mkEncrypted combined (toBase64 rt iv))
  end.

(** The body of the [try] block of [decrypt]. *)
Definition decryptBody (encryptedData : string) : Result string :=
  match getEncryptionKey with
  | Throw e => Throw e
  | Ok key =>
      let parts := split ":" encryptedData in
      match parts with
      | [saltB64; ivB64; authTagB64; encrypted] =>
          if negb (truthy saltB64) || negb (truthy ivB64)
             || negb (truthy authTagB64) || negb (truthy encrypted)
          then Throw (Error "Decryption failed")
          else
            let salt := fromBase64 rt saltB64 in
            let iv := fromBase64 rt ivB64 in
            let authTag := fromBase64 rt authTagB64 in
            let derivedKey := scryptSync rt key salt KEY_LENGTH in
            match gcmOpen rt derivedKey iv authTag (fromBase64 rt encrypted) with
            | Some decrypted => Ok (fromUtf8 rt decrypted)
            | None =>
                Throw (Error "Unsupported state or unable to authenticate data")
            end
      | _ => Throw (Error "Decryption failed")
      end
  end.

(** [decrypt]: whatever the body raises is replaced by the generic error. *)
Definition decrypt (encryptedData : string) : Result string :=
  match decryptBody encryptedData with
  | Ok decrypted => Ok decrypted
  | Throw _ => Throw (Error "Decryption failed")
  end.

Definition hashOtp (otp : string) : string := sha256Hex rt otp.

Definition verifyOtp (otp hash : string) : bool :=
  String.eqb (hashOtp otp) hash.

End WithRuntime.

End Encryption.

(** What the theorems on the round trip assume of the runtime: the contracts
    of base64, UTF-8 and AES-256-GCM. *)
Record RuntimeContract (rt : Runtime) : Prop := mkContract {
  base64_roundtrip : forall b, fromBase64 rt (toBase64 rt b) = b;
  base64_alphabet :
    forall b, Encryption.split ":" (toBase64 rt b) = [toBase64 rt b];
  base64_nonempty : forall b, toBase64 rt b = "" -> b = [];
  utf8_roundtrip : forall s, fromUtf8 rt (toUtf8 rt s) = s;
  utf8_nonempty : forall s, toUtf8 rt s = [] -> s = "";
  gcm_roundtrip :
    forall key iv plaintext,
      gcmOpen rt key iv (gcmSeal rt key iv plaintext).2
        (gcmSeal rt key iv plaintext).1 = Some plaintext;
  gcm_length :
    forall key iv plaintext,
      length (gcmSeal rt key iv plaintext).1 = length plaintext;
  gcm_tag_length :
    forall key iv plaintext,
      length (gcmSeal rt key iv plaintext).2 = 16%nat
}.

(** What the theorems on rejected blobs assume of AES-256-GCM with a
    tag of full length: for a key, a nonce and a ciphertext there is one tag
    of 16 bytes that opens, the one the sealing computes, so what opens
    under a 16-byte tag is a sealing of the plaintext returned; and the
    ciphertext determines the plaintext (counter mode). *)
Record CipherContract (rt : Runtime) : Prop := mkCipherContract {
  gcm_authentic :
    forall key iv authTag ciphertext plaintext,
      gcmOpen rt key iv authTag ciphertext = Some plaintext ->
      length authTag = 16%nat ->
      gcmSeal rt key iv plaintext = (ciphertext, authTag);
  gcm_injective :
    forall key iv plaintext plaintext',
      (gcmSeal rt key iv plaintext).1 = (gcmSeal rt key iv plaintext').1 ->
      plaintext = plaintext'
}.

(** ** src/lib/emailService.ts *)

Module EmailService.

Record SendEmailResult := mkSendEmailResult {
  se_success : bool;
  se_messageId : option string;
  se_error : option string
}.

Record FinalMessageResult := mkFinalMessageResult {
  success : bool;
  deliveryId : string
}.

(** [options] of the senders: the requester's metadata. *)
Record ClientInfo := mkClientInfo {
  ipAddress : option string;
  userAgent : option string
}.

Definition info {A} (options : option ClientInfo) (f : ClientInfo -> option A)
  : option A :=
  match options with Some o => f o | None => None end.

(** A [Result] computed without touching the store. *)
Definition liftResult {A} (r : Result A) : Async A := fun w => (r, w).

Definition markSent (now : Date) (providerMessageId : option string)
    (d : EmailDelivery) : EmailDelivery :=
  mkEmailDelivery (ed_id d) (ed_messageId d) (ed_provider d) SENT
    providerMessageId (Some now) (Some now) (ed_failedAt d)
    (ed_errorMessage d) (ed_retryCount d).

Definition markFailed (now : Date) (errorMessage : option string)
    (d : EmailDelivery) : EmailDelivery :=
  mkEmailDelivery (ed_id d) (ed_messageId d) (ed_provider d) FAILED
    (ed_providerMessageId d) (Some now) (ed_sentAt d) (Some now)
    errorMessage (ed_retryCount d + 1).

Definition isSentFor (messageId : string) (d : EmailDelivery) : bool :=
  String.eqb (ed_messageId d) messageId && bool_decide (ed_status d = SENT).

Section WithRuntime.
Variable rt : Runtime.

(** [sendEmail]: the transport is called inside [try]; whatever it raises
    becomes a result with [success: false]. *)
Definition sendEmail (input : SendEmailInput) : Async SendEmailResult :=
  fun w =>
    let w' := mkWorld (prisma w) (outbox w ++ [input]) in
    match sendMail rt (outbox w) input with
    | Ok messageId => (Ok (mkSendEmailResult true (Some messageId) None), w')
    | Throw (Error message) =>
        (Ok (mkSendEmailResult false None (Some message)), w')
    end.

Definition sendFinalMessage (now : Date) (messageId : string)
    (options : option ClientInfo) : Async FinalMessageResult :=
  existingDelivery ← Prisma.findFirst emailDeliveryT (isSentFor messageId);
  match existingDelivery with
  | Some existingDelivery =>
      ret (mkFinalMessageResult true (ed_id existingDelivery))
  | None =>
      message ← Prisma.findUnique messageT messageId;
      match message with
      | None => throw (Error "Message not found")
      | Some message =>
          recipient ← Prisma.findUnique recipientT (msg_recipientId message);
          match recipient with
          | None => throw (Error "Inconsistent query result")
          | Some recipient =>
              content ← liftResult
                (Encryption.decrypt rt (msg_encryptedContent message));
              delivery ← Prisma.create emailDeliveryT Prisma.noConstraint
                (fun id =>
                   mkEmailDelivery id messageId "nodemailer" PENDING
                     None None None None None 0);
              tryCatch
                (result ← sendEmail
                   (mkSendEmailInput (rc_email recipient)
                      (orNull (rc_name recipient))
                      (default "A Final Note for You"
                         (orNull (msg_subject message)))
                      (wrapInEmailTemplate rt content (rc_name recipient))
                      (Some content));
                 if se_success result then
                   Prisma.update emailDeliveryT (ed_id delivery)
                     (markSent now (se_messageId result));;
                   createAuditLog
                     (mkAuditInput ENTITY_TYPES.EMAIL_DELIVERY (ed_id delivery)
                        AUDIT_ACTIONS.MESSAGE_SENT None
                        [("messageId", messageId);
                         ("recipientEmail", rc_email recipient);
                         ("providerMessageId",
                          default "" (se_messageId result))]
                        (info options ipAddress) (info options userAgent));;
                   ret (mkFinalMessageResult true (ed_id delivery))
                 else
                   Prisma.update emailDeliveryT (ed_id delivery)
                     (markFailed now (se_error result));;
                   ret (mkFinalMessageResult false (ed_id delivery)))
                (fun error =>
                   Prisma.update emailDeliveryT (ed_id delivery)
                     (markFailed now
                        (Some (let 'Error m := error in m)));;
                   ret (mkFinalMessageResult false (ed_id delivery)))
          end
      end
  end.

End WithRuntime.

End EmailService.

(** ** src/lib/scheduler.ts *)

Module Scheduler.

(** [`${error}`] for an [Error] object. *)
Definition showError (e : Exn) : string :=
  let 'Error m := e in "Error: " ++ m.

Definition lt (d : option Date) (now : Date) : bool :=
  match d with Some t => t <? now | None => false end.

Record ExpiryReport := mkExpiryReport {
  ex_processed : Z;
  expired_count : Z;
  ex_errors : list string
}.

Record ExecutionReport := mkExecutionReport {
  processed : Z;
  executed : Z;
  errors : list string
}.

Definition isExpiredOpen (now : Date) (r : VerificationRequest) : bool :=
  bool_decide (vr_completedAt r = None) && (vr_expiresAt r <? now).

(** The entry [processVerificationExpiry] writes to the audit log. *)
Definition expiryAudit (request : VerificationRequest) : AuditLog :=
  {| entityType := ENTITY_TYPES.VERIFICATION_REQUEST;
     entityId := vr_id request;
     action := AUDIT_ACTIONS.VERIFICATION_EXPIRED;
     al_userId := None;
     metadata :=
       [("switchId", vr_switchId request);
        ("reason", "Verification window expired without quorum")];
     al_ipAddress := None;
     al_userAgent := None |}.

(** The transaction of [processVerificationExpiry] for one request. *)
Definition expireRequest (now : Date) (request : VerificationRequest)
  : Async unit :=
  transaction (
    Prisma.update verificationRequestT (vr_id request)
      (StateMachine.completeRequest now Expired);;
    Prisma.update switchT (vr_switchId request)
      (StateMachine.applyUpdate
         (StateMachine.mkSwitchUpdate (Some PAUSED) None None None None));;
    Prisma.auditLog_create (expiryAudit request)).

(** The [for] loop of [processVerificationExpiry]; [expired] and [errors]
    are its two local variables. *)
Fixpoint expireLoop (now : Date) (requests : list VerificationRequest)
    (expired : Z) (errors : list string) (w : World)
  : (Z * list string) * World :=
  match requests with
  | [] => ((expired, errors), w)
  | request :: rest =>
      match expireRequest now request w with
      | (Ok _, w') => expireLoop now rest (expired + 1) errors w'
      | (Throw error, w') =>
          expireLoop now rest expired
            (errors ++ ["Error expiring request " ++ vr_id request ++ ": "
                        ++ showError error]) w'
      end
  end.

Definition processVerificationExpiry (now : Date) : Async ExpiryReport :=
  fun w =>
    let expiredRequests :=
      List.filter (isExpiredOpen now)
        (Prisma.allRows verificationRequestT (prisma w)) in
    let '((expired, errors), w') := expireLoop now expiredRequests 0 [] w in
    (Ok (mkExpiryReport (Z.of_nat (length expiredRequests)) expired errors), w').

Definition isReady (now : Date) (s : Switch) : bool :=
  bool_decide (status s = VERIFIED) && lt (scheduledExecutionAt s) now.

(** [include: { recipients: { include: { message: true } } }]. *)
Definition recipientsWithMessage (d : Db) (switchId : string)
  : list (Recipient * option Message) :=
  map (fun r =>
         (r, List.find (fun m => String.eqb (msg_recipientId m) (rc_id r))
               (Prisma.allRows messageT d)))
      (List.filter (fun r => String.eqb (rc_switchId r) switchId)
         (Prisma.allRows recipientT d)).

Section WithRuntime.
Variable rt : Runtime.

(** The inner [for] loop of [executeVerifiedSwitches]: [allSent] and
    [errors] are local variables, so what was pushed before an exception
    stays pushed. *)
Fixpoint sendAll (now : Date) (switchId : string)
    (recipients : list (Recipient * option Message))
    (allSent : bool) (errors : list string) (w : World)
  : Result bool * list string * World :=
  match recipients with
  | [] => (Ok allSent, errors, w)
  | (_, None) :: rest => sendAll now switchId rest allSent errors w
  | (_, Some message) :: rest =>
      match EmailService.sendFinalMessage rt now (msg_id message) None w with
      | (Ok result, w') =>
          if negb (EmailService.success result) then
            sendAll now switchId rest false
              (errors ++ ["Failed to send message " ++ msg_id message
                          ++ " for switch " ++ switchId]) w'
          else sendAll now switchId rest allSent errors w'
      | (Throw error, w') => (Throw error, errors, w')
      end
  end.

Definition messageCount (recipients : list (Recipient * option Message)) : nat :=
  length (List.filter (fun r => bool_decide (is_Some r.2)) recipients).

(** The body of the outer [for] loop, for one switch. *)
Definition executeSwitch (now : Date)
    (sw : Switch * list (Recipient * option Message))
    (executed : Z) (errors : list string) (w : World)
  : (Z * list string) * World :=
  let caught (error : Exn) (errors : list string) : list string :=
    (errors ++ ["Error executing switch " +:+ sw_id sw.1 +:+ ": "
                +:+ showError error])%list in
  match sendAll now (sw_id sw.1) sw.2 true errors w with
  | (Throw error, errors, w) => ((executed, caught error errors), w)
  | (Ok allSent, errors, w) =>
      match StateMachine.transitionSwitchState now (sw_id sw.1) EXECUTED None w with
      | (Throw error, w) => ((executed, caught error errors), w)
      | (Ok transitionResult, w) =>
          if StateMachine.success transitionResult then
            match
              createAuditLog
                (mkAuditInput ENTITY_TYPES.SWITCH (sw_id sw.1)
                   AUDIT_ACTIONS.SWITCH_EXECUTED None
                   [("messageCount",
                     pretty (messageCount sw.2));
                    ("allSent", if allSent then "true" else "false")]
                   None None) w
            with
            | (Ok _, w) => ((executed + 1, errors), w)
            | (Throw error, w) => ((executed + 1, caught error errors), w)
            end
          else
            ((executed,
              (errors ++ ["Failed to mark switch " +:+ sw_id sw.1
                          +:+ " as executed: "
                          +:+ default "undefined"
                                (StateMachine.error transitionResult)])%list),
             w)
      end
  end.

Fixpoint executeLoop (now : Date)
    (ready : list (Switch * list (Recipient * option Message)))
    (executed : Z) (errors : list string) (w : World)
  : (Z * list string) * World :=
  match ready with
  | [] => ((executed, errors), w)
  | sw :: rest =>
      let '((executed, errors), w) := executeSwitch now sw executed errors w in
      executeLoop now rest executed errors w
  end.

Definition executeVerifiedSwitches (now : Date) : Async ExecutionReport :=
  fun w =>
    let readyForExecution :=
      map (fun s => (s, recipientsWithMessage (prisma w) (sw_id s)))
        (List.filter (isReady now) (Prisma.allRows switchT (prisma w))) in
    let '((executed, errors), w') := executeLoop now readyForExecution 0 [] w in
    (Ok (mkExecutionReport (Z.of_nat (length readyForExecution)) executed errors),
     w').

End WithRuntime.

(** [verifyAndUseCheckInToken]. *)
Definition verifyAndUseCheckInToken (now : Date) (token : string)
  : Async (option string) :=
  checkInToken ← Prisma.findFirst checkInTokenT
    (fun t => String.eqb (ct_token t) token);
  match checkInToken with
  | None => ret None
  | Some checkInToken =>
      if ct_expiresAt checkInToken <? now then ret None
      else if bool_decide (is_Some (ct_usedAt checkInToken)) then
        ret (Some (ct_switchId checkInToken))
      else
        Prisma.update checkInTokenT (ct_id checkInToken)
          (fun t =>
             mkCheckInToken (ct_id t) (ct_switchId t) (ct_token t)
               (ct_expiresAt t) (Some now));;
        ret (Some (ct_switchId checkInToken))
  end.

End Scheduler.

(** ** src/lib/verificationSystem.ts

    The repository holds two versions of this file.  [VerificationSystem] is
    the one with one-time codes ([verifyOtpAndVote]); [LegacyVerificationSystem]
    is the one without.  Their [submitVerificationVote] differ in the branch
    of a DENY vote only. *)

Record SubmitVoteInput := mkSubmitVoteInput {
  in_token : string;
  in_vote : VerificationVote
}.

Inductive VoteResult := pending | confirmed | denied.

(** A verification token with the relations the queries [include]: its
    request, and the switch of the request. *)
Record TokenWithRequest := mkTokenWithRequest {
  verificationToken : VerificationToken;
  verificationRequest : VerificationRequest;
  switch : Switch
}.

Module VerificationQueries.

Import EmailService.

(** [verificationToken.findUnique({ where: { token }, include: ... })].
    The relations are required ones; a row without them is an inconsistent
    result of the client. *)
Definition findToken (token : string) : Async (option TokenWithRequest) :=
  verificationToken ← Prisma.findFirst verificationTokenT
    (fun t => String.eqb (vt_token t) token);
  match verificationToken with
  | None => ret None
  | Some verificationToken =>
      request ← Prisma.findUnique verificationRequestT
        (vt_verificationRequestId verificationToken);
      match request with
      | None => throw (Error "Inconsistent query result")
      | Some request =>
          switch ← Prisma.findUnique switchT (vr_switchId request);
          match switch with
          | None => throw (Error "Inconsistent query result")
          | Some switch =>
              ret (Some (mkTokenWithRequest verificationToken request switch))
          end
      end
  end.

(** The unique key [verificationRequestId_verifierId] of the votes. *)
Definition isVoteOf (requestId verifierId : string)
    (v : VerificationVoteRecord) : bool :=
  String.eqb (vv_verificationRequestId v) requestId
  && String.eqb (vv_verifierId v) verifierId.

Definition sameVoter (v : VerificationVoteRecord)
  : VerificationVoteRecord -> bool :=
  isVoteOf (vv_verificationRequestId v) (vv_verifierId v).

Definition isConfirmFor (requestId : string) (v : VerificationVoteRecord)
  : bool :=
  String.eqb (vv_verificationRequestId v) requestId
  && bool_decide (vv_vote v = CONFIRM).

Definition markUsed (now : Date) (t : VerificationToken) : VerificationToken :=
  mkVerificationToken (vt_id t) (vt_verificationRequestId t) (vt_verifierId t)
    (vt_token t) (vt_otp t) (vt_otpExpiresAt t) (vt_expiresAt t) (Some now).

Definition voteAudit (voteId requestId verifierId : string)
    (vote : VerificationVote) (options : option ClientInfo) : AuditLog :=
  {| entityType := ENTITY_TYPES.VERIFICATION_VOTE;
     entityId := voteId;
     action := AUDIT_ACTIONS.VERIFICATION_VOTE_SUBMITTED;
     al_userId := None;
     metadata :=
       [("verificationRequestId", requestId);
        ("verifierId", verifierId);
        ("vote", voteName vote)];
     al_ipAddress := orNull (info options ipAddress);
     al_userAgent := orNull (info options userAgent) |}.

End VerificationQueries.

Module VerificationSystem.

Import EmailService VerificationQueries.

Definition OTP_EXPIRATION_DAYS : Z := 40.

Definition submitVerificationVote (now : Date) (input : SubmitVoteInput)
    (options : option ClientInfo)
  : Async (VerificationVoteRecord * VoteResult) :=
  found ← findToken (in_token input);
  match found with
  | None => throw (Error "Invalid verification token")
  | Some (mkTokenWithRequest verificationToken verificationRequest switch) =>
      if vt_expiresAt verificationToken <? now then
        throw (Error "Verification token has expired")
      else if bool_decide (is_Some (vt_usedAt verificationToken)) then
        throw (Error "This token has already been used")
      else if bool_decide (is_Some (vr_completedAt verificationRequest)) then
        throw (Error "This verification request has already been completed")
      else
        let verifierId := vt_verifierId verificationToken in
        existingVote ← Prisma.findFirst verificationVoteRecordT
          (isVoteOf (vr_id verificationRequest) verifierId);
        match existingVote with
        | Some _ =>
            throw (Error "You have already submitted a vote for this verification")
        | None =>
            transaction (
              Prisma.update verificationTokenT (vt_id verificationToken)
                (markUsed now);;
              vote ← Prisma.create verificationVoteRecordT sameVoter
                (fun id =>
                   mkVoteRecord id (vr_id verificationRequest) verifierId
                     (in_vote input) now
                     (orNull (info options ipAddress))
                     (orNull (info options userAgent)));
              Prisma.auditLog_create
                (voteAudit (vv_id vote) (vr_id verificationRequest) verifierId
                   (in_vote input) options);;
              if bool_decide (in_vote input = DENY) then
                Prisma.update verificationRequestT (vr_id verificationRequest)
                  (StateMachine.completeRequest now Denied);;
                Prisma.update switchT (vr_switchId verificationRequest)
                  (StateMachine.applyUpdate
                     (StateMachine.mkSwitchUpdate (Some PAUSED) None None
                        (Some None) (Some None)));;
                ret (vote, denied)
              else
                confirmVotes ← Prisma.count verificationVoteRecordT
                  (isConfirmFor (vr_id verificationRequest));
                if confirmVotes >=? vr_requiredConfirmations verificationRequest
                then
                  Prisma.update verificationRequestT (vr_id verificationRequest)
                    (StateMachine.completeRequest now Confirmed);;
                  Prisma.update switchT (vr_switchId verificationRequest)
                    (StateMachine.applyUpdate
                       (StateMachine.mkSwitchUpdate (Some VERIFIED) None None
                          None
                          (Some (Some (now + StateMachine.hours
                                               (finalDelayHours switch))))));;
                  ret (vote, confirmed)
                else ret (vote, pending))
        end
  end.

Record OtpVoteResult := mkOtpVoteResult {
  success : bool;
  result : VoteResult;
  error : option string
}.

Definition otpFailed (entityId : string) (reason : list (string * string))
    (options : option ClientInfo) : Async unit :=
  createAuditLog
    (mkAuditInput ENTITY_TYPES.VERIFICATION_REQUEST entityId
       AUDIT_ACTIONS.VERIFICATION_OTP_FAILED None reason
       (info options ipAddress) (info options userAgent)).

Section WithRuntime.
Variable rt : Runtime.

Definition verifyOtpAndVote (now : Date) (token otp : string)
    (vote : VerificationVote) (options : option ClientInfo)
  : Async OtpVoteResult :=
  found ← findToken token;
  match found with
  | None =>
      otpFailed "unknown" [("reason", "Invalid token")] options;;
      ret (mkOtpVoteResult false pending (Some "Invalid verification token"))
  | Some (mkTokenWithRequest verificationToken verificationRequest switch) =>
      let requestId := vt_verificationRequestId verificationToken in
      let verifierId := vt_verifierId verificationToken in
      if vt_expiresAt verificationToken <? now then
        otpFailed requestId
          [("verifierId", verifierId); ("reason", "Token expired")] options;;
        ret (mkOtpVoteResult false pending
               (Some "Verification token has expired"))
      else if bool_decide (is_Some (vt_usedAt verificationToken)) then
        ret (mkOtpVoteResult false pending
               (Some "This token has already been used"))
      else if Scheduler.lt (vt_otpExpiresAt verificationToken) now then
        otpFailed requestId
          [("verifierId", verifierId); ("reason", "OTP expired")] options;;
        ret (mkOtpVoteResult false pending
               (Some "Verification code has expired"))
      else if
        match vt_otp verificationToken with
        | Some hash => negb (truthy hash) || negb (Encryption.verifyOtp rt otp hash)
        | None => true
        end
      then
        otpFailed requestId
          [("verifierId", verifierId); ("reason", "Invalid OTP")] options;;
        ret (mkOtpVoteResult false pending (Some "Invalid verification code"))
      else if bool_decide (is_Some (vr_completedAt verificationRequest)) then
        ret (mkOtpVoteResult false pending
               (Some "This verification request has already been completed"))
      else
        existingVote ← Prisma.findFirst verificationVoteRecordT
          (isVoteOf (vr_id verificationRequest) verifierId);
        match existingVote with
        | Some _ =>
            ret (mkOtpVoteResult false pending
                   (Some "You have already submitted a vote for this verification"))
        | None =>
            createAuditLog
              (mkAuditInput ENTITY_TYPES.VERIFICATION_REQUEST
                 (vr_id verificationRequest)
                 AUDIT_ACTIONS.VERIFICATION_OTP_VERIFIED None
                 [("verifierId", verifierId)]
                 (info options ipAddress) (info options userAgent));;
            voteResult ← submitVerificationVote now
              (mkSubmitVoteInput token vote) options;
            ret (mkOtpVoteResult true voteResult.2 None)
        end
  end.

End WithRuntime.

End VerificationSystem.

Module LegacyVerificationSystem.

Import EmailService VerificationQueries.

Definition submitVerificationVote (now : Date) (input : SubmitVoteInput)
    (options : option ClientInfo)
  : Async (VerificationVoteRecord * VoteResult) :=
  found ← findToken (in_token input);
  match found with
  | None => throw (Error "Invalid verification token")
  | Some (mkTokenWithRequest verificationToken verificationRequest switch) =>
      if vt_expiresAt verificationToken <? now then
        throw (Error "Verification token has expired")
      else if bool_decide (is_Some (vt_usedAt verificationToken)) then
        throw (Error "This token has already been used")
      else if bool_decide (is_Some (vr_completedAt verificationRequest)) then
        throw (Error "This verification request has already been completed")
      else
        let verifierId := vt_verifierId verificationToken in
        existingVote ← Prisma.findFirst verificationVoteRecordT
          (isVoteOf (vr_id verificationRequest) verifierId);
        match existingVote with
        | Some _ =>
            throw (Error "You have already submitted a vote for this verification")
        | None =>
            transaction (
              Prisma.update verificationTokenT (vt_id verificationToken)
                (markUsed now);;
              vote ← Prisma.create verificationVoteRecordT sameVoter
                (fun id =>
                   mkVoteRecord id (vr_id verificationRequest) verifierId
                     (in_vote input) now
                     (orNull (info options ipAddress))
                     (orNull (info options userAgent)));
              Prisma.auditLog_create
                (voteAudit (vv_id vote) (vr_id verificationRequest) verifierId
                   (in_vote input) options);;
              if bool_decide (in_vote input = DENY) then
                Prisma.update verificationRequestT (vr_id verificationRequest)
                  (StateMachine.completeRequest now Denied);;
                Prisma.update switchT (vr_switchId verificationRequest)
                  (StateMachine.applyUpdate
                     (StateMachine.mkSwitchUpdate (Some ACTIVE)
                        (Some (Some now))
                        (Some (Some (now + StateMachine.days
                                             (checkInIntervalDays switch))))
                        (Some None) (Some None)));;
                ret (vote, denied)
              else
                confirmVotes ← Prisma.count verificationVoteRecordT
                  (isConfirmFor (vr_id verificationRequest));
                if confirmVotes >=? vr_requiredConfirmations verificationRequest
                then
                  Prisma.update verificationRequestT (vr_id verificationRequest)
                    (StateMachine.completeRequest now Confirmed);;
                  Prisma.update switchT (vr_switchId verificationRequest)
                    (StateMachine.applyUpdate
                       (StateMachine.mkSwitchUpdate (Some VERIFIED) None None
                          None
                          (Some (Some (now + StateMachine.hours
                                               (finalDelayHours switch))))));;
                  ret (vote, confirmed)
                else ret (vote, pending))
        end
  end.

End LegacyVerificationSystem.

(** ** src/app/api/verify/route.ts

    The repository holds two versions of the route.  [VerifyRoute] is the
    one that imports [verifyOtpAndVote]; [LegacyVerifyRoute] has the vote
    without a code only. *)

Module Http.

(** A value of the parsed JSON body, as far as the handlers look at it. *)
Inductive Json :=
| JUndefined
| JNull
| JBool (b : bool)
| JNumber (n : Z)
| JString (s : string)
| JObject.

(** JavaScript truthiness. *)
Definition jsTruthy (j : Json) : bool :=
  match j with
  | JUndefined | JNull => false
  | JBool b => b
  | JNumber n => negb (n =? 0)
  | JString s => truthy s
  | JObject => true
  end.

Record Body := mkBody {
  token : Json;
  otp : Json;
  vote : Json
}.

Inductive ResponseData :=
| VoteData (vote : VerificationVoteRecord) (result : VoteResult)
| ResultData (result : VoteResult)
| VerifierData (verifier : string).

(** [NextResponse.json({ success, error, data }, { status })]. *)
Record Response := mkResponse {
  httpStatus : Z;
  success : bool;
  error : option string;
  data : option ResponseData
}.

(** The first issue zod reports for a field of the wrong type (the texts of
    zod's own messages are abridged). *)
Definition zodIssue (j : Json) : string :=
  match j with JUndefined => "Required" | _ => "Invalid input" end.

Definition parseEnum (j : Json) : option VerificationVote :=
  match j with
  | JString s =>
      if String.eqb s "CONFIRM" then Some CONFIRM
      else if String.eqb s "DENY" then Some DENY
      else None
  | _ => None
  end.

(** [submitVoteSchema.safeParse(body)]. *)
Definition submitVoteSchema (body : Body) : string + SubmitVoteInput :=
  match token body with
  | JString t =>
      match parseEnum (vote body) with
      | Some v => inr (mkSubmitVoteInput t v)
      | None => inl (zodIssue (vote body))
      end
  | j => inl (zodIssue j)
  end.

(** [submitOtpVoteSchema.safeParse(body)].  zod measures the code in
    UTF-16 code units and [String.length] in bytes; the two agree on codes
    of ASCII characters, the codes [generateOtp] makes, and the properties
    below are about such codes. *)
Definition submitOtpVoteSchema (body : Body)
  : string + (string * string * VerificationVote) :=
  match token body with
  | JString t =>
      match otp body with
      | JString o =>
          if negb (Z.of_nat (String.length o) =? 6) then
            inl "Verification code must be 6 digits"
          else
            match parseEnum (vote body) with
            | Some v => inr (t, o, v)
            | None => inl (zodIssue (vote body))
            end
      | j => inl (zodIssue j)
      end
  | j => inl (zodIssue j)
  end.

(** [acceptInviteSchema.safeParse(body)]. *)
Definition acceptInviteSchema (body : Body) : option string :=
  match token body with JString t => Some t | _ => None end.

(** The [catch] of a handler: the exception becomes a 400 response. *)
Definition catchAll (handler : Async Response) : Async Response :=
  tryCatch handler
    (fun error => ret (mkResponse 400 false (Some (let 'Error m := error in m)) None)).

(** The request headers the handlers read. *)
Record Headers := mkHeaders {
  x_forwarded_for : option string;
  user_agent : option string
}.

Definition clientInfo (h : Headers) : option EmailService.ClientInfo :=
  Some (EmailService.mkClientInfo (orNull (x_forwarded_for h))
          (orNull (user_agent h))).

End Http.

Module VerifyRoute.

Import Http.

Section WithRuntime.
Variable rt : Runtime.
(** [acceptVerifierInvitation] works on the verifiers, which the store above
    leaves out; the handler is given it. *)
Variable acceptVerifierInvitation :
  Date -> string -> option EmailService.ClientInfo -> Async string.

Definition POST (now : Date) (action : option string) (headers : Headers)
    (body : Body) : Async Response :=
  catchAll (
    if bool_decide (action = Some "accept-invite") then
      match acceptInviteSchema body with
      | None => ret (mkResponse 400 false (Some "Invalid token") None)
      | Some t =>
          verifier ← acceptVerifierInvitation now t (clientInfo headers);
          ret (mkResponse 200 true None (Some (VerifierData verifier)))
      end
    else if jsTruthy (otp body) then
      match submitOtpVoteSchema body with
      | inl message => ret (mkResponse 400 false (Some message) None)
      | inr (t, o, v) =>
          result ← VerificationSystem.verifyOtpAndVote rt now t o v
            (clientInfo headers);
          if negb (VerificationSystem.success result) then
            ret (mkResponse 400 false (VerificationSystem.error result) None)
          else
            ret (mkResponse 200 true None
                   (Some (ResultData (VerificationSystem.result result))))
      end
    else
      match submitVoteSchema body with
      | inl message => ret (mkResponse 400 false (Some message) None)
      | inr input =>
          result ← VerificationSystem.submitVerificationVote now input
            (clientInfo headers);
          ret (mkResponse 200 true None (Some (VoteData result.1 result.2)))
      end).

End WithRuntime.

End VerifyRoute.

Module LegacyVerifyRoute.

Import Http.

Section WithInvitation.
Variable acceptVerifierInvitation :
  Date -> string -> option EmailService.ClientInfo -> Async string.

Definition POST (now : Date) (action : option string) (headers : Headers)
    (body : Body) : Async Response :=
  catchAll (
    if bool_decide (action = Some "accept-invite") then
      match acceptInviteSchema body with
      | None => ret (mkResponse 400 false (Some "Invalid token") None)
      | Some t =>
          verifier ← acceptVerifierInvitation now t (clientInfo headers);
          ret (mkResponse 200 true None (Some (VerifierData verifier)))
      end
    else
      match submitVoteSchema body with
      | inl message => ret (mkResponse 400 false (Some message) None)
      | inr input =>
          result ← LegacyVerificationSystem.submitVerificationVote now input
            (clientInfo headers);
          ret (mkResponse 200 true None (Some (VoteData result.1 result.2)))
      end).

End WithInvitation.

End LegacyVerifyRoute.

(** * Further code of the repository

    The owner-facing operations on switches and messages, the token
    helpers of the encryption module and two more queries, modelled over the
    same store. *)

(** ** src/types/audit.ts (further constants) *)

Module AuditNames.
Definition MESSAGE := "message".
Definition SWITCH_CREATED := "switch_created".
Definition SWITCH_UPDATED := "switch_updated".
Definition SWITCH_DELETED := "switch_deleted".
Definition SWITCH_PAUSED := "switch_paused".
Definition SWITCH_RESUMED := "switch_resumed".
Definition SWITCH_CANCELED := "switch_canceled".
Definition MESSAGE_CREATED := "message_created".
Definition MESSAGE_UPDATED := "message_updated".
Definition MESSAGE_DELETED := "message_deleted".
End AuditNames.

Module PrismaWrite.

Section Client.
Context {R : Type} (T : Table R).

(** [delete({ where: { id } })]: raises when there is no such row. What
    the schema does to the rows of other tables that refer to the deleted
    one (cascade or refusal) is not in the sources at hand and is left out;
    the properties below speak of deletions only where they are refused. *)
Definition delete (id : string) : Async R :=
  fun w =>
    match rows T (prisma w) !! id with
    | Some r =>
        (Ok r,
         mkWorld (setRows T (base.delete id (rows T (prisma w))) (prisma w))
           (outbox w))
    | None => (Throw (Error "Record to delete does not exist."), w)
    end.

End Client.

End PrismaWrite.

(** ** src/lib/encryption.ts, the token helpers *)

Module Tokens.

(** [s.replace(/c/g, d)] for a one-character pattern. *)
Fixpoint replaceAll (c d : ascii) (s : string) : string :=
  match s with
  | EmptyString => EmptyString
  | String x rest =>
      String (if Ascii.eqb x c then d else x) (replaceAll c d rest)
  end.

(** [s.replace(/c/g, '')]. *)
Fixpoint removeAll (c : ascii) (s : string) : string :=
  match s with
  | EmptyString => EmptyString
  | String x rest =>
      if Ascii.eqb x c then removeAll c rest else String x (removeAll c rest)
  end.

(** [s.padStart(n, c)] for a one-character filler. *)
Definition padStart (n : nat) (c : ascii) (s : string) : string :=
  string_of_list_ascii (replicate (n - String.length s) c) ++ s.

(** [generateUrlSafeToken]; [bytes] is the draw of [randomBytes]. *)
Definition generateUrlSafeToken (rt : Runtime) (bytes : Buffer) : string :=
  removeAll "=" (replaceAll "/" "_" (replaceAll "+" "-" (toBase64 rt bytes))).

Definition hashToken (rt : Runtime) (token : string) : string :=
  sha256Hex rt token.

(** [generateOtp]; [randomValue] is [randomBytes(4).readUInt32BE(0)], and
    [toString] of a non-negative integer is its decimal notation. *)
Definition generateOtp (randomValue : N) : string :=
  padStart 6 "0" (pretty (randomValue mod 1000000)%N).

End Tokens.

(** ** src/lib/scheduler.ts, [createCheckInToken] *)

Module CheckInTokens.

Definition sameToken (t : CheckInToken) : CheckInToken -> bool :=
  fun t' => String.eqb (ct_token t') (ct_token t).

(** [createCheckInToken]; [bytes] is the draw of [generateUrlSafeToken].
    The column [token] is unique. *)
Definition createCheckInToken (rt : Runtime) (bytes : Buffer) (now : Date)
    (switchId : string) : Async string :=
  let token := Tokens.generateUrlSafeToken rt bytes in
  let expiresAt := now + 7 * 24 * 60 * 60 * 1000 in
  Prisma.create checkInTokenT sameToken
    (fun id => mkCheckInToken id switchId token expiresAt None);;
  ret token.

End CheckInTokens.

(** ** src/lib/verificationSystem.ts, [getActiveVerificationRequest] *)

Module ActiveRequest.

Definition isActiveFor (now : Date) (switchId : string)
    (r : VerificationRequest) : bool :=
  String.eqb (vr_switchId r) switchId
  && bool_decide (vr_completedAt r = None)
  && (now <? vr_expiresAt r).

(** The first row by [orderBy: { startedAt: 'desc' }]. *)
Fixpoint latest (l : list VerificationRequest) : option VerificationRequest :=
  match l with
  | [] => None
  | r :: rest =>
      match latest rest with
      | Some r' => if vr_startedAt r <? vr_startedAt r' then Some r' else Some r
      | None => Some r
      end
  end.

Definition getActiveVerificationRequest (now : Date) (switchId : string)
  : Async (option VerificationRequest) :=
  fun w =>
    (Ok (latest
           (List.filter (isActiveFor now switchId)
              (Prisma.allRows verificationRequestT (prisma w)))), w).

End ActiveRequest.

(** ** src/lib/switchManager.ts *)

Module SwitchManager.

Import EmailService.

Record CreateSwitchInput := mkCreateSwitchInput {
  c_name : string;
  c_checkInIntervalDays : Z;
  c_gracePeriodDays : Z;
  c_verificationWindowDays : option Z;
  c_finalDelayHours : option Z;
  c_useVerifiers : bool;
  c_requiredConfirmations : option Z
}.

Record UpdateSwitchInput := mkUpdateSwitchInput {
  i_name : option string;
  i_checkInIntervalDays : option Z;
  i_gracePeriodDays : option Z;
  i_verificationWindowDays : option Z;
  i_finalDelayHours : option Z;
  i_useVerifiers : option bool;
  i_requiredConfirmations : option Z
}.

(** [options] of [pauseSwitch]. *)
Record PauseOptions := mkPauseOptions {
  p_ipAddress : option string;
  p_userAgent : option string;
  p_reason : option string
}.

(** [n || d] on an optional number: zero is falsy. *)
Definition orDefault (o : option Z) (d : Z) : Z :=
  match o with
  | Some n => if n =? 0 then d else n
  | None => d
  end.

(** [{ userId, ...options }], with the [metadata] given. *)
Definition transitionOptions (userId : string) (options : option ClientInfo)
    (metadata : list (string * string)) : option StateMachine.Options :=
  Some (StateMachine.mkOptions (Some userId) (info options ipAddress)
          (info options userAgent) metadata).

Definition accessDenied : Exn := Error "Switch not found or access denied".

(** [mapToSwitch(updatedSwitch!)]. *)
Definition reread (switchId : string) : Async Switch :=
  updatedSwitch ← Prisma.findUnique switchT switchId;
  match updatedSwitch with
  | Some s => ret s
  | None => throw (Error "Cannot read properties of null (reading 'id')")
  end.

Definition createSwitch (now : Date) (userId : string)
    (input : CreateSwitchInput) (options : option ClientInfo) : Async Switch :=
  let nextCheckInDueAt :=
    now + StateMachine.days (c_checkInIntervalDays input) in
  switchData ← Prisma.create switchT Prisma.noConstraint
    (fun id =>
       mkSwitch id userId (c_name input) ACTIVE
         (c_checkInIntervalDays input) (c_gracePeriodDays input)
         (orDefault (c_verificationWindowDays input) 7)
         (orDefault (c_finalDelayHours input) 24)
         (c_useVerifiers input)
         (orDefault (c_requiredConfirmations input) 2)
         (Some now) (Some nextCheckInDueAt) None None);
  createAuditLog
    (mkAuditInput ENTITY_TYPES.SWITCH (sw_id switchData)
       AuditNames.SWITCH_CREATED (Some userId)
       [("name", c_name input);
        ("checkInIntervalDays", pretty (c_checkInIntervalDays input));
        ("gracePeriodDays", pretty (c_gracePeriodDays input));
        ("useVerifiers", if c_useVerifiers input then "true" else "false")]
       (info options ipAddress) (info options userAgent));;
  ret switchData.

Definition editableStates : list SwitchStatus :=
  [ACTIVE; OVERDUE; PAUSED; CANCELED].

(** The row after [update({ data: updateData })] with the [updateData]
    that [updateSwitch] builds from [input] and the row it read. *)
Definition applyInput (existingSwitch : Switch) (input : UpdateSwitchInput)
    (s : Switch) : Switch :=
  mkSwitch (sw_id s) (sw_userId s)
    (default (sw_name s) (i_name input))
    (status s)
    (default (checkInIntervalDays s) (i_checkInIntervalDays input))
    (default (gracePeriodDays s) (i_gracePeriodDays input))
    (default (verificationWindowDays s) (i_verificationWindowDays input))
    (default (finalDelayHours s) (i_finalDelayHours input))
    (default (useVerifiers s) (i_useVerifiers input))
    (default (requiredConfirmations s) (i_requiredConfirmations input))
    (lastCheckInAt s)
    (match i_checkInIntervalDays input, lastCheckInAt existingSwitch with
     | Some d, Some last =>
         if bool_decide (status existingSwitch = ACTIVE)
         then Some (last + StateMachine.days d)
         else nextCheckInDueAt s
     | _, _ => nextCheckInDueAt s
     end)
    (gracePeriodEndsAt s) (scheduledExecutionAt s).

(** [{ changes: input }], the fields of the input that are defined. *)
Definition changes (input : UpdateSwitchInput) : list (string * string) :=
  let field {A} (k : string) (show : A -> string) (o : option A) :=
    match o with Some v => [("changes." ++ k, show v)] | None => [] end in
  (field "name" id (i_name input)
   ++ field "checkInIntervalDays" pretty (i_checkInIntervalDays input)
   ++ field "gracePeriodDays" pretty (i_gracePeriodDays input)
   ++ field "verificationWindowDays" pretty (i_verificationWindowDays input)
   ++ field "finalDelayHours" pretty (i_finalDelayHours input)
   ++ field "useVerifiers" (fun b : bool => if b then "true" else "false")
        (i_useVerifiers input)
   ++ field "requiredConfirmations" pretty (i_requiredConfirmations input))%list.

Definition updateSwitch (switchId userId : string)
    (input : UpdateSwitchInput) (options : option ClientInfo) : Async Switch :=
  existingSwitch ← Prisma.findUnique switchT switchId;
  match existingSwitch with
  | None => throw accessDenied
  | Some existingSwitch =>
      if negb (String.eqb (sw_userId existingSwitch) userId) then
        throw accessDenied
      else if negb (includes editableStates (status existingSwitch)) then
        throw (Error ("Cannot update switch in "
                      ++ statusName (status existingSwitch) ++ " state"))
      else
        updatedSwitch ← Prisma.update switchT switchId
          (applyInput existingSwitch input);
        createAuditLog
          (mkAuditInput ENTITY_TYPES.SWITCH switchId
             AuditNames.SWITCH_UPDATED (Some userId) (changes input)
             (info options ipAddress) (info options userAgent));;
        ret updatedSwitch
  end.

Definition deleteSwitch (switchId userId : string)
    (options : option ClientInfo) : Async unit :=
  existingSwitch ← Prisma.findUnique switchT switchId;
  match existingSwitch with
  | None => throw accessDenied
  | Some existingSwitch =>
      if negb (String.eqb (sw_userId existingSwitch) userId) then
        throw accessDenied
      else if bool_decide (status existingSwitch = EXECUTED) then
        throw (Error "Cannot delete an executed switch")
      else
        createAuditLog
          (mkAuditInput ENTITY_TYPES.SWITCH switchId
             AuditNames.SWITCH_DELETED (Some userId)
             [("name", sw_name existingSwitch)]
             (info options ipAddress) (info options userAgent));;
        PrismaWrite.delete switchT switchId;;
        ret tt
  end.

Definition getSwitchById (switchId userId : string)
  : Async (option Switch) :=
  switchData ← Prisma.findUnique switchT switchId;
  match switchData with
  | None => ret None
  | Some switchData =>
      if negb (String.eqb (sw_userId switchData) userId) then ret None
      else ret (Some switchData)
  end.

Definition performCheckIn (now : Date) (switchId userId : string)
    (options : option ClientInfo) : Async Switch :=
  existingSwitch ← Prisma.findUnique switchT switchId;
  match existingSwitch with
  | None => throw accessDenied
  | Some existingSwitch =>
      if negb (String.eqb (sw_userId existingSwitch) userId) then
        throw accessDenied
      else
        result ← StateMachine.checkIn now switchId
          (transitionOptions userId options []);
        if negb (StateMachine.success result) then
          throw (Error (default "Check-in failed"
                          (orNull (StateMachine.error result))))
        else reread switchId
  end.

Definition cancelSwitch (now : Date) (switchId userId : string)
    (options : option ClientInfo) : Async Switch :=
  existingSwitch ← Prisma.findUnique switchT switchId;
  match existingSwitch with
  | None => throw accessDenied
  | Some existingSwitch =>
      if negb (String.eqb (sw_userId existingSwitch) userId) then
        throw accessDenied
      else
        result ← StateMachine.transitionSwitchState now switchId CANCELED
          (transitionOptions userId options []);
        if negb (StateMachine.success result) then
          throw (Error (default "Cancel failed"
                          (orNull (StateMachine.error result))))
        else
          createAuditLog
            (mkAuditInput ENTITY_TYPES.SWITCH switchId
               AuditNames.SWITCH_CANCELED (Some userId) []
               (info options ipAddress) (info options userAgent));;
          reread switchId
  end.

Definition reasonMetadata (options : option PauseOptions)
  : list (string * string) :=
  match options with
  | Some o =>
      match p_reason o with Some r => [("reason", r)] | None => [] end
  | None => []
  end.

Definition pauseInfo (options : option PauseOptions) : option ClientInfo :=
  match options with
  | Some o => Some (mkClientInfo (p_ipAddress o) (p_userAgent o))
  | None => None
  end.

Definition pauseSwitch (now : Date) (switchId adminUserId : string)
    (options : option PauseOptions) : Async Switch :=
  result ← StateMachine.transitionSwitchState now switchId PAUSED
    (transitionOptions adminUserId (pauseInfo options)
       (reasonMetadata options));
  if negb (StateMachine.success result) then
    throw (Error (default "Pause failed" (orNull (StateMachine.error result))))
  else
    createAuditLog
      (mkAuditInput ENTITY_TYPES.SWITCH switchId AuditNames.SWITCH_PAUSED
         (Some adminUserId) (reasonMetadata options)
         (info (pauseInfo options) ipAddress)
         (info (pauseInfo options) userAgent));;
    reread switchId.

Definition resumeSwitch (now : Date) (switchId adminUserId : string)
    (options : option ClientInfo) : Async Switch :=
  result ← StateMachine.transitionSwitchState now switchId ACTIVE
    (transitionOptions adminUserId options []);
  if negb (StateMachine.success result) then
    throw (Error (default "Resume failed" (orNull (StateMachine.error result))))
  else
    createAuditLog
      (mkAuditInput ENTITY_TYPES.SWITCH switchId AuditNames.SWITCH_RESUMED
         (Some adminUserId) []
         (info options ipAddress) (info options userAgent));;
    reread switchId.

End SwitchManager.

(** ** src/lib/messageManager.ts *)

Module MessageManager.

Import EmailService.

Record CreateMessageInput := mkCreateMessageInput {
  recipientId : string;
  content : string;
  subject : option string
}.

Record UpdateMessageInput := mkUpdateMessageInput {
  u_content : option string;
  u_subject : option string
}.

Record DecryptedMessage := mkDecryptedMessage {
  d_id : string;
  d_recipientId : string;
  d_content : string;
  d_subject : option string
}.

Record MessageForSending := mkMessageForSending {
  s_content : string;
  s_subject : option string;
  recipientEmail : string;
  recipientName : option string
}.

Definition sameRecipient (m : Message) : Message -> bool :=
  fun m' => String.eqb (msg_recipientId m') (msg_recipientId m).

(** [message.findUnique({ where: { id }, include: { recipient: { include:
    { switch: true } } } })]; the relations are required ones. *)
Definition findWithOwner (messageId : string)
  : Async (option (Message * Recipient * Switch)) :=
  message ← Prisma.findUnique messageT messageId;
  match message with
  | None => ret None
  | Some message =>
      recipient ← Prisma.findUnique recipientT (msg_recipientId message);
      match recipient with
      | None => throw (Error "Inconsistent query result")
      | Some recipient =>
          switch ← Prisma.findUnique switchT (rc_switchId recipient);
          match switch with
          | None => throw (Error "Inconsistent query result")
          | Some switch => ret (Some (message, recipient, switch))
          end
      end
  end.

Definition denied : Exn := Error "Message not found or access denied".

Section WithRuntime.
Variable rt : Runtime.

(** [createMessage]; [iv] and [salt] are the draws of [encrypt]. *)
Definition createMessage (iv salt : Buffer) (switchId userId : string)
    (input : CreateMessageInput) (options : option ClientInfo)
  : Async Message :=
  recipient ← Prisma.findUnique recipientT (recipientId input);
  match recipient with
  | None => throw (Error "Recipient not found or access denied")
  | Some recipient =>
      switch ← Prisma.findUnique switchT (rc_switchId recipient);
      match switch with
      | None => throw (Error "Inconsistent query result")
      | Some switch =>
          if negb (String.eqb (sw_userId switch) userId) then
            throw (Error "Recipient not found or access denied")
          else
            existingMessage ← Prisma.findFirst messageT
              (fun m => String.eqb (msg_recipientId m) (recipientId input));
            match existingMessage with
            | Some _ =>
                throw (Error "Message already exists for this recipient. Use update instead.")
            | None =>
                e ← liftResult (Encryption.encrypt rt iv salt (content input));
                message ← Prisma.create messageT sameRecipient
                  (fun id =>
                     mkMessage id switchId (recipientId input)
                       (Encryption.encrypted e) (Encryption.iv e)
                       (orNull (subject input)));
                createAuditLog
                  (mkAuditInput AuditNames.MESSAGE (msg_id message)
                     AuditNames.MESSAGE_CREATED (Some userId)
                     [("switchId", switchId);
                      ("recipientId", recipientId input);
                      ("hasSubject",
                       if bool_decide (is_Some (orNull (subject input)))
                       then "true" else "false")]
                     (info options ipAddress) (info options userAgent));;
                ret message
            end
      end
  end.

(** The row after [update({ data: updateData })] of [updateMessage]. *)
Definition applyContent (e : option Encryption.Encrypted)
    (subject : option string) (m : Message) : Message :=
  mkMessage (msg_id m) (msg_switchId m) (msg_recipientId m)
    (match e with Some e => Encryption.encrypted e | None => msg_encryptedContent m end)
    (match e with Some e => Encryption.iv e | None => msg_encryptionIv m end)
    (match subject with Some s => Some s | None => msg_subject m end).

Definition updateMessage (iv salt : Buffer) (messageId userId : string)
    (input : UpdateMessageInput) (options : option ClientInfo)
  : Async Message :=
  existingMessage ← findWithOwner messageId;
  match existingMessage with
  | None => throw denied
  | Some (_, _, switch) =>
      if negb (String.eqb (sw_userId switch) userId) then throw denied
      else if bool_decide (status switch = EXECUTED) then
        throw (Error "Cannot update message for an executed switch")
      else
        e ← match u_content input with
            | Some c =>
                e ← liftResult (Encryption.encrypt rt iv salt c);
                ret (Some e)
            | None => ret None
            end;
        message ← Prisma.update messageT messageId
          (applyContent e (u_subject input));
        createAuditLog
          (mkAuditInput AuditNames.MESSAGE messageId
             AuditNames.MESSAGE_UPDATED (Some userId)
             [("hasNewContent",
               if bool_decide (is_Some (u_content input)) then "true" else "false");
              ("hasNewSubject",
               if bool_decide (is_Some (u_subject input)) then "true" else "false")]
             (info options ipAddress) (info options userAgent));;
        ret message
  end.

Definition deleteMessage (messageId userId : string)
    (options : option ClientInfo) : Async unit :=
  existingMessage ← findWithOwner messageId;
  match existingMessage with
  | None => throw denied
  | Some (message, _, switch) =>
      if negb (String.eqb (sw_userId switch) userId) then throw denied
      else if bool_decide (status switch = EXECUTED) then
        throw (Error "Cannot delete message for an executed switch")
      else
        createAuditLog
          (mkAuditInput AuditNames.MESSAGE messageId
             AuditNames.MESSAGE_DELETED (Some userId)
             [("recipientId", msg_recipientId message);
              ("switchId", msg_switchId message)]
             (info options ipAddress) (info options userAgent));;
        PrismaWrite.delete messageT messageId;;
        ret tt
  end.

Definition getDecryptedMessage (messageId userId : string)
  : Async (option DecryptedMessage) :=
  message ← findWithOwner messageId;
  match message with
  | None => ret None
  | Some (message, _, switch) =>
      if negb (String.eqb (sw_userId switch) userId) then ret None
      else
        decryptedContent ← liftResult
          (Encryption.decrypt rt (msg_encryptedContent message));
        ret (Some (mkDecryptedMessage (msg_id message)
                     (msg_recipientId message) decryptedContent
                     (msg_subject message)))
  end.

Definition decryptMessageForSending (messageId : string)
  : Async MessageForSending :=
  message ← Prisma.findUnique messageT messageId;
  match message with
  | None => throw (Error "Message not found")
  | Some message =>
      recipient ← Prisma.findUnique recipientT (msg_recipientId message);
      match recipient with
      | None => throw (Error "Inconsistent query result")
      | Some recipient =>
          content ← liftResult
            (Encryption.decrypt rt (msg_encryptedContent message));
          ret (mkMessageForSending content (msg_subject message)
                 (rc_email recipient) (rc_name recipient))
      end
  end.

End WithRuntime.

End MessageManager.

(** ** Sequences of state machine operations *)

Module Trace.

(** One call into src/lib/stateMachine.ts. *)
Inductive Op :=
| Transition (now : Date) (switchId : string) (newStatus : SwitchStatus)
    (options : option StateMachine.Options)
| CheckIn (now : Date) (switchId : string)
    (options : option StateMachine.Options).

Definition runOp (w : World) (op : Op) : World :=
  match op with
  | Transition now switchId newStatus options =>
      (StateMachine.transitionSwitchState now switchId newStatus options w).2
  | CheckIn now switchId options =>
      (StateMachine.checkIn now switchId options w).2
  end.

Definition runOps (ops : list Op) (w : World) : World :=
  fold_left runOp ops w.

End Trace.

(** ** The failures of the state machine

    The code reports a failure as [success: false] with a message; the
    kinds of failure the specification names are told apart by the message. *)

Module Failure.

Import StateMachine.

Definition notFound (r : StateTransitionResult) : Prop :=
  success r = false /\ error r = Some "Switch not found".

Definition invalidTransition (r : StateTransitionResult) : Prop :=
  success r = false
  /\ error r = Some ("Invalid transition from " ++ statusName (previousStatus r)
                     ++ " to " ++ statusName (newStatus r)).

Definition invalidCheckIn (r : StateTransitionResult) : Prop :=
  success r = false
  /\ error r = Some ("Cannot check in from " ++ statusName (previousStatus r)
                     ++ " state").

End Failure.

(** ** Integrity constraints of the store *)

Module Integrity.

(** The primary key: the key of a row in its table is the [id] of the row. *)
Definition keyed {R} (id : R -> string) (t : gmap string R) : Prop :=
  map_Forall (fun k r => id r = k) t.

(** A unique column: two rows that agree on it are the same row. *)
Definition uniqueColumn {R} (col : R -> string) (t : gmap string R) : Prop :=
  forall k1 k2 r1 r2,
    t !! k1 = Some r1 -> t !! k2 = Some r2 -> col r1 = col r2 -> k1 = k2.

End Integrity.

(** ** Rows after an operation *)

Module Effects.

Import StateMachine.

(** The row of a switch after a successful [checkIn] at [now]. *)
Definition checkedIn (now : Date) (s : Switch) : Switch :=
  applyUpdate
    (mkSwitchUpdate (Some ACTIVE) (Some (Some now))
       (Some (Some (now + days (checkInIntervalDays s)))) (Some None)
       (Some None)) s.

(** The row of a switch after it was paused by a direct update. *)
Definition paused (s : Switch) : Switch :=
  applyUpdate (mkSwitchUpdate (Some PAUSED) None None None None) s.

(** Request [rid] is completed at [now] with [result]. *)
Definition completedAs (result : RequestResult) (now : Date) (d : Db)
    (rid : string) : Prop :=
  exists r,
    verificationRequests d !! rid = Some r
    /\ vr_completedAt r = Some now /\ vr_result r = Some result.

(** Switch [sid] has status [st]. *)
Definition hasStatus (st : SwitchStatus) (d : Db) (sid : string) : Prop :=
  exists s, switches d !! sid = Some s /\ status s = st.

(** What one iteration of the expiry pass keeps: rows stay, a request completed as expired
    stays so, a PAUSED switch stays PAUSED, the audit log only grows. *)
Record keeps (now : Date) (w w' : World) : Prop := mkKeeps {
  keeps_request k :
    is_Some (verificationRequests (prisma w) !! k) ->
    is_Some (verificationRequests (prisma w') !! k);
  keeps_switch k :
    is_Some (switches (prisma w) !! k) -> is_Some (switches (prisma w') !! k);
  keeps_expired k :
    completedAs Expired now (prisma w) k -> completedAs Expired now (prisma w') k;
  keeps_paused k :
    hasStatus PAUSED (prisma w) k -> hasStatus PAUSED (prisma w') k;
  keeps_audit a : a ∈ auditLogs (prisma w) -> a ∈ auditLogs (prisma w')
}.

(** The vote a verifier casts on a request, as it is stored. *)
Definition newVote (now : Date) (tk : VerificationToken)
    (req : VerificationRequest) (v : VerificationVote)
    (options : option EmailService.ClientInfo) (d : Db)
  : VerificationVoteRecord :=
  mkVoteRecord (fresh (dom (verificationVoteRecords d))) (vr_id req)
    (vt_verifierId tk) v now
    (orNull (EmailService.info options EmailService.ipAddress))
    (orNull (EmailService.info options EmailService.userAgent)).

(** The store after the first three writes of the vote transaction: the
    token is used, the vote is stored, the audit entry is appended. *)
Definition afterVote (now : Date) (tk : VerificationToken)
    (req : VerificationRequest) (v : VerificationVote)
    (options : option EmailService.ClientInfo) (d : Db) : Db :=
  let vote := newVote now tk req v options d in
  setAuditLogs
    (auditLogs d
     ++ [VerificationQueries.voteAudit (vv_id vote) (vr_id req)
           (vt_verifierId tk) v options])
    (setRows verificationVoteRecordT
       (<[vv_id vote := vote]> (verificationVoteRecords d))
       (setRows verificationTokenT
          (<[vt_id tk := VerificationQueries.markUsed now tk]>
             (verificationTokens d))
          d)).

(** The number of CONFIRM votes stored for a request. *)
Definition confirmCount (d : Db) (rid : string) : Z :=
  Z.of_nat
    (length
       (List.filter (VerificationQueries.isConfirmFor rid)
          (Prisma.allRows verificationVoteRecordT d))).

(** The CONFIRM votes of a request, as the claim words them: the number of
    stored votes whose request is [rid] and whose vote is CONFIRM. *)
Definition confirmVotes (d : Db) (rid : string) : Z :=
  Z.of_nat
    (length
       (filter
          (fun v => vv_verificationRequestId v = rid /\ vv_vote v = CONFIRM)
          ((map_to_list (verificationVoteRecords d)).*2))).

(** What makes a vote through [token] acceptable at [now]: the token row
    [tk] is the one with this token, its request [req] and the switch [sw]
    of the request are stored, the link has not expired, the token is
    unused, the request is open, and the verifier has no vote on it. *)
Record votable (now : Date) (d : Db) (token : string)
    (tk : VerificationToken) (req : VerificationRequest) (sw : Switch)
  : Prop := mkVotable {
  v_unique : Integrity.uniqueColumn vt_token (verificationTokens d);
  v_token : verificationTokens d !! vt_id tk = Some tk;
  v_value : vt_token tk = token;
  v_request : verificationRequests d !! vr_id req = Some req;
  v_relation : vt_verificationRequestId tk = vr_id req;
  v_switch : switches d !! vr_switchId req = Some sw;
  v_link : ~ vt_expiresAt tk < now;
  v_unused : vt_usedAt tk = None;
  v_open : vr_completedAt req = None;
  v_first :
    forall k v,
      verificationVoteRecords d !! k = Some v ->
      ~ (vv_verificationRequestId v = vr_id req
         /\ vv_verifierId v = vt_verifierId tk)
}.

(** What the claim on CONFIRM votes says of one version [submit] of
    [submitVerificationVote]: the vote is stored and counted; when the count
    reaches the quorum snapshotted in the request, the request is completed
    as confirmed and the switch is VERIFIED with its execution scheduled
    after the final delay; otherwise request and switch are left alone and
    the answer is pending. *)
Definition confirmCounts
    (submit : Date -> SubmitVoteInput -> option EmailService.ClientInfo ->
              Async (VerificationVoteRecord * VoteResult))
    (now : Date) (w : World) (token : string) (req : VerificationRequest)
    (sw : Switch) (options : option EmailService.ClientInfo) : Prop :=
  exists vote res w',
    submit now (mkSubmitVoteInput token CONFIRM) options w
    = (Ok (vote, res), w')
    /\ verificationVoteRecords (prisma w') !! vv_id vote = Some vote
    /\ vv_vote vote = CONFIRM
    /\ confirmVotes (prisma w') (vr_id req)
       = confirmVotes (prisma w) (vr_id req) + 1
    /\ (vr_requiredConfirmations req <= confirmVotes (prisma w') (vr_id req) ->
        res = confirmed
        /\ completedAs Confirmed now (prisma w') (vr_id req)
        /\ exists s',
             switches (prisma w') !! vr_switchId req = Some s'
             /\ status s' = VERIFIED
             /\ scheduledExecutionAt s'
                = Some (now + finalDelayHours sw * 60 * 60 * 1000))
    /\ (confirmVotes (prisma w') (vr_id req) < vr_requiredConfirmations req ->
        res = pending
        /\ verificationRequests (prisma w') !! vr_id req = Some req
        /\ switches (prisma w') !! vr_switchId req = Some sw).

(** The answer [run] of a vote handler records a vote [v] on request
    [req]: the response is a success carrying the stored vote, and the vote
    completes the request as denied, or as confirmed once the quorum is
    reached. *)
Definition recordsVote (run : Result Http.Response * World) (now : Date)
    (w : World) (req : VerificationRequest) (v : VerificationVote) : Prop :=
  exists vote res w',
    run = (Ok (Http.mkResponse 200 true None (Some (Http.VoteData vote res))),
           w')
    /\ verificationVoteRecords (prisma w') !! vv_id vote = Some vote
    /\ vv_verificationRequestId vote = vr_id req
    /\ vv_vote vote = v
    /\ (v = DENY ->
        res = denied /\ completedAs Denied now (prisma w') (vr_id req))
    /\ (v = CONFIRM ->
        vr_requiredConfirmations req <= confirmCount (prisma w) (vr_id req) + 1 ->
        res = confirmed /\ completedAs Confirmed now (prisma w') (vr_id req)).

(** The number of deliveries of a message with status SENT. *)
Definition sentCount (d : Db) (messageId : string) : nat :=
  length
    (List.filter (EmailService.isSentFor messageId)
       (Prisma.allRows emailDeliveryT d)).

(** [encrypt(decrypt(x))], with the draws [iv] and [salt] of [encrypt];
    the result is the blob [encrypt] returns. *)
Definition encryptAfterDecrypt (rt : Runtime) (iv salt : Buffer) (x : string)
  : Result string :=
  match Encryption.decrypt rt x with
  | Ok plaintext =>
      match Encryption.encrypt rt iv salt plaintext with
      | Ok e => Ok (Encryption.encrypted e)
      | Throw err => Throw err
      end
  | Throw err => Throw err
  end.

(** [decrypt(encrypt(x).encrypted)]. *)
Definition decryptAfterEncrypt (rt : Runtime) (iv salt : Buffer) (x : string)
  : Result string :=
  match Encryption.encrypt rt iv salt x with
  | Ok e => Encryption.decrypt rt (Encryption.encrypted e)
  | Throw err => Throw err
  end.

End Effects.

(** ** Concrete stores and a reference runtime, for the examples *)

Module Fixtures.

Definition emptyDb : Db := mkDb ∅ ∅ ∅ ∅ ∅ ∅ ∅ ∅ [].

(** A switch checked in at time 0: seven days of interval, three of grace,
    fourteen of verification window, a final delay of a day, a quorum of two. *)
Definition aSwitch (id : string) (st : SwitchStatus) : Switch :=
  mkSwitch id "owner" "letters" st 7 3 14 24 true 2
    (Some 0) (Some 604800000) None None.

Definition worldOf (d : Db) : World := mkWorld d [].

Definition oneSwitch (st : SwitchStatus) : World :=
  worldOf (setRows switchT {["sw1" := aSwitch "sw1" st]} emptyDb).

(** An open verification request of switch [switchId]. *)
Definition aRequest (id switchId : string) (expiresAt : Date)
  : VerificationRequest :=
  mkVerificationRequest id switchId 0 expiresAt 2 None None.

(** Switch "sw1" in PENDING_VERIFICATION with its open request "vr1". *)
Definition pendingDb : Db :=
  setRows verificationRequestT {["vr1" := aRequest "vr1" "sw1" 2000]}
    (setRows switchT {["sw1" := aSwitch "sw1" PENDING_VERIFICATION]} emptyDb).

(** Switch "sw1", already EXECUTED, with a request left open that ran out
    at time 2000. *)
Definition staleRequestDb : Db :=
  setRows verificationRequestT {["vr1" := aRequest "vr1" "sw1" 2000]}
    (setRows switchT {["sw1" := aSwitch "sw1" EXECUTED]} emptyDb).

(** The verification token of verifier [verifier] for request "vr1"; the
    stored hash of its one-time code is [otpHash]. *)
Definition aToken (id verifier token otpHash : string) : VerificationToken :=
  mkVerificationToken id "vr1" verifier token (Some otpHash) (Some 3456000000)
    2000000 None.

(** Switch "sw1" in PENDING_VERIFICATION, its open request "vr1" with a
    quorum of two, the tokens of the verifiers "v1" and "v2", and the
    CONFIRM vote "v2" has cast already. *)
Definition votingDb : Db :=
  setRows verificationVoteRecordT
    {["vote1" := mkVoteRecord "vote1" "vr1" "v2" CONFIRM 500 None None]}
    (setRows verificationTokenT
       (<["tv1" := aToken "tv1" "v1" "tok-v1" "hash-of-123456"]>
          {["tv2" := VerificationQueries.markUsed 500
                       (aToken "tv2" "v2" "tok-v2" "hash-of-654321")]})
       (setRows verificationRequestT {["vr1" := aRequest "vr1" "sw1" 2000000]}
          (setRows switchT {["sw1" := aSwitch "sw1" PENDING_VERIFICATION]}
             emptyDb))).

(** The same store before anybody voted. *)
Definition noVoteDb : Db :=
  setRows verificationTokenT
    (<["tv1" := aToken "tv1" "v1" "tok-v1" "hash-of-123456"]>
       {["tv2" := aToken "tv2" "v2" "tok-v2" "hash-of-654321"]})
    (setRows verificationRequestT {["vr1" := aRequest "vr1" "sw1" 2000000]}
       (setRows switchT {["sw1" := aSwitch "sw1" PENDING_VERIFICATION]}
          emptyDb)).

(** A check-in token of switch "sw1", valid until time 5000. *)
Definition aCheckInToken (usedAt : option Date) : CheckInToken :=
  mkCheckInToken "ct1" "sw1" "tok-abc" 5000 usedAt.

Definition checkInTokenDb (usedAt : option Date) : Db :=
  setRows checkInTokenT {["ct1" := aCheckInToken usedAt]} emptyDb.

(** *** A reference runtime

    Hexadecimal digits stand in for base64, a reversal with a keyed tag for
    AES-256-GCM, a prefix for SHA-256: enough to run the code on concrete
    inputs and to see that [RuntimeContract] can be met. *)

Definition hexDigit (n : N) : ascii :=
  match n with
  | 0 => "0" | 1 => "1" | 2 => "2" | 3 => "3" | 4 => "4" | 5 => "5"
  | 6 => "6" | 7 => "7" | 8 => "8" | 9 => "9" | 10 => "a" | 11 => "b"
  | 12 => "c" | 13 => "d" | 14 => "e" | _ => "f"
  end%N%char.

Definition hexValue (c : ascii) : N :=
  match c with
  | "0" => 0 | "1" => 1 | "2" => 2 | "3" => 3 | "4" => 4 | "5" => 5
  | "6" => 6 | "7" => 7 | "8" => 8 | "9" => 9 | "a" => 10 | "b" => 11
  | "c" => 12 | "d" => 13 | "e" => 14 | _ => 15
  end%N%char.

Fixpoint toHex (b : Buffer) : string :=
  match b with
  | [] => EmptyString
  | c :: rest =>
      String (hexDigit (N_of_ascii c / 16))
        (String (hexDigit (N_of_ascii c mod 16)) (toHex rest))
  end.

Fixpoint ofHex (s : string) : Buffer :=
  match s with
  | String h (String l rest) =>
      ascii_of_N (hexValue h * 16 + hexValue l) :: ofHex rest
  | _ => []
  end.

Definition zeroByte : ascii := Ascii.zero.

Definition kdf (password salt : Buffer) (keylen : Z) : Buffer :=
  take (Z.to_nat keylen) (password ++ salt ++ replicate (Z.to_nat keylen) zeroByte).

Definition tagOf (key iv ciphertext : Buffer) : Buffer :=
  take 16 (ciphertext ++ key ++ iv ++ replicate 16 zeroByte).

Definition seal (key iv plaintext : Buffer) : Buffer * Buffer :=
  (rev plaintext, tagOf key iv (rev plaintext)).

Definition open (key iv authTag ciphertext : Buffer) : option Buffer :=
  if bool_decide (authTag = tagOf key iv ciphertext)
  then Some (rev ciphertext) else None.

Definition key64 : string :=
  "000102030405060708090a0b0c0d0e0f101112131415161718191a1b1c1d1e1f".

(** The reference runtime with the transport [smtp]. *)
Definition runtime
    (smtp : list SendEmailInput -> SendEmailInput -> Result string) : Runtime :=
  mkRuntime (Some key64) ofHex toHex ofHex
    list_ascii_of_string string_of_list_ascii kdf seal open
    (fun s => "sha256:" ++ s) smtp
    (fun content name => "<p>" ++ content ++ "</p>").

(** A transport that accepts every mail. *)
Definition accepting (sent : list SendEmailInput) (mail : SendEmailInput)
  : Result string := Ok "<id@smtp>".

(** A transport that is down. *)
Definition refusing (sent : list SendEmailInput) (mail : SendEmailInput)
  : Result string := Throw (Error "connect ECONNREFUSED").

(** [acceptVerifierInvitation] on a store without verifiers. *)
Definition noInvitation (now : Date) (token : string)
    (options : option EmailService.ClientInfo) : Async string :=
  throw (Error "Invalid or expired invitation token").

(** The ciphertext [encrypt] stores for [plaintext] under the reference
    runtime, for fixed draws of the salt and the nonce. *)
Definition ciphertextOf (plaintext : string) : string :=
  match
    Encryption.encrypt (runtime accepting)
      (list_ascii_of_string "nonce-0123456789")
      (list_ascii_of_string "salt-0123456789a") plaintext
  with
  | Ok e => Encryption.encrypted e
  | Throw _ => ""
  end.

(** Switch "sw1", VERIFIED, due for execution since time 500. *)
Definition dueSwitch : Switch :=
  mkSwitch "sw1" "owner" "letters" VERIFIED 7 3 14 24 false 2
    (Some 0) None None (Some 500).

(** The due switch with two recipients; the message of the first holds
    [content1], the message of the second [content2]. *)
Definition executionDb (content1 content2 : string) : Db :=
  setRows messageT
    (<["m1" := mkMessage "m1" "sw1" "r1" content1 "" None]>
       {["m2" := mkMessage "m2" "sw1" "r2" content2 "" (Some "Goodbye")]})
    (setRows recipientT
       (<["r1" := mkRecipient "r1" "sw1" "ann@example.org" (Some "Ann")]>
          {["r2" := mkRecipient "r2" "sw1" "bob@example.org" None]})
       (setRows switchT {["sw1" := dueSwitch]} emptyDb)).

(** The due switch with one recipient and her message. *)
Definition oneRecipientDb : Db :=
  setRows messageT
    {["m1" := mkMessage "m1" "sw1" "r1" (ciphertextOf "Farewell, Ann.") "" None]}
    (setRows recipientT
       {["r1" := mkRecipient "r1" "sw1" "ann@example.org" (Some "Ann")]}
       (setRows switchT {["sw1" := dueSwitch]} emptyDb)).

End Fixtures.

(** ** Outcomes of the further operations *)

Module Outcomes.

(** The configuration of a switch: what no transition touches. *)
Definition sameConfiguration (s s' : Switch) : Prop :=
  sw_id s' = sw_id s /\ sw_userId s' = sw_userId s /\ sw_name s' = sw_name s
  /\ checkInIntervalDays s' = checkInIntervalDays s
  /\ gracePeriodDays s' = gracePeriodDays s
  /\ verificationWindowDays s' = verificationWindowDays s
  /\ finalDelayHours s' = finalDelayHours s
  /\ useVerifiers s' = useVerifiers s
  /\ requiredConfirmations s' = requiredConfirmations s.

(** The timers of the row [s'] a switch has after entering [target] at
    [now] from the row [s]. *)
Definition timersAfter (now : Date) (target : SwitchStatus) (s s' : Switch)
  : Prop :=
  match target with
  | ACTIVE =>
      lastCheckInAt s' = Some now
      /\ nextCheckInDueAt s'
         = Some (now + checkInIntervalDays s * 24 * 60 * 60 * 1000)
      /\ gracePeriodEndsAt s' = None /\ scheduledExecutionAt s' = None
  | GRACE_PERIOD =>
      lastCheckInAt s' = lastCheckInAt s
      /\ nextCheckInDueAt s' = nextCheckInDueAt s
      /\ gracePeriodEndsAt s'
         = Some (now + gracePeriodDays s * 24 * 60 * 60 * 1000)
      /\ scheduledExecutionAt s' = scheduledExecutionAt s
  | VERIFIED =>
      lastCheckInAt s' = lastCheckInAt s
      /\ nextCheckInDueAt s' = nextCheckInDueAt s
      /\ gracePeriodEndsAt s' = gracePeriodEndsAt s
      /\ scheduledExecutionAt s'
         = Some (now + finalDelayHours s * 60 * 60 * 1000)
  | EXECUTED | CANCELED =>
      lastCheckInAt s' = lastCheckInAt s
      /\ nextCheckInDueAt s' = None
      /\ gracePeriodEndsAt s' = None /\ scheduledExecutionAt s' = None
  | OVERDUE | PENDING_VERIFICATION | PAUSED =>
      lastCheckInAt s' = lastCheckInAt s
      /\ nextCheckInDueAt s' = nextCheckInDueAt s
      /\ gracePeriodEndsAt s' = gracePeriodEndsAt s
      /\ scheduledExecutionAt s' = scheduledExecutionAt s
  end.

(** The tables an operation on switches and requests leaves alone. *)
Definition sameOtherTables (d d' : Db) : Prop :=
  verificationTokens d' = verificationTokens d
  /\ verificationVoteRecords d' = verificationVoteRecords d
  /\ checkInTokens d' = checkInTokens d
  /\ recipients d' = recipients d
  /\ messages d' = messages d
  /\ emailDeliveries d' = emailDeliveries d.

(** The row of a check-in token after its first use at [now]. *)
Definition usedToken (now : Date) (t : CheckInToken) : CheckInToken :=
  mkCheckInToken (ct_id t) (ct_switchId t) (ct_token t) (ct_expiresAt t)
    (Some now).

(** A decimal digit. *)
Definition isDigit (c : ascii) : bool :=
  ((48 <=? N_of_ascii c) && (N_of_ascii c <=? 57))%N.

(** The characters of a string. *)
Definition chars (s : string) : list ascii := list_ascii_of_string s.

(** A character that needs no escaping in a URL path or query: none of the
    three that base64 has and base64url has not. *)
Definition urlSafe (c : ascii) : bool :=
  negb (Ascii.eqb c "+") && negb (Ascii.eqb c "/") && negb (Ascii.eqb c "=").

(** The rows of a table, in some order. *)
Definition rowsOf {R} (t : gmap string R) : list R := (map_to_list t).*2.

(** A switch whose execution is due at [now]: it is VERIFIED and its
    execution time is set and has passed. *)
Definition due (now : Date) (s : Switch) : Prop :=
  status s = VERIFIED /\ exists t, scheduledExecutionAt s = Some t /\ t < now.

#[export] Instance due_dec now s : Decision (due now s).
Proof.
  unfold due. destruct (scheduledExecutionAt s) as [t|].
  - destruct (decide (status s = VERIFIED)) as [H1|H1]; [|right; tauto].
    destruct (decide (t < now)) as [H2|H2].
    + left. eauto.
    + right. intros [_ (t' & Ht' & H)]. injection Ht' as <-. contradiction.
  - right. intros [_ (t & H & _)]. discriminate H.
Defined.

(** A computation that only reads. *)
Definition readOnly {A} (m : Async A) : Prop := forall w, (m w).2 = w.

(** A computation that hands nothing to the mail transport. *)
Definition storeOnly {A} (m : Async A) : Prop :=
  forall w, outbox (m w).2 = outbox w.

(** A computation that leaves the world as it found it when it raises. *)
Definition failsClean {A} (m : Async A) : Prop :=
  forall w e w', m w = (Throw e, w') -> w' = w.

(** The link [token] leads to the token row [tk], its request [req] and the
    switch [sw] of the request. *)
Record resolves (d : Db) (token : string) (tk : VerificationToken)
    (req : VerificationRequest) (sw : Switch) : Prop := mkResolves {
  r_unique : Integrity.uniqueColumn vt_token (verificationTokens d);
  r_token : verificationTokens d !! vt_id tk = Some tk;
  r_value : vt_token tk = token;
  r_request :
    verificationRequests d !! vt_verificationRequestId tk = Some req;
  r_switch : switches d !! vr_switchId req = Some sw
}.

(** The two versions of [submitVerificationVote] in the repository. *)
Definition isSubmit
    (submit : Date -> SubmitVoteInput -> option EmailService.ClientInfo ->
              Async (VerificationVoteRecord * VoteResult)) : Prop :=
  submit = VerificationSystem.submitVerificationVote
  \/ submit = LegacyVerificationSystem.submitVerificationVote.

End Outcomes.

(** ** Further stores *)

Module Links.

(** The link of verifier "v1" for request "vr1", with the hash [otp] of its
    one-time code (none for a link made before the codes were introduced). *)
Definition aLink (otp : option string) : VerificationToken :=
  mkVerificationToken "tv1" "vr1" "v1" "tok-v1" otp
    (match otp with Some _ => Some 3456000000 | None => None end)
    2000000 None.

(** Switch "sw1" in PENDING_VERIFICATION, its open request "vr1" and the
    link of "v1". *)
Definition linkDb (otp : option string) : Db :=
  setRows verificationTokenT {["tv1" := aLink otp]}
    (setRows verificationRequestT
       {["vr1" := Fixtures.aRequest "vr1" "sw1" 2000000]}
       (setRows switchT
          {["sw1" := Fixtures.aSwitch "sw1" PENDING_VERIFICATION]}
          Fixtures.emptyDb)).

End Links.

Module Recipients.

(** Switch "sw1" of "owner", ACTIVE, with the recipient "r1" and no message
    yet. *)
Definition oneRecipient : Db :=
  setRows recipientT
    {["r1" := mkRecipient "r1" "sw1" "ann@example.org" (Some "Ann")]}
    (setRows switchT {["sw1" := Fixtures.aSwitch "sw1" ACTIVE]}
       Fixtures.emptyDb).

End Recipients.

(** * Properties *)

(** ** Running the monad *)

Ltac unfold_async :=
  unfold mbind, mret, Async_bind, Async_ret, bind, ret, throw, tryCatch,
    transaction, Prisma.findUnique, Prisma.findFirst, Prisma.findMany,
    Prisma.count, Prisma.update, Prisma.updateMany, Prisma.create,
    Prisma.auditLog_create, createAuditLog, EmailService.liftResult in *.

(** ** The transition table *)

Arguments includes : simpl never.
Arguments isValidTransition : simpl never.

Lemma isValidTransition_spec_edge from to :
  isValidTransition from to = true <-> spec_edge from to.
Proof.
  split.
  - destruct from, to; vm_compute; intros H; try discriminate H; constructor.
  - intros []; reflexivity.
Qed.

Lemma no_edge_from_EXECUTED to : isValidTransition EXECUTED to = false.
Proof. reflexivity. Qed.

Section StateMachineRuns.
Import StateMachine.

Lemma transition_missing now id target options w :
  switches (prisma w) !! id = None ->
  transitionSwitchState now id target options w
  = (Ok (mkResult false ACTIVE target (Some "Switch not found")), w).
Proof.
  intros H. unfold transitionSwitchState. unfold_async. cbn. rewrite H.
  reflexivity.
Qed.

Lemma transition_invalid now id target options w s :
  switches (prisma w) !! id = Some s ->
  isValidTransition (status s) target = false ->
  transitionSwitchState now id target options w
  = (Ok (mkResult false (status s) target
           (Some ("Invalid transition from " ++ statusName (status s)
                  ++ " to " ++ statusName target))), w).
Proof.
  intros H Hv. unfold transitionSwitchState. unfold_async. cbn. rewrite H.
  cbn. rewrite Hv. reflexivity.
Qed.

Lemma transition_valid now id target options w s :
  switches (prisma w) !! id = Some s ->
  isValidTransition (status s) target = true ->
  transitionSwitchState now id target options w
  = (Ok (mkResult true (status s) target None),
     mkWorld
       (setAuditLogs
          (auditLogs (prisma w)
           ++ [transitionAudit id (status s) target options])
          (setRows switchT
             (<[id := applyUpdate (transitionData now s target) s]>
                (switches (prisma w)))
             (prisma w)))
       (outbox w)).
Proof.
  intros H Hv. unfold transitionSwitchState. unfold_async. cbn. rewrite H.
  cbn. rewrite Hv. cbn. rewrite H. reflexivity.
Qed.

End StateMachineRuns.

Section StateMachineFacts.
Import StateMachine.

Lemma status_transitionData now s target :
  status (applyUpdate (transitionData now s target) s) = target.
Proof. destruct target; reflexivity. Qed.

(** Whatever [transitionSwitchState] answers, a row of the switches either
    keeps its status or moves along an edge of the graph, and a row in
    EXECUTED is not touched at all. *)
Lemma transition_step now id target options w id' s :
  switches (prisma w) !! id' = Some s ->
  exists s',
    switches (prisma (transitionSwitchState now id target options w).2) !! id'
    = Some s'
    /\ (s' = s \/ (id' = id /\ spec_edge (status s) (status s')
                   /\ status s' = target)).
Proof.
  intros Hs. destruct (switches (prisma w) !! id) as [c|] eqn:Hc.
  - destruct (isValidTransition (status c) target) eqn:Hv.
    + rewrite (transition_valid _ _ _ _ _ _ Hc Hv). cbn.
      destruct (decide (id = id')) as [->|Hne].
      * rewrite lookup_insert_eq. eexists. split; [reflexivity|].
        right. rewrite status_transitionData.
        assert (c = s) by congruence. subst c.
        split; [reflexivity|]. split; [|reflexivity].
        by apply isValidTransition_spec_edge.
      * rewrite lookup_insert_ne by done. eauto.
    + rewrite (transition_invalid _ _ _ _ _ _ Hc Hv). cbn. eauto.
  - rewrite (transition_missing _ _ _ _ _ Hc). cbn. eauto.
Qed.

Lemma includes_validCheckInStates st :
  includes validCheckInStates st = true
  <-> st = ACTIVE \/ st = OVERDUE \/ st = GRACE_PERIOD
      \/ st = PENDING_VERIFICATION \/ st = VERIFIED.
Proof.
  split.
  - destruct st; vm_compute; intros H; try discriminate H; tauto.
  - intros [->|[->|[->|[->| ->]]]]; reflexivity.
Qed.

Lemma checkIn_missing now id options w :
  switches (prisma w) !! id = None ->
  checkIn now id options w
  = (Ok (mkResult false ACTIVE ACTIVE (Some "Switch not found")), w).
Proof.
  intros H. unfold checkIn. unfold_async. cbn. rewrite H. reflexivity.
Qed.

Lemma checkIn_invalid now id options w s :
  switches (prisma w) !! id = Some s ->
  includes validCheckInStates (status s) = false ->
  checkIn now id options w
  = (Ok (mkResult false (status s) ACTIVE
           (Some ("Cannot check in from " ++ statusName (status s)
                  ++ " state"))), w).
Proof.
  intros H Hv. unfold checkIn. unfold_async. cbn. rewrite H. cbn.
  rewrite Hv. reflexivity.
Qed.

Lemma checkIn_valid now id options w s :
  switches (prisma w) !! id = Some s ->
  includes validCheckInStates (status s) = true ->
  checkIn now id options w
  = (Ok (mkResult true (status s) ACTIVE None),
     mkWorld
       (setAuditLogs
          (auditLogs (prisma w) ++ [checkInAudit id (status s) options])
          (setRows verificationRequestT
             ((fun r => if isOpenFor id r then completeRequest now Denied r
                        else r) <$> verificationRequests (prisma w))
             (setRows switchT
                (<[id := Effects.checkedIn now s]> (switches (prisma w)))
                (prisma w))))
       (outbox w)).
Proof.
  intros H Hv. unfold checkIn. unfold_async. cbn. rewrite H. cbn.
  rewrite Hv. cbn. rewrite H. reflexivity.
Qed.

Lemma checkIn_step now id options w id' s :
  switches (prisma w) !! id' = Some s ->
  exists s',
    switches (prisma (checkIn now id options w).2) !! id' = Some s'
    /\ (s' = s \/ (id' = id /\ includes validCheckInStates (status s) = true
                   /\ s' = Effects.checkedIn now s)).
Proof.
  intros Hs. destruct (switches (prisma w) !! id) as [c|] eqn:Hc.
  - destruct (includes validCheckInStates (status c)) eqn:Hv.
    + rewrite (checkIn_valid _ _ _ _ _ Hc Hv). cbn.
      destruct (decide (id = id')) as [->|Hne].
      * rewrite lookup_insert_eq. assert (c = s) by congruence. subst c.
        eauto 7.
      * rewrite lookup_insert_ne by done. eauto.
    + rewrite (checkIn_invalid _ _ _ _ _ Hc Hv). cbn. eauto.
  - rewrite (checkIn_missing _ _ _ _ Hc). cbn. eauto.
Qed.

(** A row in EXECUTED is left as it is by every operation of the state
    machine. *)
Lemma runOp_EXECUTED w op id s :
  switches (prisma w) !! id = Some s -> status s = EXECUTED ->
  switches (prisma (Trace.runOp w op)) !! id = Some s.
Proof.
  intros Hs He. destruct op as [now id0 target options|now id0 options]; cbn.
  - destruct (transition_step now id0 target options w id s Hs)
      as (s' & -> & [->|(_ & Hedge & _)]); [done|].
    rewrite He in Hedge. inversion Hedge.
  - destruct (checkIn_step now id0 options w id s Hs)
      as (s' & -> & [->|(_ & Hv & _)]); [done|].
    rewrite He in Hv. discriminate Hv.
Qed.

Lemma runOps_EXECUTED ops w id s :
  switches (prisma w) !! id = Some s -> status s = EXECUTED ->
  switches (prisma (Trace.runOps ops w)) !! id = Some s.
Proof.
  revert w. induction ops as [|op ops IH]; intros w Hs He; [done|].
  cbn. apply IH; [|done]. by apply runOp_EXECUTED.
Qed.

End StateMachineFacts.

(** ** Claims on the state machine *)

Section StateMachineClaims.
Import StateMachine.

(** C6. The table of the code is the adjacency graph of section 4.2;
    [transitionSwitchState] answers a not-found failure for a missing switch
    and an invalid-transition failure, leaving the store as it was, for a
    target outside the allowed set of the current status; it changes a
    stored status along an edge of the graph only; and a switch in EXECUTED
    stays in EXECUTED under every sequence of [transitionSwitchState] and
    [checkIn] calls. *)
Theorem C6_transitions_follow_the_graph :
  (forall from to, isValidTransition from to = true <-> spec_edge from to)
  /\ (forall now id target options w,
        switches (prisma w) !! id = None ->
        exists r,
          transitionSwitchState now id target options w = (Ok r, w)
          /\ Failure.notFound r)
  /\ (forall now id target options w s,
        switches (prisma w) !! id = Some s ->
        ~ spec_edge (status s) target ->
        exists r,
          transitionSwitchState now id target options w = (Ok r, w)
          /\ Failure.invalidTransition r)
  /\ (forall now id target options w id' s,
        switches (prisma w) !! id' = Some s ->
        exists s',
          switches (prisma (transitionSwitchState now id target options w).2)
            !! id' = Some s'
          /\ (status s' = status s \/ spec_edge (status s) (status s')))
  /\ (forall now id target options w r w',
        transitionSwitchState now id target options w = (Ok r, w') ->
        success r = true ->
        exists s s',
          switches (prisma w) !! id = Some s
          /\ switches (prisma w') !! id = Some s'
          /\ spec_edge (status s) target
          /\ status s' = target)
  /\ (forall ops w id s,
        switches (prisma w) !! id = Some s ->
        status s = EXECUTED ->
        exists s',
          switches (prisma (Trace.runOps ops w)) !! id = Some s'
          /\ status s' = EXECUTED).
Proof.
  split; [exact isValidTransition_spec_edge|].
  split.
  { intros now id target options w H. rewrite (transition_missing _ _ _ _ _ H).
    eexists. split; [reflexivity|]. by split. }
  split.
  { intros now id target options w s H Hne.
    assert (Hv : isValidTransition (status s) target = false).
    { destruct (isValidTransition (status s) target) eqn:E; [|done].
      by apply isValidTransition_spec_edge in E. }
    rewrite (transition_invalid _ _ _ _ _ _ H Hv).
    eexists. split; [reflexivity|]. by split. }
  split.
  { intros now id target options w id' s H.
    destruct (transition_step now id target options w id' s H)
      as (s' & Hs' & [->|(_ & Hedge & _)]); eauto. }
  split.
  { intros now id target options w r w' Hrun Hok.
    destruct (switches (prisma w) !! id) as [s|] eqn:Hs.
    - destruct (isValidTransition (status s) target) eqn:Hv.
      + rewrite (transition_valid _ _ _ _ _ _ Hs Hv) in Hrun.
        injection Hrun as <- <-. cbn. exists s. eexists.
        split; [done|]. split; [apply lookup_insert_eq|].
        split; [by apply isValidTransition_spec_edge|].
        apply status_transitionData.
      + rewrite (transition_invalid _ _ _ _ _ _ Hs Hv) in Hrun.
        injection Hrun as <- <-. discriminate Hok.
    - rewrite (transition_missing _ _ _ _ _ Hs) in Hrun.
      injection Hrun as <- <-. discriminate Hok. }
  intros ops w id s Hs He. exists s. split; [|done].
  by apply runOps_EXECUTED.
Qed.

Lemma C6_witness :
  (exists r,
     transitionSwitchState 5 "sw1" OVERDUE None (Fixtures.worldOf Fixtures.emptyDb)
     = (Ok r, Fixtures.worldOf Fixtures.emptyDb)
     /\ Failure.notFound r)
  /\ (exists r,
        transitionSwitchState 5 "sw1" EXECUTED None (Fixtures.oneSwitch ACTIVE)
        = (Ok r, Fixtures.oneSwitch ACTIVE)
        /\ Failure.invalidTransition r)
  /\ (exists s',
        switches
          (prisma
             (Trace.runOps
                [Trace.CheckIn 9 "sw1" None;
                 Trace.Transition 10 "sw1" ACTIVE None;
                 Trace.Transition 11 "sw1" CANCELED None]
                (Fixtures.oneSwitch EXECUTED))) !! "sw1" = Some s'
        /\ status s' = EXECUTED).
Proof.
  destruct C6_transitions_follow_the_graph as (_ & Hnf & Hinv & _ & _ & Hexec).
  split; [apply Hnf; reflexivity|].
  split.
  - eapply Hinv; [reflexivity|]. intros H. inversion H.
  - eapply Hexec; reflexivity.
Defined.

End StateMachineClaims.

Section CheckInClaims.
Import StateMachine.

(** C4, as the code has it.  [checkIn] never raises; it succeeds exactly
    when the switch exists and its status is ACTIVE, OVERDUE, GRACE_PERIOD,
    PENDING_VERIFICATION or VERIFIED; for a missing switch it answers a
    not-found failure, for a switch in another status an invalid-check-in
    failure, and in both cases the store is left as it was; on success the
    switch is ACTIVE with lastCheckInAt = now,
    nextCheckInDueAt = now + checkInIntervalDays, no grace and no execution
    timer, and every open request of the switch is completed at now with
    result denied, all in the one transaction. *)
Theorem C4_checkIn_resets_and_denies now id options w :
  exists r w',
    checkIn now id options w = (Ok r, w')
    /\ (success r = true <->
        exists s, switches (prisma w) !! id = Some s
                  /\ (status s = ACTIVE \/ status s = OVERDUE
                      \/ status s = GRACE_PERIOD
                      \/ status s = PENDING_VERIFICATION
                      \/ status s = VERIFIED))
    /\ (switches (prisma w) !! id = None -> Failure.notFound r /\ w' = w)
    /\ (forall s, switches (prisma w) !! id = Some s ->
                  status s = EXECUTED \/ status s = CANCELED
                  \/ status s = PAUSED ->
                  Failure.invalidCheckIn r /\ w' = w)
    /\ (success r = true ->
        (exists s s',
           switches (prisma w) !! id = Some s
           /\ switches (prisma w') !! id = Some s'
           /\ status s' = ACTIVE
           /\ lastCheckInAt s' = Some now
           /\ nextCheckInDueAt s'
              = Some (now + checkInIntervalDays s * 24 * 60 * 60 * 1000)
           /\ gracePeriodEndsAt s' = None
           /\ scheduledExecutionAt s' = None)
        /\ (forall rid req,
              verificationRequests (prisma w) !! rid = Some req ->
              vr_switchId req = id -> vr_completedAt req = None ->
              exists req',
                verificationRequests (prisma w') !! rid = Some req'
                /\ vr_completedAt req' = Some now
                /\ vr_result req' = Some Denied)).
Proof.
  destruct (switches (prisma w) !! id) as [s|] eqn:Hs.
  - destruct (includes validCheckInStates (status s)) eqn:Hv.
    + rewrite (checkIn_valid _ _ _ _ _ Hs Hv). do 2 eexists.
      split; [reflexivity|]. cbn.
      pose proof (proj1 (includes_validCheckInStates _) Hv) as Hst.
      split; [split; [eauto|done]|].
      split; [done|].
      split.
      { intros s0 [= <-] Hbad. exfalso.
        destruct Hbad as [E|[E|E]]; rewrite E in Hv; discriminate Hv. }
      intros _. split.
      * exists s. eexists. split; [done|].
        split; [apply lookup_insert_eq|]. by cbn.
      * intros rid req Hreq Hsw Hopen. rewrite lookup_fmap, Hreq. cbn.
        unfold isOpenFor. rewrite Hsw, String.eqb_refl, Hopen. cbn.
        eexists. split; [reflexivity|]. by split.
    + rewrite (checkIn_invalid _ _ _ _ _ Hs Hv). do 2 eexists.
      split; [reflexivity|]. cbn.
      split.
      { split; [done|]. intros (s0 & [= <-] & Hst).
        apply includes_validCheckInStates in Hst. congruence. }
      split; [done|].
      split; [|done].
      intros s0 [= <-] _. by repeat split.
  - rewrite (checkIn_missing _ _ _ _ Hs). do 2 eexists.
    split; [reflexivity|]. cbn.
    split; [split; [done|by intros (? & ? & _)]|].
    split; [by repeat split|].
    split; [done|done].
Qed.

(** At a store without the switch, [checkIn] fails with the not-found
    message, which is not the invalid-check-in failure the claim words. *)
Lemma C4_missing_switch_is_not_invalid_check_in :
  exists r,
    checkIn 5 "sw1" None (Fixtures.worldOf Fixtures.emptyDb)
    = (Ok r, Fixtures.worldOf Fixtures.emptyDb)
    /\ success r = false
    /\ error r = Some "Switch not found"
    /\ ~ Failure.invalidCheckIn r.
Proof.
  eexists. split; [reflexivity|]. split; [reflexivity|].
  split; [reflexivity|]. intros [_ H]. discriminate H.
Qed.

Lemma C4_witness :
  exists r w',
    checkIn 1000 "sw1" None (Fixtures.worldOf Fixtures.pendingDb) = (Ok r, w')
    /\ success r = true
    /\ (exists req',
          verificationRequests (prisma w') !! "vr1" = Some req'
          /\ vr_completedAt req' = Some 1000
          /\ vr_result req' = Some Denied).
Proof.
  destruct (C4_checkIn_resets_and_denies 1000 "sw1" None
              (Fixtures.worldOf Fixtures.pendingDb))
    as (r & w' & Hrun & Hiff & _ & _ & Hok).
  exists r, w'. split; [exact Hrun|].
  assert (Hs : success r = true).
  { apply Hiff. eexists. split; [reflexivity|]. cbn. tauto. }
  split; [exact Hs|].
  destruct (Hok Hs) as [_ Hreq]. eapply Hreq; reflexivity.
Defined.

End CheckInClaims.

(** ** Queries over a table *)

Section Queries.
Context {R : Type} (T : Table R).

Lemma elem_of_allRows d r :
  r ∈ Prisma.allRows T d <-> exists k, rows T d !! k = Some r.
Proof.
  unfold Prisma.allRows. rewrite list_elem_of_fmap. split.
  - intros ([k r'] & -> & Hin). exists k. by apply elem_of_map_to_list in Hin.
  - intros [k Hk]. exists (k, r). split; [done|]. by apply elem_of_map_to_list.
Qed.

Lemma find_allRows_Some d P r :
  List.find P (Prisma.allRows T d) = Some r ->
  (exists k, rows T d !! k = Some r) /\ P r = true.
Proof.
  intros H. apply List.find_some in H as [Hin HP]. split; [|done].
  apply elem_of_allRows. by apply list_elem_of_In.
Qed.

Lemma find_allRows_None d P k r :
  List.find P (Prisma.allRows T d) = None ->
  rows T d !! k = Some r -> P r = false.
Proof.
  intros H Hk. eapply List.find_none; [exact H|].
  apply list_elem_of_In, elem_of_allRows. eauto.
Qed.

End Queries.

(** ** Check-in tokens *)

Section CheckInTokenClaims.
Import Scheduler Integrity.

(** C10. For every existing check-in token that has not expired,
    [verifyAndUseCheckInToken] returns the switch of the token, whether the
    token was used before or not; it returns null exactly when there is no
    such token or the token's expiresAt is before now; a token used before
    is left as it is. *)
Theorem C10_check_in_token_is_reusable now token w :
  keyed ct_id (checkInTokens (prisma w)) ->
  uniqueColumn ct_token (checkInTokens (prisma w)) ->
  exists res w',
    verifyAndUseCheckInToken now token w = (Ok res, w')
    /\ (forall k t,
          checkInTokens (prisma w) !! k = Some t -> ct_token t = token ->
          ~ ct_expiresAt t < now ->
          res = Some (ct_switchId t)
          /\ (is_Some (ct_usedAt t) -> w' = w))
    /\ (res = None <->
        (forall k t, checkInTokens (prisma w) !! k = Some t ->
                     ct_token t <> token)
        \/ (exists k t, checkInTokens (prisma w) !! k = Some t
                        /\ ct_token t = token /\ ct_expiresAt t < now)).
Proof.
  intros Hkey Huniq. unfold verifyAndUseCheckInToken. unfold_async. cbn.
  destruct (List.find _ _) as [t|] eqn:Hfind.
  - apply (find_allRows_Some checkInTokenT) in Hfind as [[k Hk] Htok].
    cbn in Hk. apply String.eqb_eq in Htok.
    assert (Hsame : forall k' t', checkInTokens (prisma w) !! k' = Some t' ->
                                  ct_token t' = token -> t' = t).
    { intros k' t' Hk' Ht'. assert (k' = k) by (eapply Huniq; eauto; congruence).
      subst k'. congruence. }
    pose proof (Hkey k t Hk) as Hid. cbn in Hid.
    destruct (ct_expiresAt t <? now) eqn:Hexp.
    + apply Z.ltb_lt in Hexp. do 2 eexists. split; [reflexivity|]. split.
      * intros k' t' Hk' Ht' Hne. rewrite (Hsame _ _ Hk' Ht') in Hne. lia.
      * split; [|done]. intros _. right. eauto.
    + apply Z.ltb_ge in Hexp.
      assert (Hnone : forall res : string,
                 Some res = None <->
                 (forall k t, checkInTokens (prisma w) !! k = Some t ->
                              ct_token t <> token)
                 \/ (exists k t, checkInTokens (prisma w) !! k = Some t
                                 /\ ct_token t = token /\ ct_expiresAt t < now)).
      { intros res. split; [done|]. intros [Hno|(k' & t' & Hk' & Ht' & Hlt)].
        - by destruct (Hno _ _ Hk Htok).
        - rewrite (Hsame _ _ Hk' Ht') in Hlt. lia. }
      destruct (ct_usedAt t) as [u|] eqn:Hused; cbn.
      * do 2 eexists. split; [reflexivity|]. split; [|apply Hnone].
        intros k' t' Hk' Ht' _. by rewrite (Hsame _ _ Hk' Ht').
      * rewrite Hid, Hk. cbn. do 2 eexists. split; [reflexivity|].
        split; [|apply Hnone].
        intros k' t' Hk' Ht' _. rewrite (Hsame _ _ Hk' Ht'). split; [done|].
        rewrite Hused. by intros [? ?].
  - do 2 eexists. split; [reflexivity|]. split.
    + intros k t Hk Ht _.
      pose proof (find_allRows_None checkInTokenT _ _ _ _ Hfind Hk) as Hf.
      cbn in Hf. apply String.eqb_neq in Hf. done.
    + split; [|done]. intros _. left. intros k t Hk Ht.
      pose proof (find_allRows_None checkInTokenT _ _ _ _ Hfind Hk) as Hf.
      cbn in Hf. apply String.eqb_neq in Hf. done.
Qed.

Lemma fixture_token_keyed usedAt :
  keyed ct_id (checkInTokens (prisma (Fixtures.worldOf (Fixtures.checkInTokenDb usedAt)))).
Proof. intros k t H. cbn in H. apply lookup_singleton_Some in H as [<- <-]. done. Qed.

Lemma fixture_token_unique usedAt :
  uniqueColumn ct_token
    (checkInTokens (prisma (Fixtures.worldOf (Fixtures.checkInTokenDb usedAt)))).
Proof.
  intros k1 k2 r1 r2 H1 H2 _. cbn in H1, H2.
  apply lookup_singleton_Some in H1 as [<- _].
  apply lookup_singleton_Some in H2 as [<- _]. done.
Qed.

(** A token used at time 100 still opens the check-in at time 200. *)
Lemma C10_witness :
  exists res w',
    verifyAndUseCheckInToken 200 "tok-abc"
      (Fixtures.worldOf (Fixtures.checkInTokenDb (Some 100))) = (Ok res, w')
    /\ res = Some "sw1"
    /\ w' = Fixtures.worldOf (Fixtures.checkInTokenDb (Some 100)).
Proof.
  destruct (C10_check_in_token_is_reusable 200 "tok-abc"
              (Fixtures.worldOf (Fixtures.checkInTokenDb (Some 100)))
              (fixture_token_keyed _) (fixture_token_unique _))
    as (res & w' & Hrun & Hsome & _).
  exists res, w'. split; [exact Hrun|].
  destruct (Hsome "ct1" (Fixtures.aCheckInToken (Some 100)))
    as [Hres Hsame]; [reflexivity|reflexivity|cbn; lia|].
  split; [exact Hres|]. apply Hsame. by eexists.
Defined.

End CheckInTokenClaims.

(** ** Expiry of verification requests *)

Section ExpiryClaims.
Import Scheduler Integrity Effects.

Lemma world_eta w : mkWorld (prisma w) (outbox w) = w.
Proof. by destruct w. Qed.

Lemma expireRequest_ok now r w cur s :
  verificationRequests (prisma w) !! vr_id r = Some cur ->
  switches (prisma w) !! vr_switchId r = Some s ->
  expireRequest now r w
  = (Ok tt,
     mkWorld
       (setAuditLogs (auditLogs (prisma w) ++ [expiryAudit r])
          (setRows switchT (<[vr_switchId r := paused s]> (switches (prisma w)))
             (setRows verificationRequestT
                (<[vr_id r := StateMachine.completeRequest now Expired cur]>
                   (verificationRequests (prisma w)))
                (prisma w))))
       (outbox w)).
Proof.
  intros Hr Hs. unfold expireRequest. unfold_async. cbn.
  rewrite Hr. cbn. rewrite Hs. reflexivity.
Qed.

(** The transaction is all or nothing: either the request is completed as
    expired, its switch is PAUSED and the audit entry is appended, or an
    exception leaves the store as it was. *)
Lemma expireRequest_atomic now r w :
  (exists cur s,
     verificationRequests (prisma w) !! vr_id r = Some cur
     /\ switches (prisma w) !! vr_switchId r = Some s
     /\ expireRequest now r w
        = (Ok tt,
           mkWorld
             (setAuditLogs (auditLogs (prisma w) ++ [expiryAudit r])
                (setRows switchT
                   (<[vr_switchId r := paused s]> (switches (prisma w)))
                   (setRows verificationRequestT
                      (<[vr_id r := StateMachine.completeRequest now Expired cur]>
                         (verificationRequests (prisma w)))
                      (prisma w))))
             (outbox w)))
  \/ (exists e, expireRequest now r w = (Throw e, w)).
Proof.
  destruct (verificationRequests (prisma w) !! vr_id r) as [cur|] eqn:Hr.
  - destruct (switches (prisma w) !! vr_switchId r) as [s|] eqn:Hs.
    + left. exists cur, s. split; [done|]. split; [done|].
      by apply expireRequest_ok.
    + right. unfold expireRequest. unfold_async. cbn. rewrite Hr. cbn.
      rewrite Hs. cbn. rewrite world_eta. eauto.
  - right. unfold expireRequest. unfold_async. cbn. rewrite Hr.
    rewrite world_eta. eauto.
Qed.

Lemma keeps_refl now w : keeps now w w.
Proof. by split. Qed.

Lemma keeps_trans now w1 w2 w3 :
  keeps now w1 w2 -> keeps now w2 w3 -> keeps now w1 w3.
Proof. intros [] []. split; eauto. Qed.

Lemma expireRequest_keeps now r w : keeps now w (expireRequest now r w).2.
Proof.
  destruct (expireRequest_atomic now r w)
    as [(cur & s & Hr & Hs & ->)|[e ->]]; [|apply keeps_refl].
  split; cbn.
  - intros k Hk. destruct (decide (vr_id r = k)) as [<-|Hne].
    + rewrite lookup_insert_eq. by eexists.
    + by rewrite lookup_insert_ne.
  - intros k Hk. destruct (decide (vr_switchId r = k)) as [<-|Hne].
    + rewrite lookup_insert_eq. by eexists.
    + by rewrite lookup_insert_ne.
  - intros k (r' & Hk & Hc & Hres). unfold completedAs. cbn.
    destruct (decide (vr_id r = k)) as [<-|Hne].
    + rewrite lookup_insert_eq. eexists. split; [done|]. by split.
    + rewrite lookup_insert_ne by done. eauto.
  - intros k (s' & Hk & Hst). unfold hasStatus. cbn.
    destruct (decide (vr_switchId r = k)) as [<-|Hne].
    + rewrite lookup_insert_eq. eexists. split; [done|]. done.
    + rewrite lookup_insert_ne by done. eauto.
  - intros a Ha. apply elem_of_app. by left.
Qed.

Lemma expireLoop_keeps now l : forall n errs w,
  keeps now w (expireLoop now l n errs w).2.
Proof.
  induction l as [|r l IH]; intros n errs w; cbn; [apply keeps_refl|].
  pose proof (expireRequest_keeps now r w) as Hstep.
  destruct (expireRequest now r w) as [[[]|e] w1]; cbn in Hstep;
    (eapply keeps_trans; [exact Hstep|apply IH]).
Qed.

Lemma expireLoop_expires now l : forall n errs w r,
  r ∈ l ->
  is_Some (verificationRequests (prisma w) !! vr_id r) ->
  is_Some (switches (prisma w) !! vr_switchId r) ->
  completedAs Expired now (prisma (expireLoop now l n errs w).2) (vr_id r)
  /\ hasStatus PAUSED (prisma (expireLoop now l n errs w).2) (vr_switchId r)
  /\ expiryAudit r ∈ auditLogs (prisma (expireLoop now l n errs w).2).
Proof.
  induction l as [|r0 l IH]; intros n errs w r Hin Hr Hs.
  { by apply elem_of_nil in Hin. }
  apply elem_of_cons in Hin as [->|Hin].
  - destruct Hr as [cur Hr], Hs as [s Hs]. cbn.
    rewrite (expireRequest_ok _ _ _ _ _ Hr Hs).
    match goal with |- context [expireLoop now l ?n ?e ?w1] =>
      pose proof (expireLoop_keeps now l n e w1) as Hk end.
    split; [|split].
    + apply (keeps_expired _ _ _ Hk). unfold completedAs. cbn.
      rewrite lookup_insert_eq. eexists. split; [done|]. by split.
    + apply (keeps_paused _ _ _ Hk). unfold hasStatus. cbn.
      rewrite lookup_insert_eq. eexists. split; done.
    + apply (keeps_audit _ _ _ Hk). cbn. apply elem_of_app. right.
      apply list_elem_of_singleton. done.
  - cbn. pose proof (expireRequest_keeps now r0 w) as Hstep.
    destruct (expireRequest now r0 w) as [[[]|e] w1]; cbn in Hstep;
      apply IH; try done;
      first [by apply (keeps_request _ _ _ Hstep)
            |by apply (keeps_switch _ _ _ Hstep)].
Qed.

(** C7. After the verification-expiry pass at [now], every request that was
    open with expiresAt before now is completed at now with result expired,
    its switch has status PAUSED whatever its status was, and the audit
    entry of the expiry is in the log; the three writes of one request are
    one transaction, which either commits them all or leaves the store as it
    was. *)
Theorem C7_expired_requests_pause_the_switch now w rid req :
  keyed vr_id (verificationRequests (prisma w)) ->
  verificationRequests (prisma w) !! rid = Some req ->
  vr_completedAt req = None ->
  vr_expiresAt req < now ->
  is_Some (switches (prisma w) !! vr_switchId req) ->
  (exists report w',
     processVerificationExpiry now w = (Ok report, w')
     /\ completedAs Expired now (prisma w') rid
     /\ hasStatus PAUSED (prisma w') (vr_switchId req)
     /\ expiryAudit req ∈ auditLogs (prisma w'))
  /\ (forall r w0,
        (exists cur s,
           verificationRequests (prisma w0) !! vr_id r = Some cur
           /\ switches (prisma w0) !! vr_switchId r = Some s
           /\ expireRequest now r w0
              = (Ok tt,
                 mkWorld
                   (setAuditLogs (auditLogs (prisma w0) ++ [expiryAudit r])
                      (setRows switchT
                         (<[vr_switchId r := paused s]> (switches (prisma w0)))
                         (setRows verificationRequestT
                            (<[vr_id r
                               := StateMachine.completeRequest now Expired cur]>
                               (verificationRequests (prisma w0)))
                            (prisma w0))))
                   (outbox w0)))
        \/ (exists e, expireRequest now r w0 = (Throw e, w0))).
Proof.
  intros Hkey Hreq Hopen Hexp Hsw. split; [|intros; apply expireRequest_atomic].
  pose proof (Hkey _ _ Hreq) as Hid. cbn in Hid.
  unfold processVerificationExpiry.
  set (l := List.filter (isExpiredOpen now)
              (Prisma.allRows verificationRequestT (prisma w))).
  assert (Hin : req ∈ l).
  { apply list_elem_of_In, List.filter_In. split.
    - apply list_elem_of_In, elem_of_allRows. eauto.
    - unfold isExpiredOpen. rewrite Hopen. cbn. by apply Z.ltb_lt. }
  destruct (expireLoop_expires now l 0 [] w req Hin) as (H1 & H2 & H3).
  { rewrite Hid. by eexists. }
  { done. }
  destruct (expireLoop now l 0 [] w) as [[expired errors] w'] eqn:Hloop.
  cbn in H1, H2, H3. rewrite Hid in H1. eauto 7.
Qed.

Lemma fixture_stale_keyed :
  keyed vr_id
    (verificationRequests (prisma (Fixtures.worldOf Fixtures.staleRequestDb))).
Proof. intros k t H. cbn in H. apply lookup_singleton_Some in H as [<- <-]. done. Qed.

(** A request that ran out on an EXECUTED switch: the pass sets the switch
    to PAUSED. *)
Lemma C7_witness :
  exists report w',
    processVerificationExpiry 3000 (Fixtures.worldOf Fixtures.staleRequestDb)
    = (Ok report, w')
    /\ completedAs Expired 3000 (prisma w') "vr1"
    /\ hasStatus PAUSED (prisma w') "sw1".
Proof.
  destruct (C7_expired_requests_pause_the_switch 3000
              (Fixtures.worldOf Fixtures.staleRequestDb) "vr1"
              (Fixtures.aRequest "vr1" "sw1" 2000) fixture_stale_keyed)
    as [(report & w' & Hrun & Hexp & Hpaused & _) _].
  - reflexivity.
  - reflexivity.
  - cbn. lia.
  - by eexists.
  - exists report, w'. split; [exact Hrun|]. split; [exact Hexp|exact Hpaused].
Defined.

End ExpiryClaims.

(** ** Votes *)

Section VoteRuns.
Import EmailService VerificationQueries Integrity Effects.

Lemma find_allRows_found {R} (T : Table R) d P k r :
  rows T d !! k = Some r -> P r = true ->
  exists r', List.find P (Prisma.allRows T d) = Some r'.
Proof.
  intros Hk HP. destruct (List.find P (Prisma.allRows T d)) eqn:E; [eauto|].
  rewrite (find_allRows_None T _ _ _ _ E Hk) in HP. discriminate HP.
Qed.

Lemma find_none_existsb {A} (P : A -> bool) l :
  List.find P l = None -> existsb P l = false.
Proof.
  induction l as [|a l IH]; cbn; [done|].
  destruct (P a); [done|]. exact IH.
Qed.

Lemma findToken_votable now w token tk req sw :
  votable now (prisma w) token tk req sw ->
  findToken token w = (Ok (Some (mkTokenWithRequest tk req sw)), w).
Proof.
  intros [Hu Ht Hv Hr Hrel Hs _ _ _ _].
  unfold findToken. unfold_async. cbn.
  destruct (find_allRows_found verificationTokenT (prisma w)
              (fun t => String.eqb (vt_token t) token) _ _ Ht) as [tk' Hfind].
  { cbn. by apply String.eqb_eq. }
  rewrite Hfind.
  apply (find_allRows_Some verificationTokenT) in Hfind as [[k' Hk'] Htok].
  cbn in Hk'. apply String.eqb_eq in Htok.
  assert (k' = vt_id tk) by (eapply Hu; eauto; congruence). subst k'.
  assert (tk' = tk) by congruence. subst tk'.
  rewrite Hrel, Hr. cbn. rewrite Hs. reflexivity.
Qed.

Lemma no_existing_vote now w token tk req sw :
  votable now (prisma w) token tk req sw ->
  List.find (isVoteOf (vr_id req) (vt_verifierId tk))
    (Prisma.allRows verificationVoteRecordT (prisma w)) = None.
Proof.
  intros Hv. destruct (List.find _ _) as [v|] eqn:E; [|done].
  apply (find_allRows_Some verificationVoteRecordT) in E as [[k Hk] HP].
  unfold isVoteOf in HP. apply andb_true_iff in HP as [H1 H2].
  apply String.eqb_eq in H1, H2. destruct (v_first _ _ _ _ _ _ Hv k v Hk).
  by split.
Qed.

Lemma fresh_vote_key d :
  verificationVoteRecords d !! fresh (dom (verificationVoteRecords d)) = None.
Proof. apply not_elem_of_dom, is_fresh. Qed.

(** The run of a DENY vote in the version with one-time codes. *)
Lemma deny_run now w token tk req sw options :
  votable now (prisma w) token tk req sw ->
  VerificationSystem.submitVerificationVote now
    (mkSubmitVoteInput token DENY) options w
  = (Ok (newVote now tk req DENY options (prisma w), denied),
     mkWorld
       (setRows switchT
          (<[vr_switchId req
             := StateMachine.applyUpdate
                  (StateMachine.mkSwitchUpdate (Some PAUSED) None None
                     (Some None) (Some None)) sw]> (switches (prisma w)))
          (setRows verificationRequestT
             (<[vr_id req := StateMachine.completeRequest now Denied req]>
                (verificationRequests (prisma w)))
             (afterVote now tk req DENY options (prisma w))))
       (outbox w)).
Proof.
  intros Hv. pose proof (findToken_votable _ _ _ _ _ _ Hv) as Hfind.
  pose proof (no_existing_vote _ _ _ _ _ _ Hv) as Hnone.
  destruct Hv as [Hu Ht Hval Hr Hrel Hs Hlink Hunused Hopen Hfirst].
  unfold VerificationSystem.submitVerificationVote.
  unfold mbind at 1. unfold Async_bind, bind. cbn [in_token].
  rewrite Hfind.
  assert (Hltb : (vt_expiresAt tk <? now) = false) by (apply Z.ltb_ge; lia).
  rewrite Hltb, Hunused, Hopen. cbn [bool_decide decide_rel].
  pose proof (find_none_existsb _ _ Hnone) as Hex.
  unfold_async. unfold Prisma.allRows, sameVoter in *. cbn in Hnone, Hex |- *.
  rewrite Hnone, Ht. cbn. rewrite Hex. cbn.
  rewrite (bool_decide_eq_true_2 (DENY = DENY) eq_refl). cbn.
  rewrite Hr. cbn. rewrite Hs. reflexivity.
Qed.

Ltac vote_prelude Hv :=
  let Hfind := fresh "Hfind" in
  pose proof (findToken_votable _ _ _ _ _ _ Hv) as Hfind;
  pose proof (no_existing_vote _ _ _ _ _ _ Hv) as Hnone;
  destruct Hv as [Hu Ht Hval Hr Hrel Hs Hlink Hunused Hopen Hfirst];
  unfold mbind at 1; unfold Async_bind, bind; cbn [in_token]; rewrite Hfind;
  match goal with
  | |- context [vt_expiresAt ?t <? ?n] =>
      assert (Hltb : (vt_expiresAt t <? n) = false) by (apply Z.ltb_ge; lia);
      rewrite Hltb
  end;
  rewrite Hunused, Hopen; cbn [bool_decide decide_rel];
  pose proof (find_none_existsb _ _ Hnone) as Hex;
  unfold_async; unfold Prisma.allRows, sameVoter in *; cbn in Hnone, Hex |- *;
  rewrite Hnone, Ht; cbn; rewrite Hex; cbn.

(** The run of a DENY vote in the version without one-time codes. *)
Lemma legacy_deny_run now w token tk req sw options :
  votable now (prisma w) token tk req sw ->
  LegacyVerificationSystem.submitVerificationVote now
    (mkSubmitVoteInput token DENY) options w
  = (Ok (newVote now tk req DENY options (prisma w), denied),
     mkWorld
       (setRows switchT
          (<[vr_switchId req := checkedIn now sw]> (switches (prisma w)))
          (setRows verificationRequestT
             (<[vr_id req := StateMachine.completeRequest now Denied req]>
                (verificationRequests (prisma w)))
             (afterVote now tk req DENY options (prisma w))))
       (outbox w)).
Proof.
  intros Hv. unfold LegacyVerificationSystem.submitVerificationVote.
  vote_prelude Hv.
  rewrite (bool_decide_eq_true_2 (DENY = DENY) eq_refl). cbn.
  rewrite Hr. cbn. rewrite Hs. reflexivity.
Qed.

Lemma length_filter_decide {A} (f : A -> bool) (P : A -> Prop)
    `{!forall x, Decision (P x)} l :
  (forall x, f x = true <-> P x) ->
  length (List.filter f l) = length (filter P l).
Proof.
  intros Hiff. induction l as [|a l IH]; [done|].
  cbn [List.filter]. rewrite filter_cons.
  destruct (f a) eqn:E, (decide (P a)) as [HP|HP]; cbn; try congruence.
  - destruct HP. by apply Hiff.
  - apply Hiff in HP. congruence.
Qed.

Lemma filter_length_Permutation {A} (P : A -> bool) l l' :
  l ≡ₚ l' -> length (List.filter P l) = length (List.filter P l').
Proof.
  induction 1 as [|x l l' _ IH|x y l|l1 l2 l3 _ IH1 _ IH2]; cbn.
  - done.
  - destruct (P x); cbn; congruence.
  - destruct (P x), (P y); reflexivity.
  - congruence.
Qed.

(** The where-clause of the recount selects the CONFIRM votes of the
    request and no other vote. *)
Lemma confirmCount_rows d rid : confirmCount d rid = confirmVotes d rid.
Proof.
  unfold confirmCount, confirmVotes, Prisma.allRows. f_equal.
  apply length_filter_decide. intros v. unfold isConfirmFor.
  by rewrite andb_true_iff, String.eqb_eq, bool_decide_eq_true.
Qed.

Lemma confirmCount_afterVote now tk req options d :
  confirmCount (afterVote now tk req CONFIRM options d) (vr_id req)
  = confirmCount d (vr_id req) + 1.
Proof.
  unfold confirmCount, afterVote, Prisma.allRows. cbn.
  rewrite (filter_length_Permutation _ _
             (newVote now tk req CONFIRM options d
              :: (map_to_list (verificationVoteRecords d)).*2)).
  - cbn. unfold isConfirmFor at 1. cbn. rewrite String.eqb_refl. cbn.
    rewrite (bool_decide_eq_true_2 (CONFIRM = CONFIRM) eq_refl). cbn. lia.
  - rewrite map_to_list_insert by apply fresh_vote_key. reflexivity.
Qed.

(** The run of a CONFIRM vote; the two versions agree on it. *)
Lemma confirm_run now w token tk req sw options :
  votable now (prisma w) token tk req sw ->
  VerificationSystem.submitVerificationVote now
    (mkSubmitVoteInput token CONFIRM) options w
  = if confirmCount (afterVote now tk req CONFIRM options (prisma w)) (vr_id req)
       >=? vr_requiredConfirmations req
    then
      (Ok (newVote now tk req CONFIRM options (prisma w), confirmed),
       mkWorld
         (setRows switchT
            (<[vr_switchId req
               := StateMachine.applyUpdate
                    (StateMachine.mkSwitchUpdate (Some VERIFIED) None None None
                       (Some (Some (now + StateMachine.hours
                                            (finalDelayHours sw))))) sw]>
               (switches (prisma w)))
            (setRows verificationRequestT
               (<[vr_id req := StateMachine.completeRequest now Confirmed req]>
                  (verificationRequests (prisma w)))
               (afterVote now tk req CONFIRM options (prisma w))))
         (outbox w))
    else
      (Ok (newVote now tk req CONFIRM options (prisma w), pending),
       mkWorld (afterVote now tk req CONFIRM options (prisma w)) (outbox w)).
Proof.
  intros Hv. unfold VerificationSystem.submitVerificationVote.
  vote_prelude Hv.
  rewrite (bool_decide_eq_false_2 (CONFIRM = DENY)) by discriminate. cbn.
  unfold confirmCount, afterVote, Prisma.allRows. cbn.
  destruct (_ >=? _); [|reflexivity].
  cbn. rewrite Hr. cbn. rewrite Hs. reflexivity.
Qed.

Lemma legacy_confirm_run now w token tk req sw options :
  votable now (prisma w) token tk req sw ->
  LegacyVerificationSystem.submitVerificationVote now
    (mkSubmitVoteInput token CONFIRM) options w
  = VerificationSystem.submitVerificationVote now
      (mkSubmitVoteInput token CONFIRM) options w.
Proof.
  intros Hv. rewrite (confirm_run _ _ _ _ _ _ _ Hv).
  unfold LegacyVerificationSystem.submitVerificationVote.
  vote_prelude Hv.
  rewrite (bool_decide_eq_false_2 (CONFIRM = DENY)) by discriminate. cbn.
  unfold confirmCount, afterVote, Prisma.allRows. cbn.
  destruct (_ >=? _); [|reflexivity].
  cbn. rewrite Hr. cbn. rewrite Hs. reflexivity.
Qed.

End VoteRuns.

Section VoteClaims.
Import EmailService VerificationQueries Integrity Effects.

(** In the version with one-time codes a DENY vote on an open request
    completes the request as denied and sets the switch to PAUSED, whatever
    votes the request has already. *)
Theorem deny_vote_pauses_the_switch now w token tk req sw options :
  votable now (prisma w) token tk req sw ->
  exists vote w',
    VerificationSystem.submitVerificationVote now
      (mkSubmitVoteInput token DENY) options w = (Ok (vote, denied), w')
    /\ verificationVoteRecords (prisma w') !! vv_id vote = Some vote
    /\ completedAs Denied now (prisma w') (vr_id req)
    /\ hasStatus PAUSED (prisma w') (vr_switchId req).
Proof.
  intros Hv. rewrite (deny_run _ _ _ _ _ _ _ Hv). do 2 eexists.
  split; [reflexivity|]. cbn. split; [apply lookup_insert_eq|]. split.
  - eexists. split; [apply lookup_insert_eq|]. by split.
  - eexists. split; [apply lookup_insert_eq|]. done.
Qed.

(** In the version without one-time codes the same vote resets the switch
    to ACTIVE with fresh check-in timers. *)
Theorem legacy_deny_vote_resets_the_switch now w token tk req sw options :
  votable now (prisma w) token tk req sw ->
  exists vote w',
    LegacyVerificationSystem.submitVerificationVote now
      (mkSubmitVoteInput token DENY) options w = (Ok (vote, denied), w')
    /\ completedAs Denied now (prisma w') (vr_id req)
    /\ switches (prisma w') !! vr_switchId req = Some (checkedIn now sw).
Proof.
  intros Hv. rewrite (legacy_deny_run _ _ _ _ _ _ _ Hv). do 2 eexists.
  split; [reflexivity|]. cbn. split.
  - eexists. split; [apply lookup_insert_eq|]. by split.
  - apply lookup_insert_eq.
Qed.

Ltac two_rows H :=
  cbn in H; apply lookup_insert_Some in H as [[<- <-]|[? H]];
  [|apply lookup_singleton_Some in H as [<- <-]].

Lemma votingDb_votable :
  votable 1000 Fixtures.votingDb "tok-v1"
    (Fixtures.aToken "tv1" "v1" "tok-v1" "hash-of-123456")
    (Fixtures.aRequest "vr1" "sw1" 2000000)
    (Fixtures.aSwitch "sw1" PENDING_VERIFICATION).
Proof.
  split; try reflexivity.
  - intros k1 k2 r1 r2 H1 H2 Hcol. two_rows H1; two_rows H2;
      first [done|discriminate Hcol].
  - cbn. lia.
  - intros k v H [_ Hver]. cbn in H.
    apply lookup_singleton_Some in H as [<- <-]. discriminate Hver.
Qed.

Lemma noVoteDb_votable :
  votable 1000 Fixtures.noVoteDb "tok-v1"
    (Fixtures.aToken "tv1" "v1" "tok-v1" "hash-of-123456")
    (Fixtures.aRequest "vr1" "sw1" 2000000)
    (Fixtures.aSwitch "sw1" PENDING_VERIFICATION).
Proof.
  split; try reflexivity.
  - intros k1 k2 r1 r2 H1 H2 Hcol. two_rows H1; two_rows H2;
      first [done|discriminate Hcol].
  - cbn. lia.
  - intros k v H. cbn in H. by rewrite lookup_empty in H.
Qed.

(** C1, on the version without one-time codes.  Verifier "v1" denies at
    time 1000, after "v2" has confirmed: the request is completed as denied,
    and the switch is ACTIVE again, with check-in timers starting at 1000,
    not PAUSED. *)
Lemma C1_legacy_deny_resets_to_ACTIVE :
  exists vote w',
    LegacyVerificationSystem.submitVerificationVote 1000
      (mkSubmitVoteInput "tok-v1" DENY) None
      (Fixtures.worldOf Fixtures.votingDb) = (Ok (vote, denied), w')
    /\ completedAs Denied 1000 (prisma w') "vr1"
    /\ hasStatus ACTIVE (prisma w') "sw1"
    /\ ~ hasStatus PAUSED (prisma w') "sw1"
    /\ (exists s, switches (prisma w') !! "sw1" = Some s
                  /\ lastCheckInAt s = Some 1000
                  /\ nextCheckInDueAt s = Some 604801000).
Proof.
  destruct (legacy_deny_vote_resets_the_switch 1000
              (Fixtures.worldOf Fixtures.votingDb) _ _ _ _ None
              votingDb_votable) as (vote & w' & Hrun & Hreq & Hsw).
  exists vote, w'. split; [exact Hrun|]. split; [exact Hreq|].
  cbn [vr_switchId Fixtures.aRequest] in Hsw.
  split; [eexists; split; [exact Hsw|reflexivity]|]. split.
  - intros (s & Hs & Hst). rewrite Hsw in Hs. injection Hs as <-.
    discriminate Hst.
  - eexists. split; [exact Hsw|]. split; reflexivity.
Qed.

(** The same vote on the same store in the version with one-time codes. *)
Example deny_pauses_on_the_same_store :
  exists vote w',
    VerificationSystem.submitVerificationVote 1000
      (mkSubmitVoteInput "tok-v1" DENY) None
      (Fixtures.worldOf Fixtures.votingDb) = (Ok (vote, denied), w')
    /\ completedAs Denied 1000 (prisma w') "vr1"
    /\ hasStatus PAUSED (prisma w') "sw1".
Proof.
  destruct (deny_vote_pauses_the_switch 1000
              (Fixtures.worldOf Fixtures.votingDb) _ _ _ _ None
              votingDb_votable) as (vote & w' & Hrun & _ & Hreq & Hsw).
  eauto.
Qed.

(** C5. An accepted CONFIRM vote is stored and the CONFIRM votes of the
    request, that is the stored votes with the id of this request and the
    vote CONFIRM and no others, are counted again, the new one included;
    when the count is at least the requiredConfirmations snapshotted in the
    request, the request is completed at now with result confirmed and the
    switch is VERIFIED with scheduledExecutionAt = now + finalDelayHours;
    otherwise the request and the switch are left as they were and the
    answer is pending.  Both versions of the verification system do so. *)
Theorem C5_confirm_vote_counts_quorum now w token tk req sw options :
  votable now (prisma w) token tk req sw ->
  confirmCounts VerificationSystem.submitVerificationVote
    now w token req sw options
  /\ confirmCounts LegacyVerificationSystem.submitVerificationVote
       now w token req sw options.
Proof.
  intros Hv.
  assert (H : confirmCounts VerificationSystem.submitVerificationVote
                now w token req sw options).
  { unfold confirmCounts. rewrite (confirm_run _ _ _ _ _ _ _ Hv).
    pose proof (confirmCount_afterVote now tk req options (prisma w)) as Hcount.
    destruct Hv as [Hu Ht Hval Hr Hrel Hs Hlink Hunused Hopen Hfirst].
    destruct (_ >=? _) eqn:Hq; do 3 eexists; (split; [reflexivity|]);
      rewrite <- !confirmCount_rows.
    - apply Z.geb_le in Hq. cbn [prisma]. split; [apply lookup_insert_eq|].
      split; [done|]. split; [exact Hcount|]. split.
      + intros _. split; [done|]. split.
        * eexists. split; [apply lookup_insert_eq|]. by split.
        * cbn. eexists. split; [apply lookup_insert_eq|]. cbn.
          split; [done|]. unfold StateMachine.hours. done.
      + intros Hlt. exfalso.
        change (confirmCount (afterVote now tk req CONFIRM options (prisma w))
                  (vr_id req) < vr_requiredConfirmations req) in Hlt.
        lia.
    - assert (Hlt : confirmCount (afterVote now tk req CONFIRM options (prisma w))
                      (vr_id req) < vr_requiredConfirmations req).
      { destruct (Z.geb_spec
                    (confirmCount (afterVote now tk req CONFIRM options (prisma w))
                       (vr_id req))
                    (vr_requiredConfirmations req)); [discriminate Hq|lia]. }
      cbn [prisma]. split; [apply lookup_insert_eq|].
      split; [done|]. split; [exact Hcount|]. split.
      + intros Hle. lia.
      + intros _. split; [done|]. cbn. by split. }
  split; [exact H|].
  unfold confirmCounts. rewrite (legacy_confirm_run _ _ _ _ _ _ _ Hv). exact H.
Qed.

(** The quorum scenario of the specification: with a quorum of two, the
    first CONFIRM is answered pending and leaves the request open, the
    second is answered confirmed and the switch is VERIFIED with its
    execution scheduled a day later. *)
Lemma C5_witness :
  (exists vote w',
     VerificationSystem.submitVerificationVote 1000
       (mkSubmitVoteInput "tok-v1" CONFIRM) None
       (Fixtures.worldOf Fixtures.noVoteDb) = (Ok (vote, pending), w')
     /\ verificationRequests (prisma w') !! "vr1"
        = Some (Fixtures.aRequest "vr1" "sw1" 2000000))
  /\ (exists vote w' s',
        VerificationSystem.submitVerificationVote 1000
          (mkSubmitVoteInput "tok-v1" CONFIRM) None
          (Fixtures.worldOf Fixtures.votingDb) = (Ok (vote, confirmed), w')
        /\ completedAs Confirmed 1000 (prisma w') "vr1"
        /\ switches (prisma w') !! "sw1" = Some s'
        /\ status s' = VERIFIED
        /\ scheduledExecutionAt s' = Some 86401000).
Proof.
  split.
  - destruct (C5_confirm_vote_counts_quorum 1000
                (Fixtures.worldOf Fixtures.noVoteDb) _ _ _ _ None
                noVoteDb_votable)
      as [(vote & res & w' & Hrun & _ & _ & Hcount & _ & Hpending) _].
    destruct Hpending as (-> & Hreq & _).
    { rewrite Hcount. vm_compute. reflexivity. }
    exists vote, w'. split; [exact Hrun|exact Hreq].
  - destruct (C5_confirm_vote_counts_quorum 1000
                (Fixtures.worldOf Fixtures.votingDb) _ _ _ _ None
                votingDb_votable)
      as [(vote & res & w' & Hrun & _ & _ & Hcount & Hquorum & _) _].
    destruct Hquorum as (-> & Hreq & s' & Hs' & Hst & Hsched).
    { rewrite Hcount. vm_compute. discriminate. }
    exists vote, w', s'. split; [exact Hrun|]. split; [exact Hreq|].
    split; [exact Hs'|]. split; [exact Hst|exact Hsched].
Defined.

End VoteClaims.

(** ** The verification endpoint *)

Section RouteClaims.
Import EmailService VerificationQueries Integrity Effects Http.

Lemma parseEnum_voteName v : parseEnum (JString (voteName v)) = Some v.
Proof. by destruct v. Qed.

Lemma vote_recorded_new now w token tk req sw options v :
  votable now (prisma w) token tk req sw ->
  exists vote res w',
    VerificationSystem.submitVerificationVote now (mkSubmitVoteInput token v)
      options w = (Ok (vote, res), w')
    /\ verificationVoteRecords (prisma w') !! vv_id vote = Some vote
    /\ vv_verificationRequestId vote = vr_id req
    /\ vv_vote vote = v
    /\ (v = DENY ->
        res = denied /\ completedAs Denied now (prisma w') (vr_id req))
    /\ (v = CONFIRM ->
        vr_requiredConfirmations req <= confirmCount (prisma w) (vr_id req) + 1 ->
        res = confirmed /\ completedAs Confirmed now (prisma w') (vr_id req)).
Proof.
  intros Hv. destruct v.
  - rewrite (confirm_run _ _ _ _ _ _ _ Hv).
    rewrite (confirmCount_afterVote now tk req options (prisma w)).
    destruct (_ >=? _) eqn:Hq; do 3 eexists; (split; [reflexivity|]);
      cbn [prisma]; (split; [apply lookup_insert_eq|]);
      (split; [done|]); (split; [done|]); (split; [done|]); intros _ Hle.
    + split; [done|]. eexists. split; [apply lookup_insert_eq|]. by split.
    + exfalso.
      destruct (Z.geb_spec (confirmCount (prisma w) (vr_id req) + 1)
                  (vr_requiredConfirmations req)); [discriminate Hq|lia].
  - rewrite (deny_run _ _ _ _ _ _ _ Hv). do 3 eexists.
    split; [reflexivity|]. cbn [prisma]. split; [apply lookup_insert_eq|].
    split; [done|]. split; [done|]. split; [|done]. intros _.
    split; [done|]. eexists. split; [apply lookup_insert_eq|]. by split.
Qed.

Lemma vote_recorded_legacy now w token tk req sw options v :
  votable now (prisma w) token tk req sw ->
  exists vote res w',
    LegacyVerificationSystem.submitVerificationVote now
      (mkSubmitVoteInput token v) options w = (Ok (vote, res), w')
    /\ verificationVoteRecords (prisma w') !! vv_id vote = Some vote
    /\ vv_verificationRequestId vote = vr_id req
    /\ vv_vote vote = v
    /\ (v = DENY ->
        res = denied /\ completedAs Denied now (prisma w') (vr_id req))
    /\ (v = CONFIRM ->
        vr_requiredConfirmations req <= confirmCount (prisma w) (vr_id req) + 1 ->
        res = confirmed /\ completedAs Confirmed now (prisma w') (vr_id req)).
Proof.
  intros Hv. destruct v.
  - rewrite (legacy_confirm_run _ _ _ _ _ _ _ Hv).
    exact (vote_recorded_new now w token tk req sw options CONFIRM Hv).
  - rewrite (legacy_deny_run _ _ _ _ _ _ _ Hv). do 3 eexists.
    split; [reflexivity|]. cbn [prisma]. split; [apply lookup_insert_eq|].
    split; [done|]. split; [done|]. split; [|done]. intros _.
    split; [done|]. eexists. split; [apply lookup_insert_eq|]. by split.
Qed.

(** With a code that does not hash to the stored one, the path with
    one-time codes refuses the vote. *)
Lemma wrong_code_refused rt now w token tk req sw options code hash v :
  votable now (prisma w) token tk req sw ->
  vt_otp tk = Some hash ->
  sha256Hex rt code <> hash ->
  Scheduler.lt (vt_otpExpiresAt tk) now = false ->
  exists w',
    VerificationSystem.verifyOtpAndVote rt now token code v options w
    = (Ok (VerificationSystem.mkOtpVoteResult false pending
             (Some "Invalid verification code")), w')
    /\ verificationVoteRecords (prisma w') = verificationVoteRecords (prisma w)
    /\ verificationRequests (prisma w') = verificationRequests (prisma w)
    /\ switches (prisma w') = switches (prisma w).
Proof.
  intros Hv Hotp Hne Hexp.
  pose proof (findToken_votable _ _ _ _ _ _ Hv) as Hfind.
  destruct Hv as [Hu Ht Hval Hr Hrel Hs Hlink Hunused Hopen Hfirst].
  unfold VerificationSystem.verifyOtpAndVote.
  unfold mbind at 1. unfold Async_bind, bind. rewrite Hfind.
  assert (Hltb : (vt_expiresAt tk <? now) = false) by (apply Z.ltb_ge; lia).
  rewrite Hltb, Hunused, Hexp, Hotp. cbn [bool_decide decide_rel].
  assert (Hbad : negb (truthy hash) || negb (Encryption.verifyOtp rt code hash)
                 = true).
  { apply orb_true_iff. right. unfold Encryption.verifyOtp, Encryption.hashOtp.
    apply negb_true_iff. by apply String.eqb_neq. }
  rewrite Hbad. unfold VerificationSystem.otpFailed. unfold_async. cbn.
  eexists. split; [reflexivity|]. done.
Qed.

End RouteClaims.

Section RouteTheorem.
Import EmailService VerificationQueries Integrity Effects Http.

(** C9. A POST to the verification endpoint whose body has no [otp] field
    (or a falsy one) goes to [submitVerificationVote], which looks at the
    token, the expiry of the link, the reuse of the token, the openness of
    the request and the earlier votes of the verifier, and at nothing else:
    whatever hash of a one-time code is stored with the token, the vote is
    stored and completes the request as denied, or as confirmed once the
    quorum is reached.  The same store refuses the same vote on the path
    with one-time codes when the code sent does not hash to the stored
    one. *)
Theorem C9_vote_without_one_time_code
    rt acceptInvitation now action headers w token tk req sw otpField v :
  votable now (prisma w) token tk req sw ->
  action <> Some "accept-invite" ->
  jsTruthy otpField = false ->
  recordsVote
    (VerifyRoute.POST rt acceptInvitation now action headers
       (mkBody (JString token) otpField (JString (voteName v))) w)
    now w req v
  /\ recordsVote
       (LegacyVerifyRoute.POST acceptInvitation now action headers
          (mkBody (JString token) otpField (JString (voteName v))) w)
       now w req v
  /\ (forall code hash,
        vt_otp tk = Some hash ->
        String.length code = 6%nat ->
        sha256Hex rt code <> hash ->
        Scheduler.lt (vt_otpExpiresAt tk) now = false ->
        exists w',
          VerifyRoute.POST rt acceptInvitation now action headers
            (mkBody (JString token) (JString code) (JString (voteName v))) w
          = (Ok (mkResponse 400 false (Some "Invalid verification code") None),
             w')
          /\ verificationVoteRecords (prisma w')
             = verificationVoteRecords (prisma w)
          /\ verificationRequests (prisma w') = verificationRequests (prisma w)
          /\ switches (prisma w') = switches (prisma w)).
Proof.
  intros Hv Hact Hfalsy.
  assert (Hschema :
            submitVoteSchema
              (mkBody (JString token) otpField (JString (voteName v)))
            = inr (mkSubmitVoteInput token v)).
  { unfold submitVoteSchema. cbn [Http.token Http.vote].
    by rewrite parseEnum_voteName. }
  split; [|split].
  - destruct (vote_recorded_new now w token tk req sw (clientInfo headers) v Hv)
      as (vote & res & w' & Hrun & Hrest).
    exists vote, res, w'. split; [|exact Hrest].
    unfold VerifyRoute.POST, catchAll, tryCatch.
    rewrite (bool_decide_eq_false_2 _ Hact). cbn [Http.otp].
    rewrite Hfalsy, Hschema.
    unfold mbind, Async_bind, bind. rewrite Hrun. reflexivity.
  - destruct (vote_recorded_legacy now w token tk req sw (clientInfo headers) v Hv)
      as (vote & res & w' & Hrun & Hrest).
    exists vote, res, w'. split; [|exact Hrest].
    unfold LegacyVerifyRoute.POST, catchAll, tryCatch.
    rewrite (bool_decide_eq_false_2 _ Hact), Hschema.
    unfold mbind, Async_bind, bind. rewrite Hrun. reflexivity.
  - intros code hash Hotp Hlen Hne Hexp.
    destruct (wrong_code_refused rt now w token tk req sw (clientInfo headers)
                code hash v Hv Hotp Hne Hexp) as (w' & Hrun & Hrest).
    exists w'. split; [|exact Hrest].
    unfold VerifyRoute.POST, catchAll, tryCatch.
    rewrite (bool_decide_eq_false_2 _ Hact). cbn [Http.otp].
    assert (Htruthy : jsTruthy (JString code) = true).
    { destruct code; [discriminate Hlen|reflexivity]. }
    rewrite Htruthy. unfold submitOtpVoteSchema.
    cbn [Http.token Http.otp Http.vote].
    rewrite Hlen, parseEnum_voteName.
    change (negb (Z.of_nat 6 =? 6)) with false. cbv iota.
    unfold mbind, Async_bind, bind. rewrite Hrun. reflexivity.
Qed.

(** On the store where "v2" has confirmed, a body with the token of "v1"
    and a CONFIRM vote, and no code, completes the request as confirmed;
    the wrong code "000000" sent with the same body is refused. *)
Lemma C9_witness :
  recordsVote
    (VerifyRoute.POST (Fixtures.runtime Fixtures.accepting)
       Fixtures.noInvitation 1000 None (mkHeaders None None)
       (mkBody (JString "tok-v1") JUndefined (JString "CONFIRM"))
       (Fixtures.worldOf Fixtures.votingDb))
    1000 (Fixtures.worldOf Fixtures.votingDb)
    (Fixtures.aRequest "vr1" "sw1" 2000000) CONFIRM
  /\ exists w',
       VerifyRoute.POST (Fixtures.runtime Fixtures.accepting)
         Fixtures.noInvitation 1000 None (mkHeaders None None)
         (mkBody (JString "tok-v1") (JString "000000") (JString "CONFIRM"))
         (Fixtures.worldOf Fixtures.votingDb)
       = (Ok (mkResponse 400 false (Some "Invalid verification code") None), w').
Proof.
  destruct (C9_vote_without_one_time_code (Fixtures.runtime Fixtures.accepting)
              Fixtures.noInvitation 1000 None (mkHeaders None None)
              (Fixtures.worldOf Fixtures.votingDb) "tok-v1" _ _ _
              JUndefined CONFIRM votingDb_votable)
    as (Hnew & _ & Hgate); [discriminate|reflexivity|].
  split; [exact Hnew|].
  destruct (Hgate "000000" "hash-of-123456") as (w' & Hrun & _);
    [reflexivity|reflexivity|discriminate|reflexivity|].
  exists w'. exact Hrun.
Defined.

End RouteTheorem.

(** ** Delivery of the final messages *)

Section DeliveryRuns.
Import EmailService Scheduler Effects.

Lemma existsb_noConstraint {R} (r : R) l :
  existsb (Prisma.noConstraint r) l = false.
Proof. induction l; [done|]. cbn. exact IHl. Qed.

Lemma fresh_delivery_key d :
  emailDeliveries d !! fresh (dom (emailDeliveries d)) = None.
Proof. apply not_elem_of_dom, is_fresh. Qed.

Lemma sentCount_insert d k e m (t : gmap string EmailDelivery) :
  t !! k = None ->
  emailDeliveries d = <[k := e]> t ->
  sentCount d m
  = ((if isSentFor m e then 1 else 0)
     + length (List.filter (isSentFor m) (map_to_list t).*2))%nat.
Proof.
  intros Hk Heq. unfold sentCount, Prisma.allRows. cbn. rewrite Heq.
  rewrite (filter_length_Permutation _ _ (e :: (map_to_list t).*2)).
  - cbn. by destruct (isSentFor m e).
  - rewrite map_to_list_insert by done. reflexivity.
Qed.

Lemma find_none_filter {A} (P : A -> bool) l :
  List.find P l = None -> List.filter P l = [].
Proof.
  induction l as [|a l IH]; cbn; [done|].
  destruct (P a); [done|]. exact IH.
Qed.

(** One call of [sendFinalMessage] adds a SENT delivery for its message
    only when there was none, and none for any other message. *)
Lemma sendFinalMessage_sent_bound rt now m0 options w m :
  (sentCount (prisma (sendFinalMessage rt now m0 options w).2) m
   <= Nat.max (sentCount (prisma w) m) 1)%nat.
Proof.
  unfold sendFinalMessage. unfold_async. cbn.
  destruct (List.find (isSentFor m0) _) as [d|] eqn:Hfind; cbn; [lia|].
  destruct (messages (prisma w) !! m0) as [msg|]; cbn; [|lia].
  destruct (recipients (prisma w) !! msg_recipientId msg) as [r|]; cbn; [|lia].
  destruct (Encryption.decrypt rt (msg_encryptedContent msg)) as [content|e];
    cbn; [|lia].
  rewrite existsb_noConstraint. unfold sendEmail. cbn.
  destruct (sendMail rt _ _) as [mid|[err]]; cbn;
    rewrite lookup_insert_eq; cbn; rewrite insert_insert_eq.
  - erewrite sentCount_insert;
      [|apply (fresh_delivery_key (prisma w))|reflexivity].
    unfold isSentFor at 1. cbn [ed_messageId ed_status markSent].
    rewrite (bool_decide_eq_true_2 (SENT = SENT) eq_refl), andb_true_r.
    destruct (String.eqb m0 m) eqn:Heq.
    + apply String.eqb_eq in Heq. subst m.
      apply find_none_filter in Hfind. unfold Prisma.allRows in Hfind.
      change (rows emailDeliveryT (prisma w))
        with (emailDeliveries (prisma w)) in Hfind.
      rewrite Hfind. cbn. lia.
    + unfold sentCount, Prisma.allRows.
      change (rows emailDeliveryT (prisma w))
        with (emailDeliveries (prisma w)).
      cbn [Nat.add]. lia.
  - erewrite sentCount_insert;
      [|apply (fresh_delivery_key (prisma w))|reflexivity].
    unfold isSentFor at 1. cbn [ed_messageId ed_status markFailed].
    rewrite (bool_decide_eq_false_2 (FAILED = SENT)) by discriminate.
    rewrite andb_false_r.
    unfold sentCount, Prisma.allRows.
    change (rows emailDeliveryT (prisma w)) with (emailDeliveries (prisma w)).
    cbn [Nat.add]. lia.
Qed.

Lemma sent_bound_trans (a b c : nat) :
  (a <= Nat.max b 1 -> b <= Nat.max c 1 -> a <= Nat.max c 1)%nat.
Proof. lia. Qed.

Lemma sendAll_sent_bound rt now switchId recipients : forall allSent errors w m,
  (sentCount (prisma (sendAll rt now switchId recipients allSent errors w).2) m
   <= Nat.max (sentCount (prisma w) m) 1)%nat.
Proof.
  induction recipients as [|[r [msg|]] rest IH]; intros allSent errors w m;
    cbn; [lia| |apply IH].
  pose proof (sendFinalMessage_sent_bound rt now (msg_id msg) None w m) as Hstep.
  destruct (sendFinalMessage rt now (msg_id msg) None w) as [[result|e] w1];
    cbn in Hstep |- *; [|exact Hstep].
  destruct (negb (success result));
    (eapply sent_bound_trans; [apply IH|exact Hstep]).
Qed.

Lemma transition_keeps_deliveries now id target options w :
  emailDeliveries (prisma (StateMachine.transitionSwitchState now id target options w).2)
  = emailDeliveries (prisma w).
Proof.
  destruct (switches (prisma w) !! id) as [s|] eqn:Hs.
  - destruct (isValidTransition (status s) target) eqn:Hv.
    + by rewrite (transition_valid _ _ _ _ _ _ Hs Hv).
    + by rewrite (transition_invalid _ _ _ _ _ _ Hs Hv).
  - by rewrite (transition_missing _ _ _ _ _ Hs).
Qed.

Lemma sentCount_same d d' m :
  emailDeliveries d' = emailDeliveries d -> sentCount d' m = sentCount d m.
Proof. intros H. unfold sentCount, Prisma.allRows. cbn. by rewrite H. Qed.

Lemma executeSwitch_sent_bound rt now sw executed errors w m :
  (sentCount (prisma (executeSwitch rt now sw executed errors w).2) m
   <= Nat.max (sentCount (prisma w) m) 1)%nat.
Proof.
  unfold executeSwitch.
  pose proof (sendAll_sent_bound rt now (sw_id sw.1) sw.2 true errors w m)
    as Hsend.
  destruct (sendAll rt now (sw_id sw.1) sw.2 true errors w)
    as [[[allSent|e] errors1] w1]; cbn in Hsend |- *; [|exact Hsend].
  pose proof (transition_keeps_deliveries now (sw_id sw.1) EXECUTED None w1)
    as Hkeep.
  destruct (StateMachine.transitionSwitchState now (sw_id sw.1) EXECUTED None w1)
    as [[tr|e] w2]; cbn in Hkeep |- *.
  - destruct (StateMachine.success tr); cbn.
    + unfold_async. cbn. erewrite sentCount_same; [|cbn; exact Hkeep].
      exact Hsend.
    + erewrite sentCount_same; [|exact Hkeep]. exact Hsend.
  - erewrite sentCount_same; [|exact Hkeep]. exact Hsend.
Qed.

Lemma executeLoop_sent_bound rt now ready : forall executed errors w m,
  (sentCount (prisma (executeLoop rt now ready executed errors w).2) m
   <= Nat.max (sentCount (prisma w) m) 1)%nat.
Proof.
  induction ready as [|sw rest IH]; intros executed errors w m; cbn; [lia|].
  pose proof (executeSwitch_sent_bound rt now sw executed errors w m) as Hstep.
  destruct (executeSwitch rt now sw executed errors w) as [[ex1 er1] w1].
  cbn in Hstep. eapply sent_bound_trans; [apply IH|exact Hstep].
Qed.

Lemma executeVerifiedSwitches_sent_bound rt now w m :
  (sentCount (prisma (executeVerifiedSwitches rt now w).2) m
   <= Nat.max (sentCount (prisma w) m) 1)%nat.
Proof.
  unfold executeVerifiedSwitches.
  match goal with |- context [executeLoop rt now ?l 0 [] w] =>
    pose proof (executeLoop_sent_bound rt now l 0 [] w m) as H;
    destruct (executeLoop rt now l 0 [] w) as [[ex er] w1] end.
  exact H.
Qed.

(** A message with a SENT delivery is not sent again: the call answers
    with a SENT delivery of the message and leaves store and outbox as they
    were. *)
Lemma sendFinalMessage_idempotent rt now m options w k d :
  emailDeliveries (prisma w) !! k = Some d ->
  ed_messageId d = m -> ed_status d = SENT ->
  exists k' d',
    emailDeliveries (prisma w) !! k' = Some d'
    /\ ed_messageId d' = m /\ ed_status d' = SENT
    /\ sendFinalMessage rt now m options w
       = (Ok (mkFinalMessageResult true (ed_id d')), w).
Proof.
  intros Hk Hm Hst.
  destruct (find_allRows_found emailDeliveryT (prisma w) (isSentFor m) k d Hk)
    as [d' Hfind].
  { unfold isSentFor. rewrite Hm, String.eqb_refl, Hst. reflexivity. }
  unfold sendFinalMessage. unfold_async. rewrite Hfind.
  apply (find_allRows_Some emailDeliveryT) in Hfind as [[k' Hk'] HP].
  unfold isSentFor in HP. apply andb_true_iff in HP as [H1 H2].
  apply String.eqb_eq in H1. apply bool_decide_eq_true in H2.
  exists k', d'. by repeat split.
Qed.

End DeliveryRuns.

Section DeliveryClaims.
Import EmailService Scheduler Effects.

(** C3. When a delivery with status SENT exists for a message,
    [sendFinalMessage] hands nothing to the transport, writes nothing, and
    answers success with the id of a SENT delivery of the message; and two
    execution passes in a row leave, for every message, at most one SENT
    delivery more than none: the number of SENT deliveries of a message
    after the two passes is at most one when there was none before, and is
    not raised when there was one. *)
Theorem C3_final_message_sent_at_most_once rt :
  (forall now m options w k d,
     emailDeliveries (prisma w) !! k = Some d ->
     ed_messageId d = m -> ed_status d = SENT ->
     exists k' d',
       emailDeliveries (prisma w) !! k' = Some d'
       /\ ed_messageId d' = m /\ ed_status d' = SENT
       /\ sendFinalMessage rt now m options w
          = (Ok (mkFinalMessageResult true (ed_id d')), w))
  /\ (forall now1 now2 w m,
        (sentCount
           (prisma
              (executeVerifiedSwitches rt now2
                 (executeVerifiedSwitches rt now1 w).2).2) m
         <= Nat.max (sentCount (prisma w) m) 1)%nat).
Proof.
  split.
  - intros. by eapply sendFinalMessage_idempotent.
  - intros now1 now2 w m. eapply sent_bound_trans.
    + apply executeVerifiedSwitches_sent_bound.
    + apply executeVerifiedSwitches_sent_bound.
Qed.

(** The scenario of the specification: one VERIFIED switch with one
    recipient.  The first pass sends the message; after the second pass
    there is still one SENT delivery, and a further call for the message
    answers with it and changes nothing. *)
Lemma C3_witness :
  let rt := Fixtures.runtime Fixtures.accepting in
  let w1 :=
    (executeVerifiedSwitches rt 1000 (Fixtures.worldOf Fixtures.oneRecipientDb)).2 in
  let w2 := (executeVerifiedSwitches rt 2000 w1).2 in
  sentCount (prisma w1) "m1" = 1%nat
  /\ length (outbox w1) = 1%nat
  /\ (sentCount (prisma w2) "m1" <= 1)%nat
  /\ exists k' d',
       emailDeliveries (prisma w1) !! k' = Some d'
       /\ sendFinalMessage rt 2000 "m1" None w1
          = (Ok (mkFinalMessageResult true (ed_id d')), w1).
Proof.
  intros rt w1 w2.
  destruct (C3_final_message_sent_at_most_once rt) as [Hidem Hbound].
  split; [vm_compute; reflexivity|].
  split; [vm_compute; reflexivity|].
  split.
  - etransitivity; [apply Hbound|]. vm_compute. lia.
  - destruct (Hidem 2000 "m1" None w1 "0"
                (mkEmailDelivery "0" "m1" "nodemailer" SENT (Some "<id@smtp>")
                   (Some 1000) (Some 1000) None None 0))
      as (k' & d' & Hk' & _ & _ & Hrun);
      [vm_compute; reflexivity|reflexivity|reflexivity|].
    exists k', d'. split; [exact Hk'|exact Hrun].
Defined.

(** C2, at a switch whose first message cannot be decrypted.  The call of
    [sendFinalMessage] raises; the exception leaves the loop over the
    recipients, so the second message is not attempted, and the handler of
    the pass records the error without the transition: the switch stays
    VERIFIED. *)
Lemma C2_undecryptable_message_blocks_execution :
  let w :=
    Fixtures.worldOf
      (Fixtures.executionDb "garbage" (Fixtures.ciphertextOf "Farewell, Bob.")) in
  let run :=
    executeVerifiedSwitches (Fixtures.runtime Fixtures.accepting) 1000 w in
  run.1
  = Ok (mkExecutionReport 1 0
          ["Error executing switch sw1: Error: Decryption failed"])
  /\ hasStatus VERIFIED (prisma run.2) "sw1"
  /\ ~ hasStatus EXECUTED (prisma run.2) "sw1"
  /\ outbox run.2 = []
  /\ emailDeliveries (prisma run.2) = ∅.
Proof.
  intros w run.
  split; [vm_compute; reflexivity|].
  split; [eexists; split; vm_compute; reflexivity|].
  split.
  - intros (s & Hs & Hst). vm_compute in Hs. injection Hs as <-.
    discriminate Hst.
  - split; vm_compute; reflexivity.
Qed.

(** When the transport refuses both messages, no call raises: both
    failures are recorded and the switch is EXECUTED. *)
Example transport_failure_still_executes :
  let w :=
    Fixtures.worldOf
      (Fixtures.executionDb (Fixtures.ciphertextOf "Farewell, Ann.")
         (Fixtures.ciphertextOf "Farewell, Bob.")) in
  let run :=
    executeVerifiedSwitches (Fixtures.runtime Fixtures.refusing) 1000 w in
  run.1
  = Ok (mkExecutionReport 1 1
          ["Failed to send message m1 for switch sw1";
           "Failed to send message m2 for switch sw1"])
  /\ hasStatus EXECUTED (prisma run.2) "sw1".
Proof.
  intros w run.
  split; [vm_compute; reflexivity|].
  eexists; split; vm_compute; reflexivity.
Qed.

End DeliveryClaims.

(** ** The confidentiality layer *)

Section EncryptionRuns.
Import Encryption Effects.

Lemma split_nonempty sep s : split sep s <> [].
Proof.
  destruct s as [|c r]; cbn; [done|].
  destruct (Ascii.eqb c sep); [done|]. by destruct (split sep r).
Qed.

Lemma split_app sep s1 s2 :
  split sep s1 = [s1] ->
  split sep (s1 ++ String sep s2) = s1 :: split sep s2.
Proof.
  induction s1 as [|c r IH]; intros H.
  - change ("" +:+ String sep s2) with (String sep s2). cbn.
    by rewrite Ascii.eqb_refl.
  - change (String c r +:+ String sep s2)
      with (String c (r +:+ String sep s2)).
    cbn in H |- *.
    destruct (Ascii.eqb c sep) eqn:E; [discriminate H|].
    destruct (split sep r) as [|h t] eqn:Er.
    { by destruct (split_nonempty sep r). }
    injection H as -> ->. by rewrite IH.
Qed.

Lemma one_char_app c s : String c "" +:+ s = String c s.
Proof. reflexivity. Qed.

Lemma decrypt_generic rt blob :
  (exists x, decrypt rt blob = Ok x)
  \/ decrypt rt blob = Throw (Error "Decryption failed").
Proof. unfold decrypt. destruct (decryptBody rt blob); eauto. Qed.

Lemma decrypt_fails rt blob e :
  decryptBody rt blob = Throw e ->
  decrypt rt blob = Throw (Error "Decryption failed").
Proof. unfold decrypt. by intros ->. Qed.

Lemma getEncryptionKey_ok rt key :
  ENCRYPTION_KEY rt = Some key -> String.length key = 64%nat ->
  getEncryptionKey rt = Ok (fromHex rt key).
Proof.
  intros Hk Hlen. unfold getEncryptionKey. rewrite Hk, Hlen.
  destruct key; [discriminate Hlen|reflexivity].
Qed.

Lemma truthy_nonempty s : s <> "" -> truthy s = true.
Proof. by destruct s. Qed.

Lemma roundtrip rt key iv salt x :
  RuntimeContract rt ->
  ENCRYPTION_KEY rt = Some key -> String.length key = 64%nat ->
  length iv = 16%nat -> length salt = 16%nat -> x <> "" ->
  exists e, encrypt rt iv salt x = Ok e /\ decrypt rt (encrypted e) = Ok x.
Proof.
  intros C Hk Hlen Hiv Hsalt Hx.
  pose proof (getEncryptionKey_ok rt key Hk Hlen) as Hkey.
  unfold encrypt. rewrite Hkey.
  pose proof (gcm_roundtrip rt C (scryptSync rt (fromHex rt key) salt KEY_LENGTH)
                iv (toUtf8 rt x)) as Hopen.
  pose proof (gcm_length rt C (scryptSync rt (fromHex rt key) salt KEY_LENGTH)
                iv (toUtf8 rt x)) as Hct.
  pose proof (gcm_tag_length rt C (scryptSync rt (fromHex rt key) salt KEY_LENGTH)
                iv (toUtf8 rt x)) as Htag.
  destruct (gcmSeal rt _ iv (toUtf8 rt x)) as [ct tag]. cbn in Hopen, Hct, Htag.
  eexists. split; [reflexivity|]. cbn [encrypted].
  unfold decrypt, decryptBody. rewrite Hkey.
  unfold join. cbn [String.concat]. rewrite !one_char_app.
  rewrite !split_app by apply (base64_alphabet rt C).
  rewrite (base64_alphabet rt C).
  assert (Hne : forall b : Buffer, b <> [] -> truthy (toBase64 rt b) = true).
  { intros b Hb. apply truthy_nonempty. intros E.
    by apply (base64_nonempty rt C) in E. }
  rewrite !Hne.
  - cbn [negb orb]. rewrite !(base64_roundtrip rt C), Hopen.
    by rewrite (utf8_roundtrip rt C).
  - intros ->. cbn in Hct. symmetry in Hct. apply length_zero_iff_nil in Hct.
    by apply (utf8_nonempty rt C) in Hct.
  - intros ->. discriminate Htag.
  - intros ->. discriminate Hiv.
  - intros ->. discriminate Hsalt.
Qed.

(** The reference runtime meets the contract. *)

Lemma hex_byte c :
  ascii_of_N
    (Fixtures.hexValue (Fixtures.hexDigit (N_of_ascii c / 16)) * 16
     + Fixtures.hexValue (Fixtures.hexDigit (N_of_ascii c mod 16))) = c
  /\ Ascii.eqb (Fixtures.hexDigit (N_of_ascii c / 16)) ":" = false
  /\ Ascii.eqb (Fixtures.hexDigit (N_of_ascii c mod 16)) ":" = false.
Proof.
  destruct c as [[] [] [] [] [] [] [] []]; vm_compute; by repeat split.
Qed.

Lemma ofHex_toHex b : Fixtures.ofHex (Fixtures.toHex b) = b.
Proof.
  induction b as [|c b IH]; cbn; [done|].
  destruct (hex_byte c) as (-> & _ & _). by rewrite IH.
Qed.

Lemma split_toHex b : split ":" (Fixtures.toHex b) = [Fixtures.toHex b].
Proof.
  induction b as [|c b IH]; [done|].
  destruct (hex_byte c) as (_ & H1 & H2).
  cbn [Fixtures.toHex split]. by rewrite H1, H2, IH.
Qed.

Lemma reference_contract smtp : RuntimeContract (Fixtures.runtime smtp).
Proof.
  split; cbn.
  - apply ofHex_toHex.
  - apply split_toHex.
  - by intros [|c b].
  - apply string_of_list_ascii_of_string.
  - by intros [|c s].
  - intros key iv plaintext. unfold Fixtures.open, Fixtures.seal. cbn.
    rewrite bool_decide_eq_true_2 by done. by rewrite rev_involutive.
  - intros key iv plaintext. apply length_rev.
  - intros key iv plaintext. unfold Fixtures.tagOf.
    rewrite length_take, !length_app, length_replicate. lia.
Qed.

Lemma reference_cipher smtp : CipherContract (Fixtures.runtime smtp).
Proof.
  split; cbn.
  - intros key iv authTag ciphertext plaintext Hopen _.
    unfold Fixtures.open in Hopen. unfold Fixtures.seal.
    destruct (bool_decide (authTag = Fixtures.tagOf key iv ciphertext)) eqn:E;
      [|discriminate Hopen].
    apply bool_decide_eq_true in E. injection Hopen as <-.
    by rewrite rev_involutive, E.
  - intros key iv plaintext plaintext' H. unfold Fixtures.seal in H. cbn in H.
    rewrite <- (rev_involutive plaintext), <- (rev_involutive plaintext').
    by rewrite H.
Qed.

(** What [decrypt] accepts has passed the cipher: the plaintext it returns
    is the decoding of what [gcmOpen] gave for the decoded fields. *)
Lemma decrypt_opened rt key blob p saltB64 ivB64 authTagB64 data :
  ENCRYPTION_KEY rt = Some key ->
  decrypt rt blob = Ok p ->
  split ":" blob = [saltB64; ivB64; authTagB64; data] ->
  exists bytes,
    gcmOpen rt
      (scryptSync rt (fromHex rt key) (fromBase64 rt saltB64) KEY_LENGTH)
      (fromBase64 rt ivB64) (fromBase64 rt authTagB64) (fromBase64 rt data)
    = Some bytes
    /\ p = fromUtf8 rt bytes.
Proof.
  intros Hk Hd Hsplit. unfold decrypt, decryptBody, getEncryptionKey in Hd.
  rewrite Hk in Hd. destruct (_ || _); [discriminate Hd|].
  rewrite Hsplit in Hd. destruct (_ || _); [discriminate Hd|].
  destruct (gcmOpen rt _ _ _ _) as [bytes|]; [|discriminate Hd].
  injection Hd as <-. eauto.
Qed.

Lemma split_join4 sep s1 s2 s3 s4 :
  split sep s1 = [s1] -> split sep s2 = [s2] -> split sep s3 = [s3] ->
  split sep s4 = [s4] ->
  split sep (join (String sep "") [s1; s2; s3; s4]) = [s1; s2; s3; s4].
Proof.
  intros H1 H2 H3 H4. unfold join. cbn [String.concat].
  rewrite !one_char_app. by rewrite !split_app, H4.
Qed.

Lemma append_assoc (s1 s2 s3 : string) :
  (s1 +:+ s2) +:+ s3 = s1 +:+ (s2 +:+ s3).
Proof.
  induction s1 as [|c r IH]; [done|].
  change (String c r +:+ s2) with (String c (r +:+ s2)).
  change (String c (r +:+ s2) +:+ s3) with (String c ((r +:+ s2) +:+ s3)).
  by rewrite IH.
Qed.

Lemma split_snoc sep c s :
  Ascii.eqb c sep = false -> split sep s = [s] ->
  split sep (s ++ String c "") = [s ++ String c ""].
Proof.
  intros Hc. induction s as [|a r IH]; intros H.
  - change ("" +:+ String c "") with (String c ""). cbn. by rewrite Hc.
  - change (String a r +:+ String c "") with (String a (r +:+ String c "")).
    cbn in H |- *. destruct (Ascii.eqb a sep); [discriminate H|].
    destruct (split sep r) as [|h t] eqn:Er.
    { by destruct (split_nonempty sep r). }
    injection H as -> ->. by rewrite IH.
Qed.

(** Where the decoder passes over a trailing space, as
    Buffer.from(s, 'base64') does with whitespace, the blob of [encrypt]
    with a space appended is accepted: [decrypt] looks at the text of a
    field only to see that it is not empty. *)
Lemma trailing_space_accepted rt key iv salt x :
  RuntimeContract rt ->
  ENCRYPTION_KEY rt = Some key -> String.length key = 64%nat ->
  length iv = 16%nat -> length salt = 16%nat -> x <> "" ->
  (forall b, fromBase64 rt (toBase64 rt b ++ " ") = b) ->
  exists e,
    encrypt rt iv salt x = Ok e
    /\ decrypt rt (encrypted e ++ " ") = Ok x.
Proof.
  intros C Hk Hlen Hiv Hsalt Hx Hlenient.
  pose proof (getEncryptionKey_ok rt key Hk Hlen) as Hkey.
  unfold encrypt. rewrite Hkey.
  pose proof (gcm_roundtrip rt C (scryptSync rt (fromHex rt key) salt KEY_LENGTH)
                iv (toUtf8 rt x)) as Hopen.
  pose proof (gcm_tag_length rt C (scryptSync rt (fromHex rt key) salt KEY_LENGTH)
                iv (toUtf8 rt x)) as Htag.
  destruct (gcmSeal rt _ iv (toUtf8 rt x)) as [ct tag]. cbn in Hopen, Htag.
  eexists. split; [reflexivity|]. cbn [encrypted].
  assert (Hblob :
    join ":" [toBase64 rt salt; toBase64 rt iv; toBase64 rt tag;
              toBase64 rt ct] ++ " "
    = join ":" [toBase64 rt salt; toBase64 rt iv; toBase64 rt tag;
                toBase64 rt ct ++ " "]).
  { unfold join. cbn [String.concat]. by rewrite !append_assoc. }
  rewrite Hblob. unfold decrypt, decryptBody. rewrite Hkey.
  rewrite split_join4;
    [|apply (base64_alphabet rt C)..
     |apply split_snoc; [reflexivity|apply (base64_alphabet rt C)]].
  assert (Hne : forall b : Buffer, b <> [] -> truthy (toBase64 rt b) = true).
  { intros b Hb. apply truthy_nonempty. intros E.
    by apply (base64_nonempty rt C) in E. }
  assert (Hlast : truthy (toBase64 rt ct ++ " ") = true).
  { apply truthy_nonempty. by destruct (toBase64 rt ct). }
  rewrite !Hne, Hlast.
  - cbn [negb orb]. rewrite Hlenient, !(base64_roundtrip rt C), Hopen.
    by rewrite (utf8_roundtrip rt C).
  - intros ->. discriminate Htag.
  - intros ->. discriminate Hiv.
  - intros ->. discriminate Hsalt.
Qed.

(** The decoder of the reference runtime passes over a trailing space. *)
Lemma reference_decoder_lenient smtp b :
  fromBase64 (Fixtures.runtime smtp) (toBase64 (Fixtures.runtime smtp) b ++ " ")
  = b.
Proof.
  cbn [fromBase64 toBase64 Fixtures.runtime].
  induction b as [|a b IH]; [done|].
  cbn [Fixtures.toHex].
  change (String ?h (String ?l ?r) +:+ ?t) with (String h (String l (r +:+ t))).
  cbn [Fixtures.ofHex]. destruct (hex_byte a) as (-> & _ & _). by rewrite IH.
Qed.

End EncryptionRuns.

Section EncryptionClaims.
Import Encryption Effects.

(** C8, as the code has it.  With a valid ENCRYPTION_KEY and a runtime that
    meets the contracts of base64, UTF-8 and AES-256-GCM,
    decrypt(encrypt(x).encrypted) = x for every non-empty string x, whatever
    salt and nonce are drawn; the blob of [encrypt] with its tag field
    replaced by the encoding of any other tag of 16 bytes is refused; and a
    blob that [decrypt] accepts with a tag of 16 bytes carries the ciphertext
    and the tag that sealing the returned plaintext under the salt and the
    nonce of the blob computes.  For every runtime and every blob, [decrypt]
    either returns a plaintext or raises the one error 'Decryption failed':
    so it does for a blob that does not split into four parts at the colons,
    for a blob with an empty part, for a blob whose tag the cipher rejects,
    and when the key is missing or is not 64 characters long. *)
Theorem C8_roundtrip_and_generic_failure rt :
  RuntimeContract rt ->
  CipherContract rt ->
  (forall key iv salt x,
     ENCRYPTION_KEY rt = Some key -> String.length key = 64%nat ->
     length iv = 16%nat -> length salt = 16%nat -> x <> "" ->
     decryptAfterEncrypt rt iv salt x = Ok x)
  /\ (forall key iv salt x,
        ENCRYPTION_KEY rt = Some key -> String.length key = 64%nat ->
        exists e saltB64 ivB64 authTagB64 data,
          encrypt rt iv salt x = Ok e
          /\ split ":" (encrypted e) = [saltB64; ivB64; authTagB64; data]
          /\ forall forged,
               split ":" forged = [forged] ->
               length (fromBase64 rt forged) = 16%nat ->
               fromBase64 rt forged <> fromBase64 rt authTagB64 ->
               decrypt rt (join ":" [saltB64; ivB64; forged; data])
               = Throw (Error "Decryption failed"))
  /\ (forall key blob x saltB64 ivB64 authTagB64 data,
        ENCRYPTION_KEY rt = Some key ->
        decrypt rt blob = Ok x ->
        split ":" blob = [saltB64; ivB64; authTagB64; data] ->
        length (fromBase64 rt authTagB64) = 16%nat ->
        exists bytes,
          x = fromUtf8 rt bytes
          /\ gcmSeal rt
               (scryptSync rt (fromHex rt key) (fromBase64 rt saltB64) 32)
               (fromBase64 rt ivB64) bytes
             = (fromBase64 rt data, fromBase64 rt authTagB64))
  /\ (forall blob,
        (exists x, decrypt rt blob = Ok x)
        \/ decrypt rt blob = Throw (Error "Decryption failed"))
  /\ (forall blob,
        length (split ":" blob) <> 4%nat ->
        decrypt rt blob = Throw (Error "Decryption failed"))
  /\ (forall blob,
        In "" (split ":" blob) ->
        decrypt rt blob = Throw (Error "Decryption failed"))
  /\ (forall blob key saltB64 ivB64 authTagB64 data,
        ENCRYPTION_KEY rt = Some key ->
        split ":" blob = [saltB64; ivB64; authTagB64; data] ->
        gcmOpen rt
          (scryptSync rt (fromHex rt key) (fromBase64 rt saltB64) KEY_LENGTH)
          (fromBase64 rt ivB64) (fromBase64 rt authTagB64)
          (fromBase64 rt data) = None ->
        decrypt rt blob = Throw (Error "Decryption failed"))
  /\ (forall blob,
        (forall key, ENCRYPTION_KEY rt = Some key ->
                     String.length key <> 64%nat) ->
        decrypt rt blob = Throw (Error "Decryption failed")).
Proof.
  intros C G. split; [|split; [|split; [|split; [|split; [|split; [|split]]]]]].
  - intros key iv salt x Hk Hlen Hiv Hsalt Hx.
    destruct (roundtrip rt key iv salt x C Hk Hlen Hiv Hsalt Hx)
      as (e & He & Hd).
    unfold decryptAfterEncrypt. by rewrite He.
  - intros key iv salt x Hk Hlen.
    pose proof (getEncryptionKey_ok rt key Hk Hlen) as Hkey.
    unfold encrypt. rewrite Hkey.
    pose proof (gcm_roundtrip rt C
                  (scryptSync rt (fromHex rt key) salt KEY_LENGTH) iv
                  (toUtf8 rt x)) as Hopen.
    destruct (gcmSeal rt _ iv (toUtf8 rt x)) as [ct tag] eqn:Hseal.
    cbn [fst snd] in Hopen.
    do 5 eexists. split; [reflexivity|]. cbn [encrypted].
    split; [apply split_join4; apply (base64_alphabet rt C)|].
    intros forged Hcolon Hlen16 Hother.
    destruct (decrypt_generic rt
                (join ":" [toBase64 rt salt; toBase64 rt iv; forged;
                           toBase64 rt ct])) as [[p Hp]|Hfail]; [|exact Hfail].
    exfalso.
    destruct (decrypt_opened rt key _ p _ _ _ _ Hk Hp
                (split_join4 ":" _ _ _ _ (base64_alphabet rt C salt)
                   (base64_alphabet rt C iv) Hcolon
                   (base64_alphabet rt C ct))) as (bytes & Hopen' & _).
    rewrite !(base64_roundtrip rt C) in Hopen'.
    pose proof (gcm_authentic rt G _ _ _ _ _ Hopen' Hlen16) as Hgenuine.
    assert (bytes = toUtf8 rt x).
    { apply (gcm_injective rt G
               (scryptSync rt (fromHex rt key) salt KEY_LENGTH) iv).
      by rewrite Hgenuine, Hseal. }
    subst bytes. rewrite Hseal in Hgenuine. injection Hgenuine as Htag.
    apply Hother. by rewrite (base64_roundtrip rt C).
  - intros key blob x saltB64 ivB64 authTagB64 data Hk Hd Hsplit Hlen16.
    destruct (decrypt_opened rt key blob x _ _ _ _ Hk Hd Hsplit)
      as (bytes & Hopen & ->).
    exists bytes. split; [reflexivity|].
    exact (gcm_authentic rt G _ _ _ _ _ Hopen Hlen16).
  - apply decrypt_generic.
  - intros blob Hlen. unfold decrypt, decryptBody.
    destruct (getEncryptionKey rt) as [k|]; [|done].
    destruct (split ":" blob) as [|p1 [|p2 [|p3 [|p4 [|p5 l]]]]]; try done.
  - intros blob Hin. unfold decrypt, decryptBody.
    destruct (getEncryptionKey rt) as [k|]; [|done].
    destruct (split ":" blob) as [|p1 [|p2 [|p3 [|p4 [|p5 l]]]]]; try done.
    cbn in Hin.
    destruct Hin as [H|[H|[H|[H|[]]]]]; subst; cbn;
      rewrite ?orb_true_r; reflexivity.
  - intros blob key saltB64 ivB64 authTagB64 data Hk Hsplit Hopen.
    unfold decrypt, decryptBody, getEncryptionKey. rewrite Hk.
    destruct (_ || _); [done|]. rewrite Hsplit.
    destruct (_ || _); [done|]. by rewrite Hopen.
  - intros blob Hkey. unfold decrypt, decryptBody, getEncryptionKey.
    destruct (ENCRYPTION_KEY rt) as [key|] eqn:Hk; [|done].
    specialize (Hkey key eq_refl).
    assert (Hne : (Z.of_nat (String.length key) =? 64) = false).
    { apply Z.eqb_neq. lia. }
    rewrite Hne. by rewrite orb_true_r.
Qed.

(** Under the reference runtime a letter comes back from its ciphertext,
    its blob with the tag of another letter is refused, and a blob of three
    parts is refused with the generic error. *)
Lemma C8_witness :
  decryptAfterEncrypt (Fixtures.runtime Fixtures.accepting)
    (list_ascii_of_string "nonce-0123456789")
    (list_ascii_of_string "salt-0123456789a") "Farewell, Ann."
  = Ok "Farewell, Ann."
  /\ (exists e saltB64 ivB64 authTagB64 data,
        encrypt (Fixtures.runtime Fixtures.accepting)
          (list_ascii_of_string "nonce-0123456789")
          (list_ascii_of_string "salt-0123456789a") "Farewell, Ann." = Ok e
        /\ split ":" (encrypted e) = [saltB64; ivB64; authTagB64; data]
        /\ decrypt (Fixtures.runtime Fixtures.accepting)
             (join ":" [saltB64; ivB64;
                        "00112233445566778899aabbccddeeff"; data])
           = Throw (Error "Decryption failed"))
  /\ decrypt (Fixtures.runtime Fixtures.accepting) "c2FsdA==:aXY=:dGFn"
     = Throw (Error "Decryption failed").
Proof.
  destruct (C8_roundtrip_and_generic_failure
              (Fixtures.runtime Fixtures.accepting)
              (reference_contract Fixtures.accepting)
              (reference_cipher Fixtures.accepting))
    as (Hround & Hforged & _ & _ & Hparts & _).
  split; [|split].
  - apply (Hround Fixtures.key64); [reflexivity|reflexivity|reflexivity
                                   |reflexivity|discriminate].
  - destruct (Hforged Fixtures.key64
                (list_ascii_of_string "nonce-0123456789")
                (list_ascii_of_string "salt-0123456789a") "Farewell, Ann."
                eq_refl eq_refl)
      as (e & saltB64 & ivB64 & authTagB64 & data & He & Hsplit & Hrefused).
    exists e, saltB64, ivB64, authTagB64, data.
    split; [exact He|]. split; [exact Hsplit|].
    apply Hrefused; [reflexivity|reflexivity|].
    vm_compute in He. injection He as <-. vm_compute in Hsplit.
    injection Hsplit as <- <- <- <-. vm_compute. discriminate.
  - apply Hparts. vm_compute. discriminate.
Defined.

(** The claim as the specification words it fails in both halves.
    encrypt(decrypt(x)) = x fails: a string that is not a ciphertext is
    refused by [decrypt], so there is nothing to encrypt; and the ciphertext
    of a letter, decrypted and encrypted again with another salt and nonce,
    is another blob.  And not every blob that was tampered with is refused:
    the blob of a letter with one space appended is another blob, and
    [decrypt] returns the letter for it; the decoder of the reference
    runtime, like Buffer.from(s, 'base64'), passes over a trailing character
    that completes no byte, and [decrypt] checks of a field only that it is
    not empty. *)
Lemma C8_claim_fails_in_both_halves :
  (encryptAfterDecrypt (Fixtures.runtime Fixtures.accepting)
     (list_ascii_of_string "another-nonce-16")
     (list_ascii_of_string "another-salt-16b") "a plain note"
   = Throw (Error "Decryption failed")
   /\ exists blob,
        encryptAfterDecrypt (Fixtures.runtime Fixtures.accepting)
          (list_ascii_of_string "another-nonce-16")
          (list_ascii_of_string "another-salt-16b")
          (Fixtures.ciphertextOf "Farewell, Ann.") = Ok blob
        /\ blob <> Fixtures.ciphertextOf "Farewell, Ann.")
  /\ (Fixtures.ciphertextOf "Farewell, Ann." ++ " "
      <> Fixtures.ciphertextOf "Farewell, Ann."
      /\ decrypt (Fixtures.runtime Fixtures.accepting)
           (Fixtures.ciphertextOf "Farewell, Ann." ++ " ")
         = Ok "Farewell, Ann.").
Proof.
  split; [split|split].
  - vm_compute. reflexivity.
  - eexists. split; [vm_compute; reflexivity|]. vm_compute. discriminate.
  - intros H. apply (f_equal String.length) in H. vm_compute in H.
    discriminate H.
  - vm_compute. reflexivity.
Qed.

(** The ciphertext of the empty string has an empty fourth part, which
    [decrypt] refuses. *)
Example empty_plaintext_does_not_come_back :
  decryptAfterEncrypt (Fixtures.runtime Fixtures.accepting)
    (list_ascii_of_string "nonce-0123456789")
    (list_ascii_of_string "salt-0123456789a") ""
  = Throw (Error "Decryption failed").
Proof. vm_compute. reflexivity. Qed.

End EncryptionClaims.

(** * Further properties *)

(** ** The state machine *)

Section MoreStateMachine.
Import StateMachine Outcomes.

(** X1. A transition that succeeds writes the status and the timers of the
    target and nothing else: entering ACTIVE restarts the check-in clock and
    clears the grace and execution timers; entering GRACE_PERIOD or VERIFIED
    sets the one timer of that status and keeps the others; entering
    EXECUTED or CANCELED clears the three pending timers; entering OVERDUE,
    PENDING_VERIFICATION or PAUSED keeps every timer.  The configuration of
    the switch, the other switches and the other tables are left alone, and
    one audit entry with the two statuses is appended. *)
Theorem X1_transition_writes_status_and_timers now id target options w s :
  switches (prisma w) !! id = Some s ->
  isValidTransition (status s) target = true ->
  exists s' w',
    transitionSwitchState now id target options w
    = (Ok (mkResult true (status s) target None), w')
    /\ switches (prisma w') !! id = Some s'
    /\ status s' = target
    /\ sameConfiguration s s'
    /\ timersAfter now target s s'
    /\ (forall id', id' <> id ->
          switches (prisma w') !! id' = switches (prisma w) !! id')
    /\ verificationRequests (prisma w') = verificationRequests (prisma w)
    /\ sameOtherTables (prisma w) (prisma w')
    /\ auditLogs (prisma w')
       = (auditLogs (prisma w)
          ++ [transitionAudit id (status s) target options])%list
    /\ outbox w' = outbox w.
Proof.
  intros Hs Hv. rewrite (transition_valid _ _ _ _ _ _ Hs Hv).
  do 2 eexists. split; [reflexivity|]. cbn [prisma outbox].
  split; [apply lookup_insert_eq|].
  split; [apply status_transitionData|].
  split; [by destruct target|].
  split; [by destruct target|].
  split; [intros id' Hne; by apply lookup_insert_ne|].
  split; [reflexivity|]. split; [by repeat split|]. by split.
Qed.

Lemma X1_witness :
  exists s' w',
    transitionSwitchState 1000 "sw1" GRACE_PERIOD None
      (Fixtures.oneSwitch OVERDUE)
    = (Ok (mkResult true OVERDUE GRACE_PERIOD None), w')
    /\ switches (prisma w') !! "sw1" = Some s'
    /\ gracePeriodEndsAt s' = Some 259201000
    /\ nextCheckInDueAt s' = Some 604800000.
Proof.
  destruct (X1_transition_writes_status_and_timers 1000 "sw1" GRACE_PERIOD
              None (Fixtures.oneSwitch OVERDUE)
              (Fixtures.aSwitch "sw1" OVERDUE) eq_refl eq_refl)
    as (s' & w' & Hrun & Hs' & _ & _ & Ht & _).
  exists s', w'. split; [exact Hrun|]. split; [exact Hs'|].
  destruct Ht as (_ & Hdue & Hgrace & _). split; [exact Hgrace|exact Hdue].
Defined.

(** X2. A transition to the status the switch has already is refused as
    invalid and changes nothing; and a transition that succeeds into
    EXECUTED started in VERIFIED, into PENDING_VERIFICATION in GRACE_PERIOD,
    into OVERDUE in ACTIVE, into GRACE_PERIOD in OVERDUE. *)
Theorem X2_no_self_transition_and_single_entries now id target options w s :
  switches (prisma w) !! id = Some s ->
  (target = status s ->
   exists r,
     transitionSwitchState now id target options w = (Ok r, w)
     /\ Failure.invalidTransition r)
  /\ (forall r w',
        transitionSwitchState now id target options w = (Ok r, w') ->
        success r = true ->
        (target = EXECUTED -> status s = VERIFIED)
        /\ (target = PENDING_VERIFICATION -> status s = GRACE_PERIOD)
        /\ (target = OVERDUE -> status s = ACTIVE)
        /\ (target = GRACE_PERIOD -> status s = OVERDUE)).
Proof.
  intros Hs. split.
  - intros ->.
    assert (Hv : isValidTransition (status s) (status s) = false)
      by (by destruct (status s)).
    rewrite (transition_invalid _ _ _ _ _ _ Hs Hv).
    eexists. split; [reflexivity|]. by split.
  - intros r w' Hrun Hok.
    destruct (isValidTransition (status s) target) eqn:Hv.
    + repeat split; intros ->; destruct (status s);
        first [reflexivity|discriminate Hv].
    + rewrite (transition_invalid _ _ _ _ _ _ Hs Hv) in Hrun.
      injection Hrun as <- <-. discriminate Hok.
Qed.

Lemma X2_witness :
  exists r,
    transitionSwitchState 1000 "sw1" OVERDUE None (Fixtures.oneSwitch OVERDUE)
    = (Ok r, Fixtures.oneSwitch OVERDUE)
    /\ Failure.invalidTransition r.
Proof.
  destruct (X2_no_self_transition_and_single_entries 1000 "sw1" OVERDUE None
              (Fixtures.oneSwitch OVERDUE) (Fixtures.aSwitch "sw1" OVERDUE)
              eq_refl) as [Hself _].
  apply Hself. reflexivity.
Defined.

(** X3. Whatever [checkIn] answers, it leaves every other switch as it is,
    leaves every request that is completed or belongs to another switch as
    it is, and does not touch the tokens, votes, recipients, messages and
    deliveries; a successful check-in appends exactly one audit entry, a
    failed one none. *)
Theorem X3_checkIn_touches_one_switch_and_its_open_requests
    now id options w :
  exists r w',
    checkIn now id options w = (Ok r, w')
    /\ (forall id', id' <> id ->
          switches (prisma w') !! id' = switches (prisma w) !! id')
    /\ (forall rid req,
          verificationRequests (prisma w) !! rid = Some req ->
          vr_switchId req <> id \/ vr_completedAt req <> None ->
          verificationRequests (prisma w') !! rid = Some req)
    /\ sameOtherTables (prisma w) (prisma w')
    /\ outbox w' = outbox w
    /\ auditLogs (prisma w')
       = (auditLogs (prisma w)
          ++ (if success r then [checkInAudit id (previousStatus r) options]
              else []))%list.
Proof.
  destruct (switches (prisma w) !! id) as [s|] eqn:Hs.
  - destruct (includes validCheckInStates (status s)) eqn:Hv.
    + rewrite (checkIn_valid _ _ _ _ _ Hs Hv). do 2 eexists.
      split; [reflexivity|]. cbn [prisma outbox success previousStatus].
      split; [intros id' Hne; by apply lookup_insert_ne|].
      split.
      { intros rid req Hreq Hcase. cbn. rewrite lookup_fmap, Hreq. cbn.
        unfold isOpenFor. destruct Hcase as [Hsw|Hdone].
        - apply String.eqb_neq in Hsw. by rewrite Hsw.
        - rewrite (bool_decide_eq_false_2 _ Hdone), andb_false_r. done. }
      split; [by repeat split|]. by split.
    + rewrite (checkIn_invalid _ _ _ _ _ Hs Hv). do 2 eexists.
      split; [reflexivity|]. cbn [success].
      split; [done|]. split; [done|]. split; [by repeat split|].
      split; [done|]. by rewrite app_nil_r.
  - rewrite (checkIn_missing _ _ _ _ Hs). do 2 eexists.
    split; [reflexivity|]. cbn [success].
    split; [done|]. split; [done|]. split; [by repeat split|].
    split; [done|]. by rewrite app_nil_r.
Qed.

End MoreStateMachine.

(** ** The execution pass after a check-in *)

Section MoreExecution.
Import StateMachine Scheduler Outcomes.

Lemma filter_all_false {A} (P : A -> bool) l :
  (forall x, x ∈ l -> P x = false) -> List.filter P l = [].
Proof.
  induction l as [|a l IH]; intros H; cbn; [done|].
  rewrite (H a) by apply list_elem_of_here.
  apply IH. intros x Hx. apply H. by apply list_elem_of_further.
Qed.

Lemma isReady_due now s : isReady now s = true <-> due now s.
Proof.
  unfold isReady, due, lt. rewrite andb_true_iff, bool_decide_eq_true.
  destruct (scheduledExecutionAt s) as [t|].
  - rewrite Z.ltb_lt. split.
    + intros [H1 H2]. eauto.
    + intros [H1 (t' & Ht' & H2)]. injection Ht' as <-. done.
  - split; [intros [_ H]; discriminate H|intros [_ (t & H & _)]; discriminate H].
Qed.

Lemma executeVerifiedSwitches_idle rt now w :
  (forall k s, switches (prisma w) !! k = Some s -> ~ due now s) ->
  executeVerifiedSwitches rt now w = (Ok (mkExecutionReport 0 0 []), w).
Proof.
  intros H. unfold executeVerifiedSwitches.
  rewrite filter_all_false; [reflexivity|].
  intros s Hs. apply (elem_of_allRows switchT) in Hs as [k Hk].
  destruct (isReady now s) eqn:E; [|done].
  apply isReady_due in E. by destruct (H k s Hk).
Qed.

(** X4. The execution pass runs on the switches that are VERIFIED with an
    execution time that has passed, and on no other: the pass never raises,
    the number of switches it reports as processed is the number of stored
    switches with status VERIFIED and scheduledExecutionAt < now, and over a
    store without such a switch it sends nothing and changes nothing; in
    particular, after a successful check-in on a switch (be it VERIFIED and
    due) a pass at any time does nothing, when no other switch is due. *)
Theorem X4_pass_runs_only_when_verified_and_due rt now w :
  exists r w',
    executeVerifiedSwitches rt now w = (Ok r, w')
    /\ processed r
       = Z.of_nat (length (filter (due now) (rowsOf (switches (prisma w)))))
    /\ ((forall k s, switches (prisma w) !! k = Some s -> ~ due now s) ->
        r = mkExecutionReport 0 0 [] /\ w' = w)
    /\ (forall now0 id options r0 w0,
          checkIn now0 id options w0 = (Ok r0, w) ->
          success r0 = true ->
          (forall k s, k <> id -> switches (prisma w0) !! k = Some s ->
                       ~ due now s) ->
          r = mkExecutionReport 0 0 [] /\ w' = w).
Proof.
  destruct (executeVerifiedSwitches rt now w) as [r w'] eqn:Hrun.
  assert (Hok : exists r1, r = Ok r1
                /\ processed r1
                   = Z.of_nat (length (List.filter (isReady now)
                                         (Prisma.allRows switchT (prisma w))))).
  { unfold executeVerifiedSwitches in Hrun.
    destruct (executeLoop rt now _ 0 [] w) as [[ex er] w1].
    injection Hrun as <- <-. eexists. split; [reflexivity|].
    cbn [processed]. by rewrite length_map. }
  destruct Hok as (r1 & -> & Hcount). exists r1, w'. split; [reflexivity|].
  assert (Hidle : (forall k s, switches (prisma w) !! k = Some s ->
                               ~ due now s) ->
                  r1 = mkExecutionReport 0 0 [] /\ w' = w).
  { intros Hno. rewrite (executeVerifiedSwitches_idle rt now w Hno) in Hrun.
    by injection Hrun as <- <-. }
  split; [|split; [exact Hidle|]].
  - rewrite Hcount. f_equal.
    apply (length_filter_decide (isReady now) (due now)), isReady_due.
  - intros now0 id options r0 w0 Hci Hsucc Hothers. apply Hidle.
    intros k s' Hk.
    destruct (switches (prisma w0) !! id) as [s|] eqn:Hs.
    + destruct (includes validCheckInStates (status s)) eqn:Hv.
      * rewrite (checkIn_valid _ _ _ _ _ Hs Hv) in Hci.
        injection Hci as <- <-. cbn in Hk.
        destruct (decide (id = k)) as [->|Hne].
        -- rewrite lookup_insert_eq in Hk. injection Hk as <-.
           intros [Hst _]. discriminate Hst.
        -- rewrite lookup_insert_ne in Hk by done. eapply Hothers; eauto.
      * rewrite (checkIn_invalid _ _ _ _ _ Hs Hv) in Hci.
        injection Hci as <- <-. discriminate Hsucc.
    + rewrite (checkIn_missing _ _ _ _ Hs) in Hci.
      injection Hci as <- <-. discriminate Hsucc.
Qed.

(** The due switch of the one-recipient store is processed by the pass at
    time 2000; once it has checked in at time 1000, the pass leaves the
    letter unsent. *)
Lemma X4_witness :
  (exists r w',
     executeVerifiedSwitches (Fixtures.runtime Fixtures.accepting) 2000
       (Fixtures.worldOf Fixtures.oneRecipientDb) = (Ok r, w')
     /\ processed r = 1)
  /\ (exists r0 w0,
        checkIn 1000 "sw1" None (Fixtures.worldOf Fixtures.oneRecipientDb)
        = (Ok r0, w0)
        /\ executeVerifiedSwitches (Fixtures.runtime Fixtures.accepting) 2000
             w0
           = (Ok (mkExecutionReport 0 0 []), w0)).
Proof.
  split.
  - destruct (X4_pass_runs_only_when_verified_and_due
                (Fixtures.runtime Fixtures.accepting) 2000
                (Fixtures.worldOf Fixtures.oneRecipientDb))
      as (r & w' & Hrun & Hcount & _).
    exists r, w'. split; [exact Hrun|]. rewrite Hcount. vm_compute.
    reflexivity.
  - destruct (checkIn 1000 "sw1" None
                (Fixtures.worldOf Fixtures.oneRecipientDb))
      as [[r0|e] w0] eqn:Hci; [|vm_compute in Hci; discriminate Hci].
    exists r0, w0. split; [reflexivity|].
    destruct (X4_pass_runs_only_when_verified_and_due
                (Fixtures.runtime Fixtures.accepting) 2000 w0)
      as (r & w' & Hrun & _ & _ & Hafter).
    destruct (Hafter 1000 "sw1" None r0
                (Fixtures.worldOf Fixtures.oneRecipientDb) Hci)
      as [-> ->].
    + vm_compute in Hci. by injection Hci as <- _.
    + intros k s Hne Hk. cbn in Hk.
      apply lookup_singleton_Some in Hk as [<- _]. done.
    + exact Hrun.
Defined.

End MoreExecution.

(** ** Check-in tokens *)

Section MoreCheckInTokens.
Import Scheduler Integrity Outcomes CheckInTokens.

Lemma find_unique_column {R} (T : Table R) d (col : R -> string) v k r :
  uniqueColumn col (rows T d) ->
  rows T d !! k = Some r -> col r = v ->
  List.find (fun x => String.eqb (col x) v) (Prisma.allRows T d) = Some r.
Proof.
  intros Hu Hk Hv.
  destruct (find_allRows_found T d (fun x => String.eqb (col x) v) k r Hk)
    as [r' Hfind]; [by apply String.eqb_eq|].
  rewrite Hfind. f_equal.
  apply (find_allRows_Some T) in Hfind as [[k' Hk'] Hcol].
  apply String.eqb_eq in Hcol.
  assert (k' = k) by (eapply Hu; eauto; congruence). subst k'. congruence.
Qed.

Lemma uniqueColumn_replace {R} (col : R -> string) (t : gmap string R) k r r' :
  uniqueColumn col t -> t !! k = Some r -> col r' = col r ->
  uniqueColumn col (<[k := r']> t).
Proof.
  intros Hu Hk Hcol k1 k2 r1 r2 H1 H2 Heq.
  destruct (decide (k = k1)) as [<-|Hn1], (decide (k = k2)) as [<-|Hn2];
    [done| | |].
  - rewrite lookup_insert_eq in H1. injection H1 as <-.
    rewrite lookup_insert_ne in H2 by done.
    eapply Hu; eauto. congruence.
  - rewrite lookup_insert_eq in H2. injection H2 as <-.
    rewrite lookup_insert_ne in H1 by done.
    eapply Hu; eauto. congruence.
  - rewrite lookup_insert_ne in H1, H2 by done. eapply Hu; eauto.
Qed.

(** X5. The first use of a valid check-in token stamps its usedAt with the
    time of the use and touches nothing else: the other check-in tokens, the
    eight other tables and the outbox are as before; a second use, while the
    token has not expired, returns the same switch and leaves the stamp of
    the first use. *)
Theorem X5_first_use_stamps_the_token now now2 token w k t :
  keyed ct_id (checkInTokens (prisma w)) ->
  uniqueColumn ct_token (checkInTokens (prisma w)) ->
  checkInTokens (prisma w) !! k = Some t ->
  ct_token t = token ->
  ct_usedAt t = None ->
  ~ ct_expiresAt t < now ->
  ~ ct_expiresAt t < now2 ->
  exists w',
    verifyAndUseCheckInToken now token w = (Ok (Some (ct_switchId t)), w')
    /\ checkInTokens (prisma w')
       = <[k := usedToken now t]> (checkInTokens (prisma w))
    /\ switches (prisma w') = switches (prisma w)
    /\ verificationRequests (prisma w') = verificationRequests (prisma w)
    /\ verificationTokens (prisma w') = verificationTokens (prisma w)
    /\ verificationVoteRecords (prisma w')
       = verificationVoteRecords (prisma w)
    /\ recipients (prisma w') = recipients (prisma w)
    /\ messages (prisma w') = messages (prisma w)
    /\ emailDeliveries (prisma w') = emailDeliveries (prisma w)
    /\ auditLogs (prisma w') = auditLogs (prisma w)
    /\ outbox w' = outbox w
    /\ verifyAndUseCheckInToken now2 token w'
       = (Ok (Some (ct_switchId t)), w').
Proof.
  intros Hkey Hu Hk Htok Hunused Hexp Hexp2.
  pose proof (Hkey k t Hk) as Hid. cbn in Hid.
  pose proof (find_unique_column checkInTokenT (prisma w) ct_token token k t
                Hu Hk Htok) as Hfind.
  unfold verifyAndUseCheckInToken at 1. unfold_async.
  rewrite Hfind.
  assert (Hltb : (ct_expiresAt t <? now) = false) by (apply Z.ltb_ge; lia).
  rewrite Hltb, Hunused.
  rewrite (bool_decide_eq_false_2 (is_Some None)) by (by intros [? ?]).
  cbn [rows checkInTokenT]. rewrite Hid, Hk. cbn [prisma].
  eexists. split; [reflexivity|].
  cbn [prisma outbox setRows checkInTokenT checkInTokens].
  do 10 (split; [reflexivity|]).
  match goal with |- verifyAndUseCheckInToken _ _ ?w1 = _ => set (w1' := w1) end.
  assert (Hk' : checkInTokens (prisma w1') !! k = Some (usedToken now t)).
  { subst w1'. cbn. apply lookup_insert_eq. }
  assert (Hu' : uniqueColumn ct_token (checkInTokens (prisma w1'))).
  { subst w1'. cbn. by eapply uniqueColumn_replace. }
  pose proof (find_unique_column checkInTokenT (prisma w1') ct_token token k
                (usedToken now t) Hu' Hk' Htok) as Hfind'.
  unfold verifyAndUseCheckInToken. unfold_async. rewrite Hfind'.
  cbn [usedToken ct_expiresAt ct_usedAt ct_switchId].
  assert (Hltb2 : (ct_expiresAt t <? now2) = false) by (apply Z.ltb_ge; lia).
  rewrite Hltb2.
  rewrite (bool_decide_eq_true_2 (is_Some (Some now))) by (by eexists).
  reflexivity.
Qed.

Lemma X5_witness :
  exists w',
    verifyAndUseCheckInToken 200 "tok-abc"
      (Fixtures.worldOf (Fixtures.checkInTokenDb None)) = (Ok (Some "sw1"), w')
    /\ checkInTokens (prisma w') !! "ct1"
       = Some (Fixtures.aCheckInToken (Some 200))
    /\ verifyAndUseCheckInToken 300 "tok-abc" w' = (Ok (Some "sw1"), w').
Proof.
  destruct (X5_first_use_stamps_the_token 200 300 "tok-abc"
              (Fixtures.worldOf (Fixtures.checkInTokenDb None)) "ct1"
              (Fixtures.aCheckInToken None)
              (fixture_token_keyed None) (fixture_token_unique None))
    as (w' & Hrun & Htab & _ & _ & _ & _ & _ & _ & _ & _ & _ & Hagain);
    [reflexivity|reflexivity|reflexivity|cbn; lia|cbn; lia|].
  exists w'. split; [exact Hrun|]. split; [|exact Hagain].
  rewrite Htab. apply lookup_insert_eq.
Defined.

(** X6. A check-in token minted for a switch opens the check-in of that
    switch for seven days and not after: a token whose text is not in the
    table yet is stored under an id no token had, for the switch, with
    expiresAt = now + 7 days and usedAt = null, and nothing else is written;
    [verifyAndUseCheckInToken] returns the switch up to now + 7 days and null
    afterwards; a text that is in the table already is refused by the unique
    column and nothing is stored. *)
Theorem X6_minted_token_is_valid_for_seven_days rt bytes now switchId w :
  let token := Tokens.generateUrlSafeToken rt bytes in
  ((forall k t, checkInTokens (prisma w) !! k = Some t -> ct_token t <> token) ->
   exists id w1,
     createCheckInToken rt bytes now switchId w = (Ok token, w1)
     /\ checkInTokens (prisma w) !! id = None
     /\ checkInTokens (prisma w1)
        = <[id := mkCheckInToken id switchId token (now + 604800000) None]>
            (checkInTokens (prisma w))
     /\ switches (prisma w1) = switches (prisma w)
     /\ verificationRequests (prisma w1) = verificationRequests (prisma w)
     /\ verificationTokens (prisma w1) = verificationTokens (prisma w)
     /\ verificationVoteRecords (prisma w1)
        = verificationVoteRecords (prisma w)
     /\ recipients (prisma w1) = recipients (prisma w)
     /\ messages (prisma w1) = messages (prisma w)
     /\ emailDeliveries (prisma w1) = emailDeliveries (prisma w)
     /\ auditLogs (prisma w1) = auditLogs (prisma w)
     /\ outbox w1 = outbox w
     /\ (forall now', now' <= now + 604800000 ->
           exists w2,
             verifyAndUseCheckInToken now' token w1 = (Ok (Some switchId), w2))
     /\ (forall now', now + 604800000 < now' ->
           verifyAndUseCheckInToken now' token w1 = (Ok None, w1)))
  /\ ((exists k t, checkInTokens (prisma w) !! k = Some t /\ ct_token t = token) ->
      createCheckInToken rt bytes now switchId w
      = (Throw (Error "Unique constraint failed"), w)).
Proof.
  intros token. split.
  - intros Hfresh.
    set (id := fresh (dom (checkInTokens (prisma w)))).
    set (row := mkCheckInToken id switchId token
                  (now + 7 * 24 * 60 * 60 * 1000) None).
    assert (Hex : existsb (sameToken row)
                    (Prisma.allRows checkInTokenT (prisma w)) = false).
    { apply find_none_existsb.
      destruct (List.find _ _) as [t|] eqn:E; [|done].
      apply (find_allRows_Some checkInTokenT) in E as [[k Hk] HP].
      unfold sameToken in HP. apply String.eqb_eq in HP.
      by destruct (Hfresh k t Hk). }
    assert (Hid : checkInTokens (prisma w) !! id = None)
      by apply not_elem_of_dom, is_fresh.
    unfold createCheckInToken. unfold_async. cbn [rows checkInTokenT].
    fold token. fold id. fold row. rewrite Hex.
    exists id. eexists. split; [reflexivity|].
    split; [exact Hid|]. do 10 (split; [reflexivity|]).
    match goal with |- context [verifyAndUseCheckInToken _ _ ?w1] =>
      set (w1' := w1) end.
    assert (Hfind : List.find (fun t => String.eqb (ct_token t) token)
                      (Prisma.allRows checkInTokenT (prisma w1')) = Some row).
    { destruct (find_allRows_found checkInTokenT (prisma w1')
                  (fun t => String.eqb (ct_token t) token) id row)
        as [r' Hf].
      { subst w1'. cbn. apply lookup_insert_eq. }
      { cbn. apply String.eqb_refl. }
      rewrite Hf. f_equal.
      apply (find_allRows_Some checkInTokenT) in Hf as [[k' Hk'] HP].
      apply String.eqb_eq in HP. subst w1'. cbn in Hk'.
      destruct (decide (id = k')) as [<-|Hne].
      - rewrite lookup_insert_eq in Hk'. congruence.
      - rewrite lookup_insert_ne in Hk' by done. by destruct (Hfresh k' r' Hk'). }
    split.
    + intros now' Hle. unfold verifyAndUseCheckInToken. unfold_async.
      rewrite Hfind. cbn [row ct_expiresAt ct_usedAt ct_id ct_switchId].
      assert (Hltb : (now + 7 * 24 * 60 * 60 * 1000 <? now') = false)
        by (apply Z.ltb_ge; lia).
      rewrite Hltb.
      rewrite (bool_decide_eq_false_2 (is_Some None)) by (by intros [? ?]).
      subst w1'. cbn [rows checkInTokenT prisma setRows checkInTokens].
      rewrite lookup_insert_eq. eexists. reflexivity.
    + intros now' Hlt. unfold verifyAndUseCheckInToken. unfold_async.
      rewrite Hfind. cbn [row ct_expiresAt].
      assert (Hltb : (now + 7 * 24 * 60 * 60 * 1000 <? now') = true)
        by (apply Z.ltb_lt; lia).
      by rewrite Hltb.
  - intros (k & t & Hk & Ht).
    unfold createCheckInToken. unfold_async. cbn [rows checkInTokenT].
    fold token.
    match goal with |- context [existsb ?P ?l] =>
      assert (Hex : existsb P l = true) end.
    { apply existsb_exists. exists t. split.
      - apply list_elem_of_In, (elem_of_allRows checkInTokenT). eauto.
      - unfold sameToken. cbn. by apply String.eqb_eq. }
    rewrite Hex. reflexivity.
Qed.

Lemma X6_witness :
  exists w1 w2,
    createCheckInToken (Fixtures.runtime Fixtures.accepting)
      (list_ascii_of_string "sixteen random b") 1000 "sw1"
      (Fixtures.worldOf Fixtures.emptyDb)
    = (Ok (Tokens.generateUrlSafeToken (Fixtures.runtime Fixtures.accepting)
             (list_ascii_of_string "sixteen random b")), w1)
    /\ verifyAndUseCheckInToken 5000
         (Tokens.generateUrlSafeToken (Fixtures.runtime Fixtures.accepting)
            (list_ascii_of_string "sixteen random b")) w1
       = (Ok (Some "sw1"), w2).
Proof.
  destruct (X6_minted_token_is_valid_for_seven_days
              (Fixtures.runtime Fixtures.accepting)
              (list_ascii_of_string "sixteen random b") 1000 "sw1"
              (Fixtures.worldOf Fixtures.emptyDb)) as [Hmint _].
  destruct Hmint
    as (id & w1 & Hrun & _ & _ & _ & _ & _ & _ & _ & _ & _ & _ & _ & Hvalid & _).
  { intros k t Hk. cbn in Hk. by rewrite lookup_empty in Hk. }
  destruct (Hvalid 5000) as [w2 Hv]; [lia|].
  exists w1, w2. split; [exact Hrun|exact Hv].
Defined.

End MoreCheckInTokens.

(** ** Tokens and one-time codes *)

Section MoreTokens.
Import Tokens Outcomes Encryption.

Lemma chars_removeAll c s x :
  In x (chars (removeAll c s)) -> In x (chars s) /\ x <> c.
Proof.
  induction s as [|y r IH]; cbn; [done|].
  destruct (Ascii.eqb y c) eqn:E.
  - intros H. destruct (IH H). auto.
  - cbn. intros [<-|H].
    + split; [by left|]. intros ->. by rewrite Ascii.eqb_refl in E.
    + destruct (IH H). auto.
Qed.

Lemma chars_replaceAll c d s x :
  In x (chars (replaceAll c d s)) ->
  (In x (chars s) /\ x <> c) \/ x = d.
Proof.
  induction s as [|y r IH]; cbn; [done|].
  intros [H|H].
  - destruct (Ascii.eqb y c) eqn:E; [by right|].
    left. split; [by left|]. subst x. intros ->.
    by rewrite Ascii.eqb_refl in E.
  - destruct (IH H) as [[? ?]|?]; auto.
Qed.

Lemma length_removeAll c s :
  (String.length (removeAll c s) <= String.length s)%nat.
Proof.
  induction s as [|y r IH]; cbn; [lia|].
  destruct (Ascii.eqb y c); cbn; lia.
Qed.

Lemma length_replaceAll c d s :
  String.length (replaceAll c d s) = String.length s.
Proof. induction s as [|y r IH]; cbn; congruence. Qed.

(** X7. A token of [generateUrlSafeToken] holds none of the characters '+',
    '/' and '=', whatever the base64 text of the random bytes is, and it is
    not longer than that text. *)
Theorem X7_token_is_url_safe rt bytes :
  forallb urlSafe (chars (generateUrlSafeToken rt bytes)) = true
  /\ (String.length (generateUrlSafeToken rt bytes)
      <= String.length (toBase64 rt bytes))%nat.
Proof.
  split.
  - apply forallb_forall. intros x Hx. unfold generateUrlSafeToken in Hx.
    apply chars_removeAll in Hx as [Hx Heq].
    assert (Hplus : x <> "+"%char /\ x <> "/"%char) .
    { apply chars_replaceAll in Hx as [[Hx Hslash]| ->].
      - apply chars_replaceAll in Hx as [[_ Hplus]| ->]; [done|].
        split; discriminate.
      - split; discriminate. }
    destruct Hplus as [Hp Hs]. unfold urlSafe.
    apply Ascii.eqb_neq in Hp, Hs, Heq. by rewrite Hp, Hs, Heq.
  - unfold generateUrlSafeToken.
    etransitivity; [apply length_removeAll|].
    by rewrite !length_replaceAll.
Qed.

Lemma isDigit_pretty_N_char d : isDigit (pretty_N_char d) = true.
Proof. unfold pretty_N_char. repeat case_match; reflexivity. Qed.

Lemma pretty_N_go_digits n : forall x s,
  (x < 10 ^ N.of_nat n)%N ->
  forallb isDigit (chars s) = true ->
  (String.length (pretty_N_go x s) <= n + String.length s)%nat
  /\ forallb isDigit (chars (pretty_N_go x s)) = true.
Proof.
  induction n as [|n IH]; intros x s Hx Hs.
  - assert (x = 0%N) as -> by (cbn in Hx; lia).
    rewrite pretty_N_go_0. split; [lia|done].
  - destruct (decide (x = 0%N)) as [->|Hne].
    { rewrite pretty_N_go_0. split; [lia|done]. }
    rewrite pretty_N_go_step by lia.
    destruct (IH (x `div` 10)%N (String (pretty_N_char (x `mod` 10)) s))
      as [Hlen Hdig].
    + apply N.Div0.div_lt_upper_bound.
      replace (N.of_nat (S n)) with (N.succ (N.of_nat n)) in Hx by lia.
      by rewrite N.pow_succ_r' in Hx.
    + cbn. by rewrite isDigit_pretty_N_char.
    + split; [|done]. cbn [String.length] in Hlen. lia.
Qed.

Lemma length_app_string (s1 s2 : string) :
  String.length (s1 +:+ s2) = (String.length s1 + String.length s2)%nat.
Proof.
  induction s1 as [|c r IH]; [done|].
  change (String c r +:+ s2) with (String c (r +:+ s2)). cbn. by rewrite IH.
Qed.

Lemma chars_app_string (s1 s2 : string) :
  chars (s1 +:+ s2) = (chars s1 ++ chars s2)%list.
Proof.
  induction s1 as [|c r IH]; [done|].
  change (String c r +:+ s2) with (String c (r +:+ s2)).
  unfold chars in *. cbn. by rewrite IH.
Qed.

Lemma chars_replicate n c :
  chars (string_of_list_ascii (replicate n c)) = replicate n c.
Proof. unfold chars. apply list_ascii_of_string_of_list_ascii. Qed.

Lemma length_replicate_string n c :
  String.length (string_of_list_ascii (replicate n c)) = n.
Proof. induction n as [|n IH]; cbn; congruence. Qed.

(** X8. A one-time code of [generateOtp] is six decimal digits, whatever
    the 32-bit random value is: the value modulo 1,000,000 in decimal, padded
    with zeros on the left. *)
Theorem X8_otp_is_six_digits randomValue :
  String.length (generateOtp randomValue) = 6%nat
  /\ forallb isDigit (chars (generateOtp randomValue)) = true.
Proof.
  unfold generateOtp, padStart.
  set (x := (randomValue `mod` 1000000)%N).
  assert (Hx : (x < 10 ^ N.of_nat 6)%N).
  { subst x. change (10 ^ N.of_nat 6)%N with 1000000%N.
    apply N.mod_lt. lia. }
  assert (Hp : (String.length (pretty x) <= 6)%nat
               /\ forallb isDigit (chars (pretty x)) = true).
  { unfold pretty, pretty_N. destruct (decide (x = 0%N)); [split; [cbn; lia|done]|].
    destruct (pretty_N_go_digits 6 x "" Hx eq_refl) as [Hl Hd].
    split; [cbn [String.length] in Hl; lia|exact Hd]. }
  destruct Hp as [Hlen Hdig]. split.
  - rewrite length_app_string, length_replicate_string. lia.
  - rewrite chars_app_string, chars_replicate, forallb_app, Hdig, andb_true_r.
    apply forallb_forall. intros c Hc.
    apply list_elem_of_In, elem_of_replicate in Hc as [-> _]. reflexivity.
Qed.

(** X9. [encrypt] refuses to run without a key of 64 characters, with the
    error that names the key; with such a key, and base64 that has no colon,
    the text it returns has four colon-separated fields, the base64 of the
    salt, of the nonce, of the authentication tag and of the ciphertext, and
    the [iv] it returns beside it is the second field. *)
Theorem X9_encrypt_needs_the_key_and_lays_out_four_fields rt iv salt plaintext :
  ((forall key, ENCRYPTION_KEY rt = Some key -> String.length key <> 64%nat) ->
   encrypt rt iv salt plaintext
   = Throw (Error "ENCRYPTION_KEY must be 64 hex characters"))
  /\ (forall key,
        RuntimeContract rt ->
        ENCRYPTION_KEY rt = Some key -> String.length key = 64%nat ->
        let sealed :=
          gcmSeal rt (scryptSync rt (fromHex rt key) salt 32) iv
            (toUtf8 rt plaintext) in
        exists e,
          encrypt rt iv salt plaintext = Ok e
          /\ split ":" (encrypted e)
             = [toBase64 rt salt; toBase64 rt iv; toBase64 rt sealed.2;
                toBase64 rt sealed.1]
          /\ Encryption.iv e = toBase64 rt iv).
Proof.
  split.
  - intros Hbad. unfold encrypt, getEncryptionKey.
    destruct (ENCRYPTION_KEY rt) as [key|] eqn:Hk; [|reflexivity].
    specialize (Hbad key eq_refl).
    assert (Hne : (Z.of_nat (String.length key) =? 64) = false)
      by (apply Z.eqb_neq; lia).
    by rewrite Hne, orb_true_r.
  - intros key C Hk Hlen sealed. subst sealed.
    unfold encrypt. rewrite (getEncryptionKey_ok rt key Hk Hlen).
    change KEY_LENGTH with 32.
    destruct (gcmSeal rt _ iv (toUtf8 rt plaintext)) as [ct tag].
    eexists. split; [reflexivity|]. split; [|reflexivity].
    cbn [encrypted fst snd]. unfold join. cbn [String.concat].
    rewrite !one_char_app.
    rewrite !split_app by apply (base64_alphabet rt C).
    by rewrite (base64_alphabet rt C).
Qed.

Lemma X9_witness :
  exists e,
    encrypt (Fixtures.runtime Fixtures.accepting)
      (list_ascii_of_string "0123456789abcdef")
      (list_ascii_of_string "fedcba9876543210") "farewell" = Ok e
    /\ nth 1 (split ":" (encrypted e)) "" = Encryption.iv e.
Proof.
  destruct (X9_encrypt_needs_the_key_and_lays_out_four_fields
              (Fixtures.runtime Fixtures.accepting)
              (list_ascii_of_string "0123456789abcdef")
              (list_ascii_of_string "fedcba9876543210")
              "farewell") as [_ Hok].
  destruct (Hok Fixtures.key64 (reference_contract Fixtures.accepting)
              eq_refl eq_refl) as (e & Hrun & Hsplit & Hiv).
  exists e. split; [exact Hrun|]. rewrite Hsplit, Hiv. reflexivity.
Defined.

End MoreTokens.

(** ** Delivery of one final message *)

Section MoreDelivery.
Import EmailService Effects Outcomes.

Lemma filter_nil_find {A} (P : A -> bool) l :
  List.filter P l = [] -> List.find P l = None.
Proof.
  induction l as [|a l IH]; cbn; [done|].
  destruct (P a); [discriminate|exact IH].
Qed.

Lemma sentCount_0_find d m :
  sentCount d m = 0%nat ->
  List.find (isSentFor m) (Prisma.allRows emailDeliveryT d) = None.
Proof.
  unfold sentCount. intros H. apply length_zero_iff_nil in H.
  by apply filter_nil_find.
Qed.

(** X10. A final message that has no SENT delivery yet and whose transport
    accepts the mail: the mail goes to the recipient's address with the
    decrypted text as its text part (and 'A Final Note for You' as subject
    when the message has none or an empty one), one delivery row is added, SENT with the
    provider's message id and both time stamps at [now], one MESSAGE_SENT
    entry is added to the audit log, and the call reports success with the
    id of that row. *)
Theorem X10_accepted_mail_is_recorded_as_sent
    rt now m options w msg r content providerId :
  let mail :=
    mkSendEmailInput (rc_email r) (orNull (rc_name r))
      (default "A Final Note for You" (orNull (msg_subject msg)))
      (wrapInEmailTemplate rt content (rc_name r)) (Some content) in
  let k := fresh (dom (emailDeliveries (prisma w))) in
  sentCount (prisma w) m = 0%nat ->
  messages (prisma w) !! m = Some msg ->
  recipients (prisma w) !! msg_recipientId msg = Some r ->
  Encryption.decrypt rt (msg_encryptedContent msg) = Ok content ->
  sendMail rt (outbox w) mail = Ok providerId ->
  exists w' entry,
    sendFinalMessage rt now m options w
    = (Ok (mkFinalMessageResult true k), w')
    /\ outbox w' = (outbox w ++ [mail])%list
    /\ emailDeliveries (prisma w')
       = <[k := mkEmailDelivery k m "nodemailer" SENT (Some providerId)
                  (Some now) (Some now) None None 0]>
           (emailDeliveries (prisma w))
    /\ auditLogs (prisma w') = (auditLogs (prisma w) ++ [entry])%list
    /\ action entry = AUDIT_ACTIONS.MESSAGE_SENT
    /\ entityId entry = k
    /\ sentCount (prisma w') m = 1%nat
    /\ messages (prisma w') = messages (prisma w)
    /\ switches (prisma w') = switches (prisma w).
Proof.
  intros mail k Hnone Hmsg Hrc Hdec Hsend.
  pose proof (sentCount_0_find _ _ Hnone) as Hfind.
  unfold sendFinalMessage. unfold_async. rewrite Hfind.
  cbn [rows messageT recipientT]. rewrite Hmsg, Hrc, Hdec.
  rewrite existsb_noConstraint. unfold sendEmail.
  cbn [rows emailDeliveryT prisma outbox setRows ed_id orNull].
  fold k. fold mail. rewrite Hsend.
  cbn [se_success se_messageId prisma outbox emailDeliveries rows emailDeliveryT
       setRows].
  rewrite lookup_insert_eq.
  cbn [prisma outbox emailDeliveries rows emailDeliveryT setRows setAuditLogs
       auditLogs markSent ed_id ed_messageId ed_provider ed_failedAt
       ed_errorMessage ed_retryCount].
  rewrite insert_insert_eq.
  eexists _, _. split; [reflexivity|].
  cbn [prisma outbox emailDeliveries auditLogs messages switches].
  repeat split.
  erewrite sentCount_insert;
    [|apply (fresh_delivery_key (prisma w))|reflexivity].
  unfold isSentFor at 1. cbn [ed_messageId ed_status].
  rewrite String.eqb_refl, (bool_decide_eq_true_2 (SENT = SENT) eq_refl).
  unfold sentCount, Prisma.allRows in Hnone.
  change (rows emailDeliveryT (prisma w)) with (emailDeliveries (prisma w))
    in Hnone.
  cbn [andb]. rewrite Hnone. reflexivity.
Qed.

Lemma X10_witness :
  exists w',
    sendFinalMessage (Fixtures.runtime Fixtures.accepting) 1000 "m1" None
      (Fixtures.worldOf Fixtures.oneRecipientDb)
    = (Ok (mkFinalMessageResult true
             (fresh (dom (emailDeliveries Fixtures.oneRecipientDb)))), w')
    /\ sentCount (prisma w') "m1" = 1%nat.
Proof.
  destruct (X10_accepted_mail_is_recorded_as_sent
              (Fixtures.runtime Fixtures.accepting) 1000 "m1" None
              (Fixtures.worldOf Fixtures.oneRecipientDb)
              (mkMessage "m1" "sw1" "r1"
                 (Fixtures.ciphertextOf "Farewell, Ann.") "" None)
              (mkRecipient "r1" "sw1" "ann@example.org" (Some "Ann"))
              "Farewell, Ann." "<id@smtp>")
    as (w' & entry & Hrun & _ & _ & _ & _ & _ & Hcount & _);
    [reflexivity|reflexivity|reflexivity|vm_compute; reflexivity|reflexivity|].
  exists w'. split; [exact Hrun|exact Hcount].
Defined.

(** X11. The same call when the transport refuses the mail (it raises, a
    missing SMTP account included): no exception reaches the caller, the call
    reports failure, and the delivery row it added is FAILED with the error
    text, failedAt at [now] and a retry count of one; nothing is written to
    the audit log and the message still has no SENT delivery, so a later call
    tries again. *)
Theorem X11_refused_mail_is_recorded_as_failed
    rt now m options w msg r content err :
  let mail :=
    mkSendEmailInput (rc_email r) (orNull (rc_name r))
      (default "A Final Note for You" (orNull (msg_subject msg)))
      (wrapInEmailTemplate rt content (rc_name r)) (Some content) in
  let k := fresh (dom (emailDeliveries (prisma w))) in
  sentCount (prisma w) m = 0%nat ->
  messages (prisma w) !! m = Some msg ->
  recipients (prisma w) !! msg_recipientId msg = Some r ->
  Encryption.decrypt rt (msg_encryptedContent msg) = Ok content ->
  sendMail rt (outbox w) mail = Throw (Error err) ->
  exists w',
    sendFinalMessage rt now m options w
    = (Ok (mkFinalMessageResult false k), w')
    /\ outbox w' = (outbox w ++ [mail])%list
    /\ emailDeliveries (prisma w')
       = <[k := mkEmailDelivery k m "nodemailer" FAILED None
                  (Some now) None (Some now) (Some err) 1]>
           (emailDeliveries (prisma w))
    /\ auditLogs (prisma w') = auditLogs (prisma w)
    /\ sentCount (prisma w') m = 0%nat.
Proof.
  intros mail k Hnone Hmsg Hrc Hdec Hsend.
  pose proof (sentCount_0_find _ _ Hnone) as Hfind.
  unfold sendFinalMessage. unfold_async. rewrite Hfind.
  cbn [rows messageT recipientT]. rewrite Hmsg, Hrc, Hdec.
  rewrite existsb_noConstraint. unfold sendEmail.
  cbn [rows emailDeliveryT prisma outbox setRows ed_id orNull].
  fold k. fold mail. rewrite Hsend.
  cbn [se_success se_error prisma outbox emailDeliveries rows emailDeliveryT
       setRows].
  rewrite lookup_insert_eq.
  cbn [prisma outbox emailDeliveries rows emailDeliveryT setRows
       markFailed ed_id ed_messageId ed_provider ed_providerMessageId ed_sentAt
       ed_retryCount].
  rewrite insert_insert_eq.
  eexists. split; [reflexivity|].
  cbn [prisma outbox emailDeliveries auditLogs].
  repeat split.
  erewrite sentCount_insert;
    [|apply (fresh_delivery_key (prisma w))|reflexivity].
  unfold isSentFor at 1. cbn [ed_messageId ed_status].
  rewrite (bool_decide_eq_false_2 (FAILED = SENT)) by discriminate.
  rewrite andb_false_r.
  unfold sentCount, Prisma.allRows in Hnone.
  change (rows emailDeliveryT (prisma w)) with (emailDeliveries (prisma w))
    in Hnone.
  rewrite Hnone. reflexivity.
Qed.

Lemma X11_witness :
  exists w',
    sendFinalMessage (Fixtures.runtime Fixtures.refusing) 1000 "m1" None
      (Fixtures.worldOf Fixtures.oneRecipientDb)
    = (Ok (mkFinalMessageResult false
             (fresh (dom (emailDeliveries Fixtures.oneRecipientDb)))), w')
    /\ sentCount (prisma w') "m1" = 0%nat.
Proof.
  destruct (X11_refused_mail_is_recorded_as_failed
              (Fixtures.runtime Fixtures.refusing) 1000 "m1" None
              (Fixtures.worldOf Fixtures.oneRecipientDb)
              (mkMessage "m1" "sw1" "r1"
                 (Fixtures.ciphertextOf "Farewell, Ann.") "" None)
              (mkRecipient "r1" "sw1" "ann@example.org" (Some "Ann"))
              "Farewell, Ann." "connect ECONNREFUSED")
    as (w' & Hrun & _ & _ & _ & Hcount);
    [reflexivity|reflexivity|reflexivity|vm_compute; reflexivity|reflexivity|].
  exists w'. split; [exact Hrun|exact Hcount].
Defined.

(** X12. What [sendFinalMessage] raises, it raises before it writes: for a
    message without a SENT delivery, a missing message row gives 'Message not
    found' and a stored text that does not decrypt gives 'Decryption failed',
    and in both cases no delivery row is created, no mail is handed to the
    transport and the store is as before. *)
Theorem X12_send_raises_before_any_write rt now m options w :
  sentCount (prisma w) m = 0%nat ->
  (messages (prisma w) !! m = None ->
   sendFinalMessage rt now m options w
   = (Throw (Error "Message not found"), w))
  /\ (forall msg r,
        messages (prisma w) !! m = Some msg ->
        recipients (prisma w) !! msg_recipientId msg = Some r ->
        (forall content,
           Encryption.decrypt rt (msg_encryptedContent msg) <> Ok content) ->
        sendFinalMessage rt now m options w
        = (Throw (Error "Decryption failed"), w)).
Proof.
  intros Hnone. pose proof (sentCount_0_find _ _ Hnone) as Hfind. split.
  - intros Hmsg. unfold sendFinalMessage. unfold_async. rewrite Hfind.
    cbn [rows messageT]. by rewrite Hmsg.
  - intros msg r Hmsg Hrc Hdec. unfold sendFinalMessage. unfold_async.
    rewrite Hfind. cbn [rows messageT recipientT]. rewrite Hmsg, Hrc.
    destruct (decrypt_generic rt (msg_encryptedContent msg)) as [[x Hx]| ->].
    + by destruct (Hdec x).
    + reflexivity.
Qed.

Lemma X12_witness :
  sendFinalMessage (Fixtures.runtime Fixtures.accepting) 1000 "m7" None
    (Fixtures.worldOf Fixtures.oneRecipientDb)
  = (Throw (Error "Message not found"),
     Fixtures.worldOf Fixtures.oneRecipientDb).
Proof.
  apply (X12_send_raises_before_any_write
           (Fixtures.runtime Fixtures.accepting) 1000 "m7" None
           (Fixtures.worldOf Fixtures.oneRecipientDb)); reflexivity.
Defined.

End MoreDelivery.

(** ** Votes that are refused *)

Section Frames.
Import Outcomes.

Lemma readOnly_ret {A} (a : A) : readOnly (mret a).
Proof. by intros w. Qed.

Lemma readOnly_throw {A} e : readOnly (@throw A e).
Proof. by intros w. Qed.

Lemma readOnly_bind {A B} (m : Async A) (k : A -> Async B) :
  readOnly m -> (forall a, readOnly (k a)) -> readOnly (m ≫= k).
Proof.
  intros Hm Hk w. unfold mbind, Async_bind, bind.
  specialize (Hm w). destruct (m w) as [[a|e] w1]; cbn in Hm; subst w1.
  - apply Hk.
  - reflexivity.
Qed.

Lemma readOnly_findUnique {R} (T : Table R) id :
  readOnly (Prisma.findUnique T id).
Proof. by intros w. Qed.

Lemma readOnly_findFirst {R} (T : Table R) P :
  readOnly (Prisma.findFirst T P).
Proof. by intros w. Qed.

Lemma storeOnly_ret {A} (a : A) : storeOnly (mret a).
Proof. by intros w. Qed.

Lemma storeOnly_throw {A} e : storeOnly (@throw A e).
Proof. by intros w. Qed.

Lemma storeOnly_bind {A B} (m : Async A) (k : A -> Async B) :
  storeOnly m -> (forall a, storeOnly (k a)) -> storeOnly (m ≫= k).
Proof.
  intros Hm Hk w. unfold mbind, Async_bind, bind.
  specialize (Hm w). destruct (m w) as [[a|e] w1]; cbn in Hm |- *.
  - by rewrite Hk.
  - exact Hm.
Qed.

Lemma storeOnly_update {R} (T : Table R) id f :
  storeOnly (Prisma.update T id f).
Proof. intros w. unfold Prisma.update. by destruct (rows T (prisma w) !! id). Qed.

Lemma storeOnly_create {R} (T : Table R) u f :
  storeOnly (Prisma.create T u f).
Proof. intros w. unfold Prisma.create. by destruct (existsb _ _). Qed.

Lemma storeOnly_count {R} (T : Table R) P : storeOnly (Prisma.count T P).
Proof. by intros w. Qed.

Lemma storeOnly_audit entry : storeOnly (Prisma.auditLog_create entry).
Proof. by intros w. Qed.

Lemma failsClean_ret {A} (a : A) : failsClean (mret a).
Proof. intros w e w' H. discriminate H. Qed.

Lemma failsClean_throw {A} e : failsClean (@throw A e).
Proof. intros w e' w' H. by injection H as _ <-. Qed.

Lemma failsClean_bind {A B} (m : Async A) (k : A -> Async B) :
  readOnly m -> (forall a, failsClean (k a)) -> failsClean (m ≫= k).
Proof.
  intros Hm Hk w e w'. unfold mbind, Async_bind, bind.
  specialize (Hm w). destruct (m w) as [[a|e1] w1]; cbn in Hm; subst w1.
  - apply Hk.
  - intros H. by injection H as _ <-.
Qed.

Lemma failsClean_transaction {A} (m : Async A) :
  storeOnly m -> failsClean (transaction m).
Proof.
  intros Hm w e w'. unfold transaction. specialize (Hm w).
  destruct (m w) as [[a|e1] w1]; cbn in Hm; [discriminate|].
  intros H. injection H as _ <-. rewrite Hm. by destruct w.
Qed.

End Frames.

Ltac frame_step :=
  first
    [ apply readOnly_ret | apply readOnly_throw
    | apply readOnly_findUnique | apply readOnly_findFirst
    | apply readOnly_bind; [|intros ?]
    | apply storeOnly_ret | apply storeOnly_throw
    | apply storeOnly_update | apply storeOnly_create
    | apply storeOnly_count | apply storeOnly_audit
    | apply storeOnly_bind; [|intros ?]
    | apply failsClean_ret | apply failsClean_throw
    | apply failsClean_transaction
    | apply failsClean_bind; [|intros ?]
    | match goal with
      | |- _ (match ?x with _ => _ end) => destruct x
      end ].

Section RefusedVotes.
Import EmailService VerificationQueries Integrity Effects Outcomes.

Lemma readOnly_findToken token : readOnly (findToken token).
Proof. unfold findToken. repeat frame_step. Qed.

Lemma submit_failsClean now input options :
  failsClean (VerificationSystem.submitVerificationVote now input options).
Proof.
  unfold VerificationSystem.submitVerificationVote.
  apply failsClean_bind; [apply readOnly_findToken|intros found].
  repeat frame_step.
Qed.

Lemma legacy_submit_failsClean now input options :
  failsClean (LegacyVerificationSystem.submitVerificationVote now input options).
Proof.
  unfold LegacyVerificationSystem.submitVerificationVote.
  apply failsClean_bind; [apply readOnly_findToken|intros found].
  repeat frame_step.
Qed.

(** X13. A vote that [submitVerificationVote] refuses leaves no trace: in
    both versions of the function, whenever the call raises (unknown, expired
    or used token, completed request, second vote of the verifier, or a write
    of the transaction that fails), store and outbox are exactly as before
    the call. *)
Theorem X13_refused_vote_leaves_no_trace now input options w e w' :
  VerificationSystem.submitVerificationVote now input options w = (Throw e, w')
  \/ LegacyVerificationSystem.submitVerificationVote now input options w
     = (Throw e, w') ->
  w' = w.
Proof.
  intros [H|H].
  - exact (submit_failsClean now input options w e w' H).
  - exact (legacy_submit_failsClean now input options w e w' H).
Qed.

Lemma X13_witness :
  VerificationSystem.submitVerificationVote 1000
    (mkSubmitVoteInput "tok-v2" CONFIRM) None
    (Fixtures.worldOf Fixtures.votingDb)
  = (Throw (Error "This token has already been used"),
     Fixtures.worldOf Fixtures.votingDb).
Proof.
  destruct (VerificationSystem.submitVerificationVote 1000
              (mkSubmitVoteInput "tok-v2" CONFIRM) None
              (Fixtures.worldOf Fixtures.votingDb)) as [[r|e] w'] eqn:E.
  - vm_compute in E. discriminate E.
  - rewrite (X13_refused_vote_leaves_no_trace 1000
               (mkSubmitVoteInput "tok-v2" CONFIRM) None
               (Fixtures.worldOf Fixtures.votingDb) e w' (or_introl E)).
    f_equal. vm_compute in E. congruence.
Defined.

Lemma findToken_resolves w token tk req sw :
  resolves (prisma w) token tk req sw ->
  findToken token w = (Ok (Some (mkTokenWithRequest tk req sw)), w).
Proof.
  intros [Hu Ht Hv Hr Hs].
  unfold findToken. unfold_async. cbn [rows verificationTokenT].
  destruct (find_allRows_found verificationTokenT (prisma w)
              (fun t => String.eqb (vt_token t) token) _ _ Ht) as [tk' Hfind].
  { cbn. by apply String.eqb_eq. }
  rewrite Hfind.
  apply (find_allRows_Some verificationTokenT) in Hfind as [[k' Hk'] Htok].
  cbn in Hk'. apply String.eqb_eq in Htok.
  assert (k' = vt_id tk) by (eapply Hu; eauto; congruence). subst k'.
  assert (tk' = tk) by congruence. subst tk'.
  cbn [rows verificationRequestT switchT]. by rewrite Hr, Hs.
Qed.

Lemma findToken_unknown w token :
  (forall k t, verificationTokens (prisma w) !! k = Some t ->
               vt_token t <> token) ->
  findToken token w = (Ok None, w).
Proof.
  intros Hno. unfold findToken. unfold_async.
  destruct (List.find _ _) as [t|] eqn:E; [|reflexivity].
  apply (find_allRows_Some verificationTokenT) in E as [[k Hk] HP].
  apply String.eqb_eq in HP. by destruct (Hno k t Hk).
Qed.

Lemma votable_resolves now d token tk req sw :
  votable now d token tk req sw -> resolves d token tk req sw.
Proof.
  intros [Hu Ht Hval Hr Hrel Hs _ _ _ _]. split; try done. by rewrite Hrel.
Qed.

Lemma used_token_refused submit now input options w tk req sw :
  isSubmit submit ->
  resolves (prisma w) (in_token input) tk req sw ->
  ~ vt_expiresAt tk < now -> is_Some (vt_usedAt tk) ->
  submit now input options w
  = (Throw (Error "This token has already been used"), w).
Proof.
  intros Hsub Hres Hlink Hused.
  pose proof (findToken_resolves _ _ _ _ _ Hres) as Hfind.
  assert (Hltb : (vt_expiresAt tk <? now) = false) by (apply Z.ltb_ge; lia).
  destruct Hsub as [-> | ->];
    [unfold VerificationSystem.submitVerificationVote
    |unfold LegacyVerificationSystem.submitVerificationVote];
    unfold mbind at 1; unfold Async_bind, bind; rewrite Hfind, Hltb;
    by rewrite (bool_decide_eq_true_2 _ Hused).
Qed.

(** X14. The order in which [submitVerificationVote] refuses a vote, in
    both versions: a link that is not in the table is an 'Invalid
    verification token'; for a link that is, an expired link is reported as
    expired even when it was used, then a used link as used even when its
    request is completed, then a completed request, then a vote the verifier
    has cast on the request through another link. Each refusal leaves the
    world as it was. *)
Theorem X14_votes_are_refused_in_order submit now input options w :
  isSubmit submit ->
  ((forall k t, verificationTokens (prisma w) !! k = Some t ->
                vt_token t <> in_token input) ->
   submit now input options w
   = (Throw (Error "Invalid verification token"), w))
  /\ (forall tk req sw,
        resolves (prisma w) (in_token input) tk req sw ->
        (vt_expiresAt tk < now ->
         submit now input options w
         = (Throw (Error "Verification token has expired"), w))
        /\ (~ vt_expiresAt tk < now -> is_Some (vt_usedAt tk) ->
            submit now input options w
            = (Throw (Error "This token has already been used"), w))
        /\ (~ vt_expiresAt tk < now -> vt_usedAt tk = None ->
            is_Some (vr_completedAt req) ->
            submit now input options w
            = (Throw (Error "This verification request has already been completed"), w))
        /\ (~ vt_expiresAt tk < now -> vt_usedAt tk = None ->
            vr_completedAt req = None ->
            (exists k v,
               verificationVoteRecords (prisma w) !! k = Some v
               /\ vv_verificationRequestId v = vr_id req
               /\ vv_verifierId v = vt_verifierId tk) ->
            submit now input options w
            = (Throw (Error "You have already submitted a vote for this verification"), w))).
Proof.
  intros Hsub. split.
  - intros Hno. pose proof (findToken_unknown _ _ Hno) as Hfind.
    destruct Hsub as [-> | ->];
      [unfold VerificationSystem.submitVerificationVote
      |unfold LegacyVerificationSystem.submitVerificationVote];
      unfold mbind at 1; unfold Async_bind, bind; by rewrite Hfind.
  - intros tk req sw Hres.
    pose proof (findToken_resolves _ _ _ _ _ Hres) as Hfind.
    split; [|split; [|split]].
    + intros Hexp.
      assert (Hltb : (vt_expiresAt tk <? now) = true) by (apply Z.ltb_lt; lia).
      destruct Hsub as [-> | ->];
        [unfold VerificationSystem.submitVerificationVote
        |unfold LegacyVerificationSystem.submitVerificationVote];
        unfold mbind at 1; unfold Async_bind, bind; by rewrite Hfind, Hltb.
    + intros Hlink Hused. by eapply used_token_refused.
    + intros Hlink Hunused Hdone.
      assert (Hltb : (vt_expiresAt tk <? now) = false) by (apply Z.ltb_ge; lia).
      destruct Hsub as [-> | ->];
        [unfold VerificationSystem.submitVerificationVote
        |unfold LegacyVerificationSystem.submitVerificationVote];
        unfold mbind at 1; unfold Async_bind, bind;
        rewrite Hfind, Hltb, Hunused;
        rewrite (bool_decide_eq_false_2 (is_Some None)) by (by intros [? ?]);
        by rewrite (bool_decide_eq_true_2 _ Hdone).
    + intros Hlink Hunused Hopen (k & v & Hk & Hreq & Hver).
      assert (Hltb : (vt_expiresAt tk <? now) = false) by (apply Z.ltb_ge; lia).
      destruct (find_allRows_found verificationVoteRecordT (prisma w)
                  (isVoteOf (vr_id req) (vt_verifierId tk)) k v Hk)
        as [v' Hv'].
      { unfold isVoteOf. by rewrite Hreq, Hver, !String.eqb_refl. }
      destruct Hsub as [-> | ->];
        [unfold VerificationSystem.submitVerificationVote
        |unfold LegacyVerificationSystem.submitVerificationVote];
        unfold mbind at 1; unfold Async_bind, bind;
        rewrite Hfind, Hltb, Hunused, Hopen;
        rewrite (bool_decide_eq_false_2 (is_Some None)) by (by intros [? ?]);
        unfold_async; by rewrite Hv'.
Qed.

Lemma X14_witness :
  VerificationSystem.submitVerificationVote 3000000
    (mkSubmitVoteInput "tok-v1" DENY) None (Fixtures.worldOf Fixtures.votingDb)
  = (Throw (Error "Verification token has expired"),
     Fixtures.worldOf Fixtures.votingDb).
Proof.
  destruct (X14_votes_are_refused_in_order
              VerificationSystem.submitVerificationVote 3000000
              (mkSubmitVoteInput "tok-v1" DENY) None
              (Fixtures.worldOf Fixtures.votingDb) (or_introl eq_refl))
    as [_ H].
  destruct (H (Fixtures.aToken "tv1" "v1" "tok-v1" "hash-of-123456")
              (Fixtures.aRequest "vr1" "sw1" 2000000)
              (Fixtures.aSwitch "sw1" PENDING_VERIFICATION)
              (votable_resolves _ _ _ _ _ _ votingDb_votable)) as [Hexp _].
  apply Hexp. cbn. lia.
Defined.

(** X15. A link carries one vote: after a vote through it was accepted,
    whatever the vote and whatever it did to the request, every later vote
    through the same link, while the link has not expired, is refused with
    'This token has already been used' and changes nothing. In both versions
    of [submitVerificationVote]. *)
Theorem X15_a_link_carries_one_vote
    submit now w token tk req sw options v :
  isSubmit submit ->
  votable now (prisma w) token tk req sw ->
  exists r w1,
    submit now (mkSubmitVoteInput token v) options w = (Ok r, w1)
    /\ forall now2 v2 options2,
         ~ vt_expiresAt tk < now2 ->
         submit now2 (mkSubmitVoteInput token v2) options2 w1
         = (Throw (Error "This token has already been used"), w1).
Proof.
  intros Hsub Hv.
  assert (Hafter : forall w1,
            verificationTokens (prisma w1)
            = <[vt_id tk := markUsed now tk]> (verificationTokens (prisma w)) ->
            (exists req1,
               verificationRequests (prisma w1) !! vr_id req = Some req1
               /\ vr_switchId req1 = vr_switchId req) ->
            is_Some (switches (prisma w1) !! vr_switchId req) ->
            forall now2 v2 options2,
              ~ vt_expiresAt tk < now2 ->
              submit now2 (mkSubmitVoteInput token v2) options2 w1
              = (Throw (Error "This token has already been used"), w1)).
  { intros w1 Htok (req1 & Hreq1 & Hsw1) [sw1 Hs1] now2 v2 options2 Hlink.
    destruct Hv as [Hu Ht Hval Hr Hrel Hs _ _ _ _].
    apply (used_token_refused submit now2 (mkSubmitVoteInput token v2)
             options2 w1 (markUsed now tk) req1 sw1 Hsub);
      [|exact Hlink|by eexists].
    split; cbn [in_token vt_id vt_token vt_verificationRequestId markUsed].
    - rewrite Htok. by eapply uniqueColumn_replace.
    - rewrite Htok. apply lookup_insert_eq.
    - exact Hval.
    - by rewrite Hrel.
    - by rewrite Hsw1. }
  pose proof Hv as [_ _ _ Hr _ Hs _ _ _ _].
  destruct Hsub as [-> | ->], v.
  - rewrite (confirm_run _ _ _ _ _ _ _ Hv).
    destruct (_ >=? _); eexists _, _; (split; [reflexivity|]); apply Hafter;
      cbn; rewrite ?lookup_insert_eq; eauto.
  - rewrite (deny_run _ _ _ _ _ _ _ Hv).
    eexists _, _. split; [reflexivity|]. apply Hafter;
      cbn; rewrite ?lookup_insert_eq; eauto.
  - rewrite (legacy_confirm_run _ _ _ _ _ _ _ Hv),
      (confirm_run _ _ _ _ _ _ _ Hv).
    destruct (_ >=? _); eexists _, _; (split; [reflexivity|]); apply Hafter;
      cbn; rewrite ?lookup_insert_eq; eauto.
  - rewrite (legacy_deny_run _ _ _ _ _ _ _ Hv).
    eexists _, _. split; [reflexivity|]. apply Hafter;
      cbn; rewrite ?lookup_insert_eq; eauto.
Qed.

Lemma X15_witness :
  exists r w1,
    VerificationSystem.submitVerificationVote 1000
      (mkSubmitVoteInput "tok-v1" CONFIRM) None
      (Fixtures.worldOf Fixtures.votingDb) = (Ok r, w1)
    /\ VerificationSystem.submitVerificationVote 1500
         (mkSubmitVoteInput "tok-v1" DENY) None w1
       = (Throw (Error "This token has already been used"), w1).
Proof.
  destruct (X15_a_link_carries_one_vote
              VerificationSystem.submitVerificationVote 1000
              (Fixtures.worldOf Fixtures.votingDb) "tok-v1"
              (Fixtures.aToken "tv1" "v1" "tok-v1" "hash-of-123456")
              (Fixtures.aRequest "vr1" "sw1" 2000000)
              (Fixtures.aSwitch "sw1" PENDING_VERIFICATION) None CONFIRM
              (or_introl eq_refl) votingDb_votable) as (r & w1 & Hrun & Hnext).
  exists r, w1. split; [exact Hrun|]. apply Hnext. cbn. lia.
Defined.

End RefusedVotes.

(** ** Votes with a one-time code *)

Section CodeVotes.
Import EmailService VerificationQueries Integrity Effects Outcomes.
Import VerificationSystem.

(** X16. A vote with a one-time code that is not accepted changes nothing
    but the audit log: whenever [verifyOtpAndVote] answers with success =
    false, the result is pending with an error text, switches, requests,
    tokens, votes and outbox are as before, and the audit log got at most one
    entry, a VERIFICATION_OTP_FAILED one. *)
Theorem X16_refused_code_vote_only_writes_the_audit_log
    rt now token otp vote options w r w' :
  verifyOtpAndVote rt now token otp vote options w = (Ok r, w') ->
  success r = false ->
  result r = pending /\ is_Some (error r)
  /\ switches (prisma w') = switches (prisma w)
  /\ verificationRequests (prisma w') = verificationRequests (prisma w)
  /\ verificationTokens (prisma w') = verificationTokens (prisma w)
  /\ verificationVoteRecords (prisma w') = verificationVoteRecords (prisma w)
  /\ outbox w' = outbox w
  /\ exists entries,
       auditLogs (prisma w') = (auditLogs (prisma w) ++ entries)%list
       /\ (length entries <= 1)%nat
       /\ Forall (fun a => action a = AUDIT_ACTIONS.VERIFICATION_OTP_FAILED)
            entries.
Proof.
  intros Hrun Hfail. unfold verifyOtpAndVote in Hrun.
  unfold mbind at 1 in Hrun. unfold Async_bind at 1, bind at 1 in Hrun.
  pose proof (readOnly_findToken token w) as Hro.
  destruct (findToken token w) as [[found|e] w0]; cbn in Hro; subst w0;
    [|discriminate Hrun].
  assert (Hquiet : forall entityId reason (res : OtpVoteResult),
            (otpFailed entityId reason options;; mret res) w = (Ok r, w') ->
            switches (prisma w') = switches (prisma w)
            /\ verificationRequests (prisma w') = verificationRequests (prisma w)
            /\ verificationTokens (prisma w') = verificationTokens (prisma w)
            /\ verificationVoteRecords (prisma w')
               = verificationVoteRecords (prisma w)
            /\ outbox w' = outbox w
            /\ (exists entries,
                  auditLogs (prisma w') = (auditLogs (prisma w) ++ entries)%list
                  /\ (length entries <= 1)%nat
                  /\ Forall (fun a => action a
                                      = AUDIT_ACTIONS.VERIFICATION_OTP_FAILED)
                       entries)
            /\ r = res).
  { intros entityId reason res H. unfold otpFailed in H. unfold_async.
    injection H as <- <-. cbn. repeat split.
    eexists [_]. split; [reflexivity|]. split; [cbn; lia|].
    by constructor. }
  assert (Hsilent : forall res : OtpVoteResult,
            (mret res : Async OtpVoteResult) w = (Ok r, w') ->
            w' = w /\ r = res).
  { intros res H. by injection H as <- <-. }
  assert (Hnothing : exists entries,
            auditLogs (prisma w) = (auditLogs (prisma w) ++ entries)%list
            /\ (length entries <= 1)%nat
            /\ Forall (fun a => action a
                                = AUDIT_ACTIONS.VERIFICATION_OTP_FAILED)
                 entries).
  { exists []. rewrite app_nil_r. split; [done|]. split; [cbn; lia|constructor]. }
  destruct found as [[tk req sw]|].
  2:{ apply Hquiet in Hrun as (?&?&?&?&?&?&->). cbn. by repeat (split; eauto). }
  destruct (vt_expiresAt tk <? now).
  { apply Hquiet in Hrun as (?&?&?&?&?&?&->). cbn. by repeat (split; eauto). }
  destruct (bool_decide (is_Some (vt_usedAt tk))).
  { apply Hsilent in Hrun as [-> ->]. cbn. by repeat (split; eauto). }
  destruct (Scheduler.lt (vt_otpExpiresAt tk) now).
  { apply Hquiet in Hrun as (?&?&?&?&?&?&->). cbn. by repeat (split; eauto). }
  destruct (match vt_otp tk with Some _ => _ | None => _ end).
  { apply Hquiet in Hrun as (?&?&?&?&?&?&->). cbn. by repeat (split; eauto). }
  destruct (bool_decide (is_Some (vr_completedAt req))).
  { apply Hsilent in Hrun as [-> ->]. cbn. by repeat (split; eauto). }
  unfold mbind at 1 in Hrun. unfold Async_bind at 1, bind at 1 in Hrun.
  unfold Prisma.findFirst at 1 in Hrun.
  destruct (List.find _ _).
  { apply Hsilent in Hrun as [-> ->]. cbn. by repeat (split; eauto). }
  exfalso. unfold_async. unfold Prisma.auditLog_create in Hrun.
  match type of Hrun with
  | context [submitVerificationVote ?a ?b ?c ?d] =>
      destruct (submitVerificationVote a b c d) as [[voteResult|e] w2]
  end; [|discriminate Hrun].
  injection Hrun as <- <-. discriminate Hfail.
Qed.

Lemma X16_witness :
  exists r w',
    verifyOtpAndVote (Fixtures.runtime Fixtures.accepting) 1000 "tok-v1"
      "000000" CONFIRM None (Fixtures.worldOf Fixtures.votingDb) = (Ok r, w')
    /\ error r = Some "Invalid verification code"
    /\ verificationVoteRecords (prisma w')
       = verificationVoteRecords Fixtures.votingDb.
Proof.
  destruct (verifyOtpAndVote (Fixtures.runtime Fixtures.accepting) 1000
              "tok-v1" "000000" CONFIRM None
              (Fixtures.worldOf Fixtures.votingDb)) as [[r|e] w'] eqn:E.
  - exists r, w'. split; [reflexivity|].
    assert (Hr : r = mkOtpVoteResult false pending
                       (Some "Invalid verification code"))
      by (vm_compute in E; congruence).
    destruct (X16_refused_code_vote_only_writes_the_audit_log
                (Fixtures.runtime Fixtures.accepting) 1000 "tok-v1" "000000"
                CONFIRM None (Fixtures.worldOf Fixtures.votingDb) r w' E)
      as (_ & _ & _ & _ & _ & Hvotes & _).
    + by rewrite Hr.
    + split; [by rewrite Hr|exact Hvotes].
  - vm_compute in E. discriminate E.
Defined.

Lemma linkDb_votable otp :
  votable 1000 (Links.linkDb otp) "tok-v1" (Links.aLink otp)
    (Fixtures.aRequest "vr1" "sw1" 2000000)
    (Fixtures.aSwitch "sw1" PENDING_VERIFICATION).
Proof.
  split; try reflexivity.
  - intros k1 k2 r1 r2 H1 H2 _. cbn in H1, H2.
    apply lookup_singleton_Some in H1 as [<- _].
    by apply lookup_singleton_Some in H2 as [<- _].
  - cbn. lia.
  - intros k v H. cbn in H. by rewrite lookup_empty in H.
Qed.

Lemma votable_audit now d token tk req sw entries :
  votable now d token tk req sw ->
  votable now (setAuditLogs entries d) token tk req sw.
Proof. intros [? ? ? ? ? ? ? ? ? ?]. by split. Qed.

(** The run of a vote through an acceptable link, in the version with
    one-time codes: the vote that is stored and what becomes of the token,
    the request and the answer. *)
Lemma vote_run_new now w token tk req sw options v :
  votable now (prisma w) token tk req sw ->
  exists res w',
    VerificationSystem.submitVerificationVote now (mkSubmitVoteInput token v)
      options w
    = (Ok (newVote now tk req v options (prisma w), res), w')
    /\ verificationVoteRecords (prisma w')
       = <[vv_id (newVote now tk req v options (prisma w))
           := newVote now tk req v options (prisma w)]>
           (verificationVoteRecords (prisma w))
    /\ verificationTokens (prisma w')
       = <[vt_id tk := markUsed now tk]> (verificationTokens (prisma w))
    /\ (v = DENY ->
        res = denied /\ completedAs Denied now (prisma w') (vr_id req))
    /\ (v = CONFIRM ->
        vr_requiredConfirmations req <= confirmCount (prisma w) (vr_id req) + 1 ->
        res = confirmed /\ completedAs Confirmed now (prisma w') (vr_id req))
    /\ (v = CONFIRM ->
        confirmCount (prisma w) (vr_id req) + 1 < vr_requiredConfirmations req ->
        res = pending
        /\ verificationRequests (prisma w') !! vr_id req = Some req).
Proof.
  intros Hv. pose proof Hv as [_ _ _ Hr _ _ _ _ _ _]. destruct v.
  - rewrite (confirm_run _ _ _ _ _ _ _ Hv).
    rewrite (confirmCount_afterVote now tk req options (prisma w)).
    destruct (Z.geb_spec (confirmCount (prisma w) (vr_id req) + 1)
                (vr_requiredConfirmations req)) as [Hq|Hq];
      do 2 eexists; (split; [reflexivity|]); cbn [prisma];
      (split; [reflexivity|]); (split; [reflexivity|]);
      (split; [done|]); split.
    + intros _ _. split; [done|]. eexists.
      split; [apply lookup_insert_eq|]. by split.
    + intros _ Hlt. lia.
    + intros _ Hle. lia.
    + intros _ _. split; [done|]. exact Hr.
  - rewrite (deny_run _ _ _ _ _ _ _ Hv). do 2 eexists.
    split; [reflexivity|]. cbn [prisma].
    split; [reflexivity|]. split; [reflexivity|]. split; [|by split].
    intros _. split; [done|]. eexists.
    split; [apply lookup_insert_eq|]. by split.
Qed.

(** X17. A vote with the right one-time code is the plain vote: for an
    acceptable link whose stored hash is the SHA-256 of the code and whose
    code has not expired, [verifyOtpAndVote] answers success with the result
    of the vote; exactly one vote is added to the table, under an id no vote
    had, for the request and the verifier of the link, with the vote given
    and the time of the call; the token of the link is marked used at that
    time; a DENY completes the request as denied, a CONFIRM that reaches the
    quorum completes it as confirmed, and a CONFIRM below the quorum is
    answered pending and leaves the request as it was. *)
Theorem X17_right_code_casts_the_vote
    rt now w token tk req sw options code hash v :
  votable now (prisma w) token tk req sw ->
  vt_otp tk = Some hash -> hash <> "" -> sha256Hex rt code = hash ->
  Scheduler.lt (vt_otpExpiresAt tk) now = false ->
  exists vote res w',
    verifyOtpAndVote rt now token code v options w
    = (Ok (mkOtpVoteResult true res None), w')
    /\ verificationVoteRecords (prisma w) !! vv_id vote = None
    /\ verificationVoteRecords (prisma w')
       = <[vv_id vote := vote]> (verificationVoteRecords (prisma w))
    /\ vv_verificationRequestId vote = vr_id req
    /\ vv_verifierId vote = vt_verifierId tk
    /\ vv_vote vote = v
    /\ vv_votedAt vote = now
    /\ verificationTokens (prisma w')
       = <[vt_id tk := markUsed now tk]> (verificationTokens (prisma w))
    /\ (v = DENY ->
        res = denied /\ completedAs Denied now (prisma w') (vr_id req))
    /\ (v = CONFIRM ->
        vr_requiredConfirmations req <= confirmCount (prisma w) (vr_id req) + 1 ->
        res = confirmed /\ completedAs Confirmed now (prisma w') (vr_id req))
    /\ (v = CONFIRM ->
        confirmCount (prisma w) (vr_id req) + 1 < vr_requiredConfirmations req ->
        res = pending
        /\ verificationRequests (prisma w') !! vr_id req = Some req).
Proof.
  intros Hv Hotp Hne Hhash Hexp.
  pose proof (findToken_votable _ _ _ _ _ _ Hv) as Hfind.
  pose proof (no_existing_vote _ _ _ _ _ _ Hv) as Hnone.
  set (entry :=
         {| entityType := ENTITY_TYPES.VERIFICATION_REQUEST;
            entityId := vr_id req;
            action := AUDIT_ACTIONS.VERIFICATION_OTP_VERIFIED;
            al_userId := None;
            metadata := [("verifierId", vt_verifierId tk)];
            al_ipAddress := orNull (info options ipAddress);
            al_userAgent := orNull (info options userAgent) |}).
  set (w1 := mkWorld
               (setAuditLogs (auditLogs (prisma w) ++ [entry]) (prisma w))
               (outbox w)).
  assert (Hv1 : votable now (prisma w1) token tk req sw)
    by apply votable_audit, Hv.
  destruct (vote_run_new now w1 token tk req sw options v Hv1)
    as (res & w' & Hrun & Hvotes & Htoken & Hdeny & Hconfirm & Hpending).
  exists (newVote now tk req v options (prisma w)), res, w'.
  split; [|split; [apply fresh_vote_key|split; [exact Hvotes|
           split; [reflexivity|split; [reflexivity|split; [reflexivity|
           split; [reflexivity|split; [exact Htoken|split; [exact Hdeny|
           split; [exact Hconfirm|exact Hpending]]]]]]]]]].
  destruct Hv as [Hu Ht Hval Hr Hrel Hs Hlink Hunused Hopen Hfirst].
  unfold verifyOtpAndVote.
  unfold mbind at 1. unfold Async_bind at 1, bind at 1. rewrite Hfind.
  assert (Hltb : (vt_expiresAt tk <? now) = false) by (apply Z.ltb_ge; lia).
  rewrite Hltb, Hunused, Hexp, Hotp, Hopen. cbn [bool_decide decide_rel].
  assert (Hgood : negb (truthy hash) || negb (Encryption.verifyOtp rt code hash)
                  = false).
  { rewrite (truthy_nonempty _ Hne).
    unfold Encryption.verifyOtp, Encryption.hashOtp.
    by rewrite Hhash, String.eqb_refl. }
  rewrite Hgood.
  rewrite !(bool_decide_eq_false_2 (is_Some None)) by (by intros [? ?]).
  unfold mbind at 1. unfold Async_bind at 1, bind at 1.
  unfold Prisma.findFirst at 1. rewrite Hnone.
  unfold createAuditLog, Prisma.auditLog_create.
  unfold mbind, Async_bind, bind.
  cbn [ai_entityType ai_entityId ai_action ai_userId ai_metadata ai_ipAddress
       ai_userAgent].
  change (orNull None) with (@None string).
  fold entry. fold w1. rewrite Hrun. reflexivity.
Qed.

Lemma X17_witness :
  exists vote w',
    verifyOtpAndVote (Fixtures.runtime Fixtures.accepting) 1000 "tok-v1"
      "123456" DENY None
      (Fixtures.worldOf (Links.linkDb (Some "sha256:123456")))
    = (Ok (mkOtpVoteResult true denied None), w')
    /\ verificationVoteRecords (prisma w')
       = <[vv_id vote := vote]> ∅
    /\ vv_verifierId vote = "v1"
    /\ vv_vote vote = DENY.
Proof.
  destruct (X17_right_code_casts_the_vote
              (Fixtures.runtime Fixtures.accepting) 1000
              (Fixtures.worldOf (Links.linkDb (Some "sha256:123456"))) "tok-v1"
              (Links.aLink (Some "sha256:123456"))
              (Fixtures.aRequest "vr1" "sw1" 2000000)
              (Fixtures.aSwitch "sw1" PENDING_VERIFICATION) None
              "123456" "sha256:123456" DENY)
    as (vote & res & w' & Hrun & _ & Hvotes & _ & Hver & Hvote & _ & _
        & Hdeny & _).
  - exact (linkDb_votable (Some "sha256:123456")).
  - reflexivity.
  - discriminate.
  - reflexivity.
  - reflexivity.
  - destruct (Hdeny eq_refl) as [-> _]. exists vote, w'.
    split; [exact Hrun|split; [exact Hvotes|split; [exact Hver|exact Hvote]]].
Defined.

(** X18. The right code is not enough: for an acceptable link,
    [verifyOtpAndVote] refuses every code once the code has expired
    ('Verification code has expired'), and refuses every code when the link
    has no stored hash or an empty one ('Invalid verification code'). No
    vote is stored, request and switch stay as they are, and the failure is
    written to the audit log. *)
Theorem X18_expired_or_missing_code_is_refused
    rt now w token tk req sw options code v :
  votable now (prisma w) token tk req sw ->
  ((exists t, vt_otpExpiresAt tk = Some t /\ t < now) ->
   exists w',
     verifyOtpAndVote rt now token code v options w
     = (Ok (mkOtpVoteResult false pending
              (Some "Verification code has expired")), w')
     /\ verificationVoteRecords (prisma w') = verificationVoteRecords (prisma w)
     /\ verificationTokens (prisma w') = verificationTokens (prisma w)
     /\ length (auditLogs (prisma w')) = S (length (auditLogs (prisma w))))
  /\ (Scheduler.lt (vt_otpExpiresAt tk) now = false ->
      vt_otp tk = None \/ vt_otp tk = Some "" ->
      exists w',
        verifyOtpAndVote rt now token code v options w
        = (Ok (mkOtpVoteResult false pending
                 (Some "Invalid verification code")), w')
        /\ verificationVoteRecords (prisma w')
           = verificationVoteRecords (prisma w)
        /\ verificationTokens (prisma w') = verificationTokens (prisma w)
        /\ length (auditLogs (prisma w')) = S (length (auditLogs (prisma w)))).
Proof.
  intros Hv. pose proof (findToken_votable _ _ _ _ _ _ Hv) as Hfind.
  destruct Hv as [Hu Ht Hval Hr Hrel Hs Hlink Hunused Hopen Hfirst].
  assert (Hltb : (vt_expiresAt tk <? now) = false) by (apply Z.ltb_ge; lia).
  split.
  - intros (t & Ht' & Hlt). unfold verifyOtpAndVote.
    unfold mbind at 1. unfold Async_bind at 1, bind at 1.
    rewrite Hfind, Hltb, Hunused, Ht'. cbn [Scheduler.lt].
    rewrite !(bool_decide_eq_false_2 (is_Some None)) by (by intros [? ?]).
    assert (Hexp : (t <? now) = true) by (apply Z.ltb_lt; lia).
    rewrite Hexp. unfold otpFailed. unfold_async. unfold Prisma.auditLog_create.
    eexists. split; [reflexivity|]. cbn. rewrite length_app. cbn.
    repeat split. lia.
  - intros Hexp Hno. unfold verifyOtpAndVote.
    unfold mbind at 1. unfold Async_bind at 1, bind at 1.
    rewrite Hfind, Hltb, Hunused, Hexp.
    rewrite !(bool_decide_eq_false_2 (is_Some None)) by (by intros [? ?]).
    assert (Hbad : match vt_otp tk with
                   | Some hash =>
                       negb (truthy hash)
                       || negb (Encryption.verifyOtp rt code hash)
                   | None => true
                   end = true)
      by (destruct Hno as [-> | ->]; reflexivity).
    rewrite Hbad. unfold otpFailed. unfold_async. unfold Prisma.auditLog_create.
    eexists. split; [reflexivity|]. cbn. rewrite length_app. cbn.
    repeat split. lia.
Qed.

Lemma X18_witness :
  exists w',
    verifyOtpAndVote (Fixtures.runtime Fixtures.accepting) 1000 "tok-v1"
      "123456" CONFIRM None (Fixtures.worldOf (Links.linkDb None))
    = (Ok (mkOtpVoteResult false pending
             (Some "Invalid verification code")), w')
    /\ verificationVoteRecords (prisma w')
       = verificationVoteRecords (Links.linkDb None).
Proof.
  destruct (X18_expired_or_missing_code_is_refused
              (Fixtures.runtime Fixtures.accepting) 1000
              (Fixtures.worldOf (Links.linkDb None)) "tok-v1"
              (Links.aLink None)
              (Fixtures.aRequest "vr1" "sw1" 2000000)
              (Fixtures.aSwitch "sw1" PENDING_VERIFICATION) None
              "123456" CONFIRM (linkDb_votable None)) as [_ H].
  destruct H as (w' & Hrun & Hvotes & _);
    [reflexivity|left; reflexivity|].
  exists w'. split; [exact Hrun|exact Hvotes].
Defined.

End CodeVotes.

(** ** The owner's operations on a switch *)

Section Owner.
Import EmailService StateMachine SwitchManager Effects Outcomes.

Lemma bind_run {A B} (m : Async A) (k : A -> Async B) w :
  (m ≫= k) w
  = match m w with
    | (Ok a, w') => k a w'
    | (Throw e, w') => (Throw e, w')
    end.
Proof. reflexivity. Qed.

Lemma findUnique_run {R} (T : Table R) id w :
  Prisma.findUnique T id w = (Ok (rows T (prisma w) !! id), w).
Proof. reflexivity. Qed.

Lemma not_owner (s : Switch) userId :
  sw_userId s <> userId -> negb (String.eqb (sw_userId s) userId) = true.
Proof. intros H. apply negb_true_iff. by apply String.eqb_neq. Qed.

Lemma is_owner (s : Switch) userId :
  sw_userId s = userId -> negb (String.eqb (sw_userId s) userId) = false.
Proof. intros ->. by rewrite String.eqb_refl. Qed.

(** X19. Only the owner: when the switch does not exist or belongs to
    another user, [performCheckIn], [cancelSwitch], [updateSwitch] and
    [deleteSwitch] raise the same 'Switch not found or access denied' and
    [getSwitchById] answers null, so the two cases cannot be told apart, and
    the world is left as it was. *)
Theorem X19_only_the_owner now switchId userId options input w :
  switches (prisma w) !! switchId = None
  \/ (exists s, switches (prisma w) !! switchId = Some s
                /\ sw_userId s <> userId) ->
  performCheckIn now switchId userId options w
  = (Throw (Error "Switch not found or access denied"), w)
  /\ cancelSwitch now switchId userId options w
     = (Throw (Error "Switch not found or access denied"), w)
  /\ updateSwitch switchId userId input options w
     = (Throw (Error "Switch not found or access denied"), w)
  /\ deleteSwitch switchId userId options w
     = (Throw (Error "Switch not found or access denied"), w)
  /\ getSwitchById switchId userId w = (Ok None, w).
Proof.
  intros H.
  unfold performCheckIn, cancelSwitch, updateSwitch, deleteSwitch,
    getSwitchById.
  rewrite !bind_run, !findUnique_run. cbn [rows switchT].
  destruct H as [-> | (s & -> & Hne)].
  - by repeat split.
  - rewrite (not_owner _ _ Hne). by repeat split.
Qed.

Lemma X19_witness :
  performCheckIn 1000 "sw1" "mallory" None (Fixtures.oneSwitch OVERDUE)
  = (Throw (Error "Switch not found or access denied"),
     Fixtures.oneSwitch OVERDUE).
Proof.
  apply (X19_only_the_owner 1000 "sw1" "mallory" None
           (mkUpdateSwitchInput None None None None None None None)
           (Fixtures.oneSwitch OVERDUE)).
  right. exists (Fixtures.aSwitch "sw1" OVERDUE). split; [reflexivity|].
  discriminate.
Defined.

(** X20. The owner's check-in: from ACTIVE, OVERDUE, GRACE_PERIOD,
    PENDING_VERIFICATION or VERIFIED, [performCheckIn] returns the row as it
    is stored after the check-in, ACTIVE with the clock restarted at [now];
    from EXECUTED, CANCELED or PAUSED it raises 'Cannot check in from ...
    state' and changes nothing. *)
Theorem X20_owner_check_in now switchId userId options w s :
  switches (prisma w) !! switchId = Some s ->
  sw_userId s = userId ->
  (includes validCheckInStates (status s) = true ->
   exists w',
     performCheckIn now switchId userId options w
     = (Ok (checkedIn now s), w')
     /\ switches (prisma w') !! switchId = Some (checkedIn now s)
     /\ status (checkedIn now s) = ACTIVE
     /\ lastCheckInAt (checkedIn now s) = Some now
     /\ nextCheckInDueAt (checkedIn now s)
        = Some (now + checkInIntervalDays s * 24 * 60 * 60 * 1000))
  /\ (includes validCheckInStates (status s) = false ->
      performCheckIn now switchId userId options w
      = (Throw (Error ("Cannot check in from " ++ statusName (status s)
                       ++ " state")), w)).
Proof.
  intros Hs Hown. unfold performCheckIn.
  rewrite bind_run, findUnique_run. cbn [rows switchT].
  rewrite Hs, (is_owner _ _ Hown), bind_run. split; intros Hv.
  - rewrite (checkIn_valid _ _ _ _ _ Hs Hv). cbn [success negb].
    unfold reread. rewrite bind_run, findUnique_run.
    cbn [rows switchT prisma setRows setAuditLogs switches
         verificationRequestT].
    rewrite lookup_insert_eq. eexists. split; [reflexivity|].
    cbn [prisma switches]. split; [apply lookup_insert_eq|]. by repeat split.
  - rewrite (checkIn_invalid _ _ _ _ _ Hs Hv). cbn [success negb error orNull].
    destruct (status s); try discriminate Hv; reflexivity.
Qed.

Lemma X20_witness :
  exists w',
    performCheckIn 1000 "sw1" "owner" None (Fixtures.oneSwitch OVERDUE)
    = (Ok (checkedIn 1000 (Fixtures.aSwitch "sw1" OVERDUE)), w')
    /\ switches (prisma w') !! "sw1"
       = Some (checkedIn 1000 (Fixtures.aSwitch "sw1" OVERDUE)).
Proof.
  destruct (X20_owner_check_in 1000 "sw1" "owner" None
              (Fixtures.oneSwitch OVERDUE) (Fixtures.aSwitch "sw1" OVERDUE)
              eq_refl eq_refl) as [Hok _].
  destruct (Hok eq_refl) as (w' & Hrun & Hstored & _).
  exists w'. split; [exact Hrun|exact Hstored].
Defined.

Ltac run_step :=
  rewrite ?bind_run, ?findUnique_run;
  cbn [rows setRows switchT prisma outbox switches setAuditLogs auditLogs
       success negb error].

(** X21. An executed switch is final for every operation of the manager:
    for a switch in EXECUTED, the owner's check-in, cancellation, update and
    deletion and the administrator's pause and resume all raise, each with
    its own text, and none of them changes anything. *)
Theorem X21_executed_switch_is_final
    now switchId userId admin options input pauseOptions w s :
  switches (prisma w) !! switchId = Some s ->
  sw_userId s = userId ->
  status s = EXECUTED ->
  performCheckIn now switchId userId options w
  = (Throw (Error "Cannot check in from EXECUTED state"), w)
  /\ cancelSwitch now switchId userId options w
     = (Throw (Error "Invalid transition from EXECUTED to CANCELED"), w)
  /\ updateSwitch switchId userId input options w
     = (Throw (Error "Cannot update switch in EXECUTED state"), w)
  /\ deleteSwitch switchId userId options w
     = (Throw (Error "Cannot delete an executed switch"), w)
  /\ pauseSwitch now switchId admin pauseOptions w
     = (Throw (Error "Invalid transition from EXECUTED to PAUSED"), w)
  /\ resumeSwitch now switchId admin options w
     = (Throw (Error "Invalid transition from EXECUTED to ACTIVE"), w).
Proof.
  intros Hs Hown Hst.
  assert (Hno : forall target, isValidTransition (status s) target = false)
    by (intros target; rewrite Hst; apply no_edge_from_EXECUTED).
  assert (Hci : includes validCheckInStates (status s) = false)
    by (by rewrite Hst).
  unfold performCheckIn, cancelSwitch, updateSwitch, deleteSwitch,
    pauseSwitch, resumeSwitch.
  rewrite !bind_run, !findUnique_run. cbn [rows switchT].
  rewrite Hs, (is_owner _ _ Hown), !bind_run.
  rewrite (checkIn_invalid _ _ _ _ _ Hs Hci).
  rewrite !(transition_invalid _ _ _ _ _ _ Hs (Hno _)).
  rewrite Hst. repeat split; reflexivity.
Qed.

Lemma X21_witness :
  deleteSwitch "sw1" "owner" None (Fixtures.oneSwitch EXECUTED)
  = (Throw (Error "Cannot delete an executed switch"),
     Fixtures.oneSwitch EXECUTED).
Proof.
  apply (X21_executed_switch_is_final 1000 "sw1" "owner" "admin" None
           (mkUpdateSwitchInput None None None None None None None) None
           (Fixtures.oneSwitch EXECUTED) (Fixtures.aSwitch "sw1" EXECUTED)
           eq_refl eq_refl eq_refl).
Defined.

(** X22. The owner's cancellation: from every status that has an edge to
    CANCELED, [cancelSwitch] returns the stored row, CANCELED with the due
    date, the grace timer and the execution timer cleared and the
    configuration kept; it writes two audit entries, the status change and
    the cancellation; and it leaves the verification requests of the switch
    as they are, open ones included. *)
Theorem X22_owner_cancels now switchId userId options w s :
  switches (prisma w) !! switchId = Some s ->
  sw_userId s = userId ->
  isValidTransition (status s) CANCELED = true ->
  exists s' w' e1 e2,
    cancelSwitch now switchId userId options w = (Ok s', w')
    /\ switches (prisma w') !! switchId = Some s'
    /\ status s' = CANCELED
    /\ sameConfiguration s s'
    /\ timersAfter now CANCELED s s'
    /\ verificationRequests (prisma w') = verificationRequests (prisma w)
    /\ sameOtherTables (prisma w) (prisma w')
    /\ auditLogs (prisma w') = (auditLogs (prisma w) ++ [e1; e2])%list
    /\ action e1 = AUDIT_ACTIONS.SWITCH_STATUS_CHANGED
    /\ action e2 = AuditNames.SWITCH_CANCELED
    /\ entityId e1 = switchId /\ entityId e2 = switchId.
Proof.
  intros Hs Hown Hv. unfold cancelSwitch. run_step.
  rewrite Hs, (is_owner _ _ Hown). run_step.
  rewrite (transition_valid _ _ _ _ _ _ Hs Hv). run_step.
  unfold createAuditLog, Prisma.auditLog_create, reread. run_step.
  rewrite lookup_insert_eq.
  do 4 eexists. split; [reflexivity|].
  cbn [prisma switches verificationRequests auditLogs].
  split; [apply lookup_insert_eq|].
  rewrite <- app_assoc. by repeat split.
Qed.

Lemma X22_witness :
  exists s' w',
    cancelSwitch 1000 "sw1" "owner" None (Fixtures.oneSwitch GRACE_PERIOD)
    = (Ok s', w')
    /\ status s' = CANCELED /\ nextCheckInDueAt s' = None.
Proof.
  destruct (X22_owner_cancels 1000 "sw1" "owner" None
              (Fixtures.oneSwitch GRACE_PERIOD)
              (Fixtures.aSwitch "sw1" GRACE_PERIOD) eq_refl eq_refl eq_refl)
    as (s' & w' & e1 & e2 & Hrun & _ & Hst & _ & Ht & _).
  exists s', w'. split; [exact Hrun|]. split; [exact Hst|].
  destruct Ht as (_ & Hdue & _). exact Hdue.
Defined.

(** X23. What [updateSwitch] can and cannot change: in GRACE_PERIOD,
    PENDING_VERIFICATION, VERIFIED and EXECUTED it raises 'Cannot update
    switch in ... state' and changes nothing; in ACTIVE, OVERDUE, PAUSED and
    CANCELED it returns the stored row, whose status, last check-in, grace
    timer and execution timer are those of before; the due date moves, to
    the last check-in plus the new interval, only when a new interval is
    given and the switch is ACTIVE, and stays as it is otherwise (so a new
    interval does not move the due date of an OVERDUE switch). *)
Theorem X23_update_keeps_status_and_timers switchId userId input options w s :
  switches (prisma w) !! switchId = Some s ->
  sw_userId s = userId ->
  (status s = GRACE_PERIOD \/ status s = PENDING_VERIFICATION
   \/ status s = VERIFIED \/ status s = EXECUTED ->
   updateSwitch switchId userId input options w
   = (Throw (Error ("Cannot update switch in " ++ statusName (status s)
                    ++ " state")), w))
  /\ (status s = ACTIVE \/ status s = OVERDUE \/ status s = PAUSED
      \/ status s = CANCELED ->
      exists s' w',
        updateSwitch switchId userId input options w = (Ok s', w')
        /\ switches (prisma w') !! switchId = Some s'
        /\ status s' = status s
        /\ sw_id s' = sw_id s /\ sw_userId s' = sw_userId s
        /\ lastCheckInAt s' = lastCheckInAt s
        /\ gracePeriodEndsAt s' = gracePeriodEndsAt s
        /\ scheduledExecutionAt s' = scheduledExecutionAt s
        /\ (forall d last,
              i_checkInIntervalDays input = Some d ->
              status s = ACTIVE -> lastCheckInAt s = Some last ->
              checkInIntervalDays s' = d
              /\ nextCheckInDueAt s' = Some (last + d * 24 * 60 * 60 * 1000))
        /\ (i_checkInIntervalDays input = None \/ status s <> ACTIVE ->
            nextCheckInDueAt s' = nextCheckInDueAt s)
        /\ exists e,
             auditLogs (prisma w') = (auditLogs (prisma w) ++ [e])%list
             /\ action e = AuditNames.SWITCH_UPDATED).
Proof.
  intros Hs Hown. unfold updateSwitch. run_step.
  rewrite Hs, (is_owner _ _ Hown). split; intros Hst.
  - assert (Hv : includes editableStates (status s) = false)
      by (destruct Hst as [Hst|[Hst|[Hst|Hst]]]; by rewrite Hst).
    rewrite Hv. reflexivity.
  - assert (Hv : includes editableStates (status s) = true)
      by (destruct Hst as [Hst|[Hst|[Hst|Hst]]]; by rewrite Hst).
    rewrite Hv. cbn [negb].
    unfold Prisma.update, createAuditLog, Prisma.auditLog_create. run_step.
    rewrite Hs. do 2 eexists. split; [reflexivity|].
    cbn [prisma switches auditLogs]. split; [apply lookup_insert_eq|].
    cbn [applyInput status sw_id sw_userId lastCheckInAt gracePeriodEndsAt
         scheduledExecutionAt nextCheckInDueAt checkInIntervalDays].
    do 6 (split; [reflexivity|]). split; [|split].
    + intros d last -> Hact ->. rewrite (bool_decide_eq_true_2 _ Hact).
      by split.
    + intros [-> | Hna]; [reflexivity|].
      destruct (i_checkInIntervalDays input), (lastCheckInAt s);
        try reflexivity.
      by rewrite (bool_decide_eq_false_2 _ Hna).
    + eexists. by split.
Qed.

Lemma X23_witness :
  (exists s' w',
     updateSwitch "sw1" "owner"
       (mkUpdateSwitchInput None (Some 30) None None None None None) None
       (Fixtures.oneSwitch ACTIVE) = (Ok s', w')
     /\ nextCheckInDueAt s' = Some 2592000000)
  /\ updateSwitch "sw1" "owner"
       (mkUpdateSwitchInput None (Some 30) None None None None None) None
       (Fixtures.oneSwitch GRACE_PERIOD)
     = (Throw (Error "Cannot update switch in GRACE_PERIOD state"),
        Fixtures.oneSwitch GRACE_PERIOD).
Proof.
  split.
  - destruct (X23_update_keeps_status_and_timers "sw1" "owner"
                (mkUpdateSwitchInput None (Some 30) None None None None None)
                None (Fixtures.oneSwitch ACTIVE)
                (Fixtures.aSwitch "sw1" ACTIVE) eq_refl eq_refl) as [_ Hok].
    destruct (Hok (or_introl eq_refl))
      as (s' & w' & Hrun & _ & _ & _ & _ & _ & _ & _ & Hdue & _).
    exists s', w'. split; [exact Hrun|].
    destruct (Hdue 30 0 eq_refl eq_refl eq_refl) as [_ H]. exact H.
  - destruct (X23_update_keeps_status_and_timers "sw1" "owner"
                (mkUpdateSwitchInput None (Some 30) None None None None None)
                None (Fixtures.oneSwitch GRACE_PERIOD)
                (Fixtures.aSwitch "sw1" GRACE_PERIOD) eq_refl eq_refl)
      as [Hrefused _].
    exact (Hrefused (or_introl eq_refl)).
Defined.

(** X24. [createSwitch] never fails: it stores a new switch under an id no
    switch had, ACTIVE, owned by the caller, checked in at [now] and due one
    interval later, without grace or execution timer, and leaves the
    switches there were as they are. The verification window, the final
    delay and the quorum default to 7 days, 24 hours and 2 confirmations,
    also when the input gives them as 0. *)
Theorem X24_created_switch_is_active_with_defaults now userId input options w :
  exists s w' e,
    createSwitch now userId input options w = (Ok s, w')
    /\ switches (prisma w) !! sw_id s = None
    /\ switches (prisma w') = <[sw_id s := s]> (switches (prisma w))
    /\ sw_userId s = userId /\ status s = ACTIVE
    /\ lastCheckInAt s = Some now
    /\ nextCheckInDueAt s
       = Some (now + c_checkInIntervalDays input * 24 * 60 * 60 * 1000)
    /\ gracePeriodEndsAt s = None /\ scheduledExecutionAt s = None
    /\ verificationWindowDays s
       = match c_verificationWindowDays input with
         | Some 0 | None => 7
         | Some n => n
         end
    /\ finalDelayHours s
       = match c_finalDelayHours input with
         | Some 0 | None => 24
         | Some n => n
         end
    /\ requiredConfirmations s
       = match c_requiredConfirmations input with
         | Some 0 | None => 2
         | Some n => n
         end
    /\ auditLogs (prisma w') = (auditLogs (prisma w) ++ [e])%list
    /\ action e = AuditNames.SWITCH_CREATED /\ entityId e = sw_id s.
Proof.
  unfold createSwitch, Prisma.create, createAuditLog, Prisma.auditLog_create.
  run_step. rewrite existsb_noConstraint. run_step.
  do 3 eexists. split; [reflexivity|].
  cbn [prisma switches auditLogs sw_id sw_userId status lastCheckInAt
       nextCheckInDueAt gracePeriodEndsAt scheduledExecutionAt
       verificationWindowDays finalDelayHours requiredConfirmations].
  split; [apply not_elem_of_dom, is_fresh|].
  do 7 (split; [reflexivity|]).
  assert (Hdef : forall o d,
            orDefault o d = match o with Some 0 | None => d | Some n => n end).
  { intros [[| |]|] d; reflexivity. }
  rewrite !Hdef. by repeat split.
Qed.

(** X25. Pause and resume are by switch id alone, whoever calls: from
    every status with an edge to PAUSED, [pauseSwitch] stores the switch as
    PAUSED with the four timers as they were; [resumeSwitch] then stores it
    as ACTIVE, checked in at the time of the resume and due one interval
    later, with the grace and execution timers cleared. *)
Theorem X25_pause_then_resume
    now1 now2 switchId admin pauseOptions options w s :
  switches (prisma w) !! switchId = Some s ->
  isValidTransition (status s) PAUSED = true ->
  exists s1 w1 s2 w2,
    pauseSwitch now1 switchId admin pauseOptions w = (Ok s1, w1)
    /\ switches (prisma w1) !! switchId = Some s1
    /\ status s1 = PAUSED
    /\ timersAfter now1 PAUSED s s1
    /\ resumeSwitch now2 switchId admin options w1 = (Ok s2, w2)
    /\ switches (prisma w2) !! switchId = Some s2
    /\ status s2 = ACTIVE
    /\ timersAfter now2 ACTIVE s s2
    /\ sameConfiguration s s2.
Proof.
  intros Hs Hv. unfold pauseSwitch. run_step.
  rewrite (transition_valid _ _ _ _ _ _ Hs Hv). run_step.
  unfold createAuditLog at 1, Prisma.auditLog_create at 1, reread at 1.
  run_step. rewrite lookup_insert_eq.
  do 2 eexists.
  match goal with
  | |- context [ret _ ?w1] => set (w1' := w1)
  end.
  assert (Hs1 : switches (prisma w1') !! switchId
                = Some (applyUpdate (transitionData now1 s PAUSED) s))
    by apply lookup_insert_eq.
  assert (Hv1 : isValidTransition
                  (status (applyUpdate (transitionData now1 s PAUSED) s))
                  ACTIVE = true) by reflexivity.
  unfold resumeSwitch. run_step.
  rewrite (transition_valid _ _ _ _ _ _ Hs1 Hv1). run_step.
  unfold createAuditLog, Prisma.auditLog_create, reread. run_step.
  cbn [prisma switches]. rewrite !lookup_insert_eq.
  do 2 eexists. split; [reflexivity|]. split; [reflexivity|].
  split; [reflexivity|]. split; [by repeat split|].
  split; [reflexivity|].
  split; [cbn [prisma switches setAuditLogs setRows switchT];
          apply lookup_insert_eq|].
  by repeat split.
Qed.

Lemma X25_witness :
  exists s1 w1 s2 w2,
    pauseSwitch 1000 "sw1" "admin" None (Fixtures.oneSwitch VERIFIED)
    = (Ok s1, w1)
    /\ status s1 = PAUSED
    /\ resumeSwitch 5000 "sw1" "admin" None w1 = (Ok s2, w2)
    /\ status s2 = ACTIVE /\ lastCheckInAt s2 = Some 5000.
Proof.
  destruct (X25_pause_then_resume 1000 5000 "sw1" "admin" None None
              (Fixtures.oneSwitch VERIFIED) (Fixtures.aSwitch "sw1" VERIFIED)
              eq_refl eq_refl)
    as (s1 & w1 & s2 & w2 & Hp & _ & Hst1 & _ & Hr & _ & Hst2 & Ht & _).
  exists s1, w1, s2, w2. split; [exact Hp|]. split; [exact Hst1|].
  split; [exact Hr|]. split; [exact Hst2|]. destruct Ht as [Hlast _].
  exact Hlast.
Defined.

(** X26. Cancelling does not close the verification: [cancelSwitch]
    leaves the open request of the switch open, and a CONFIRM vote that
    reaches the quorum afterwards is accepted and writes VERIFIED, with the
    execution scheduled after the final delay, onto the CANCELED switch; the
    vote does not consult the transition table, which has no edge from
    CANCELED to VERIFIED. In both versions of [submitVerificationVote]. *)
Theorem X26_quorum_after_cancel_rearms_the_switch
    submit now now2 w token tk req sw userId options :
  isSubmit submit ->
  votable now2 (prisma w) token tk req sw ->
  sw_userId sw = userId ->
  isValidTransition (status sw) CANCELED = true ->
  vr_requiredConfirmations req <= confirmCount (prisma w) (vr_id req) + 1 ->
  exists s1 w1 vote w2 s2,
    cancelSwitch now (vr_switchId req) userId options w = (Ok s1, w1)
    /\ status s1 = CANCELED
    /\ verificationRequests (prisma w1) !! vr_id req = Some req
    /\ submit now2 (mkSubmitVoteInput token CONFIRM) None w1
       = (Ok (vote, confirmed), w2)
    /\ switches (prisma w2) !! vr_switchId req = Some s2
    /\ status s2 = VERIFIED
    /\ scheduledExecutionAt s2
       = Some (now2 + finalDelayHours sw * 60 * 60 * 1000)
    /\ isValidTransition CANCELED VERIFIED = false.
Proof.
  intros Hsub Hvot Hown Hv Hquorum.
  pose proof Hvot as [Hu Ht Hval Hr Hrel Hs Hlink Hunused Hopen Hfirst].
  unfold cancelSwitch. run_step.
  rewrite Hs, (is_owner _ _ Hown). run_step.
  rewrite (transition_valid _ _ _ _ _ _ Hs Hv). run_step.
  unfold createAuditLog, Prisma.auditLog_create, reread. run_step.
  rewrite lookup_insert_eq.
  set (s1 := applyUpdate (transitionData now sw CANCELED) sw).
  match goal with |- context [ret s1 ?w] => set (w1 := w) end.
  assert (Hvot1 : votable now2 (prisma w1) token tk req s1).
  { split; try done. apply lookup_insert_eq. }
  assert (Hcount : confirmCount (prisma w1) (vr_id req)
                   = confirmCount (prisma w) (vr_id req)) by reflexivity.
  assert (Hrun :
    submit now2 (mkSubmitVoteInput token CONFIRM) None w1
    = (Ok (newVote now2 tk req CONFIRM None (prisma w1), confirmed),
       mkWorld
         (setRows switchT
            (<[vr_switchId req
               := applyUpdate
                    (mkSwitchUpdate (Some VERIFIED) None None None
                       (Some (Some (now2 + hours (finalDelayHours s1))))) s1]>
               (switches (prisma w1)))
            (setRows verificationRequestT
               (<[vr_id req := completeRequest now2 Confirmed req]>
                  (verificationRequests (prisma w1)))
               (afterVote now2 tk req CONFIRM None (prisma w1))))
         (outbox w1))).
  { assert (Hq : (confirmCount (afterVote now2 tk req CONFIRM None (prisma w1))
                    (vr_id req) >=? vr_requiredConfirmations req) = true).
    { rewrite confirmCount_afterVote, Hcount. apply Z.geb_le. lia. }
    destruct Hsub as [-> | ->].
    - by rewrite (confirm_run _ _ _ _ _ _ _ Hvot1), Hq.
    - by rewrite (legacy_confirm_run _ _ _ _ _ _ _ Hvot1),
        (confirm_run _ _ _ _ _ _ _ Hvot1), Hq. }
  do 5 eexists. split; [reflexivity|]. split; [reflexivity|].
  split; [exact Hr|]. split; [exact Hrun|].
  cbn [prisma switches setRows switchT verificationRequestT].
  split; [apply lookup_insert_eq|]. by repeat split.
Qed.

Lemma X26_witness :
  exists s1 w1 vote w2 s2,
    cancelSwitch 900 "sw1" "owner" None (Fixtures.worldOf Fixtures.votingDb)
    = (Ok s1, w1)
    /\ status s1 = CANCELED
    /\ VerificationSystem.submitVerificationVote 1000
         (mkSubmitVoteInput "tok-v1" CONFIRM) None w1
       = (Ok (vote, confirmed), w2)
    /\ switches (prisma w2) !! "sw1" = Some s2
    /\ status s2 = VERIFIED.
Proof.
  destruct (X26_quorum_after_cancel_rearms_the_switch
              VerificationSystem.submitVerificationVote 900 1000
              (Fixtures.worldOf Fixtures.votingDb) "tok-v1"
              (Fixtures.aToken "tv1" "v1" "tok-v1" "hash-of-123456")
              (Fixtures.aRequest "vr1" "sw1" 2000000)
              (Fixtures.aSwitch "sw1" PENDING_VERIFICATION) "owner" None
              (or_introl eq_refl) votingDb_votable eq_refl eq_refl)
    as (s1 & w1 & vote & w2 & s2 & Hc & Hst1 & _ & Hrun & Hs2 & Hst2 & _).
  - vm_compute. discriminate.
  - exists s1, w1, vote, w2, s2. by repeat split.
Defined.

End Owner.

(** ** Messages *)

Section Messages.
Import EmailService Effects Outcomes.

Lemma findFirst_run {R} (T : Table R) P w :
  Prisma.findFirst T P w = (Ok (List.find P (Prisma.allRows T (prisma w))), w).
Proof. reflexivity. Qed.

Lemma liftResult_run {A} (r : Result A) w :
  liftResult r w = (r, w).
Proof. reflexivity. Qed.

Lemma find_none_allRows {R} (T : Table R) d (P : R -> bool) :
  (forall k r, rows T d !! k = Some r -> P r = false) ->
  List.find P (Prisma.allRows T d) = None.
Proof.
  intros H. destruct (List.find P _) as [r|] eqn:E; [|done].
  apply (find_allRows_Some T) in E as [[k Hk] HP].
  by rewrite (H k r Hk) in HP.
Qed.

Ltac msg_step :=
  rewrite ?bind_run, ?findUnique_run, ?findFirst_run, ?liftResult_run;
  unfold mret, Async_ret, ret, throw;
  cbn [rows setRows switchT recipientT messageT prisma outbox switches
       recipients messages setAuditLogs auditLogs].

(** X27. What the owner writes is what is read back: for a recipient of a
    switch of the caller who has no message yet, [createMessage] stores one
    new message row for the recipient, under the switch id it was given, and
    on the store it leaves both [decryptMessageForSending] and the owner's
    [getDecryptedMessage] return the content that was written, with the
    recipient's address; a second [createMessage] for the same recipient is
    refused. Under the contracts of base64, UTF-8 and AES-GCM, for a
    non-empty content. *)
Theorem X27_message_round_trip
    rt key iv salt switchId userId input options w r sw :
  RuntimeContract rt ->
  ENCRYPTION_KEY rt = Some key -> String.length key = 64%nat ->
  length iv = 16%nat -> length salt = 16%nat ->
  MessageManager.content input <> "" ->
  recipients (prisma w) !! MessageManager.recipientId input = Some r ->
  switches (prisma w) !! rc_switchId r = Some sw ->
  sw_userId sw = userId ->
  (forall k m, messages (prisma w) !! k = Some m ->
               msg_recipientId m <> MessageManager.recipientId input) ->
  exists m w',
    MessageManager.createMessage rt iv salt switchId userId input options w
    = (Ok m, w')
    /\ messages (prisma w) !! msg_id m = None
    /\ messages (prisma w') = <[msg_id m := m]> (messages (prisma w))
    /\ msg_recipientId m = MessageManager.recipientId input
    /\ msg_switchId m = switchId
    /\ MessageManager.decryptMessageForSending rt (msg_id m) w'
       = (Ok (MessageManager.mkMessageForSending
                (MessageManager.content input)
                (orNull (MessageManager.subject input))
                (rc_email r) (rc_name r)), w')
    /\ MessageManager.getDecryptedMessage rt (msg_id m) userId w'
       = (Ok (Some (MessageManager.mkDecryptedMessage (msg_id m)
                      (MessageManager.recipientId input)
                      (MessageManager.content input)
                      (orNull (MessageManager.subject input)))), w')
    /\ forall iv' salt' switchId' input' options',
         MessageManager.recipientId input' = MessageManager.recipientId input ->
         MessageManager.createMessage rt iv' salt' switchId' userId input'
           options' w'
         = (Throw (Error "Message already exists for this recipient. Use update instead."),
            w').
Proof.
  intros C Hk Hlen Hiv Hsalt Hne Hr Hs Hown Hnone.
  destruct (roundtrip rt key iv salt (MessageManager.content input)
              C Hk Hlen Hiv Hsalt Hne) as (e & Henc & Hdec).
  assert (Hfind : List.find
                    (fun m => String.eqb (msg_recipientId m)
                                (MessageManager.recipientId input))
                    (Prisma.allRows messageT (prisma w)) = None).
  { apply find_none_allRows. intros k m Hm. apply String.eqb_neq.
    exact (Hnone k m Hm). }
  set (id := fresh (dom (messages (prisma w)))).
  assert (Hid : messages (prisma w) !! id = None)
    by apply not_elem_of_dom, is_fresh.
  set (m := mkMessage id switchId (MessageManager.recipientId input)
              (Encryption.encrypted e) (Encryption.iv e)
              (orNull (MessageManager.subject input))).
  unfold MessageManager.createMessage at 1. msg_step.
  rewrite Hr. msg_step. rewrite Hs, (is_owner _ _ Hown). msg_step.
  rewrite Hfind. msg_step. rewrite Henc.
  unfold Prisma.create, createAuditLog, Prisma.auditLog_create. msg_step.
  fold id. fold m.
  assert (Hex : existsb (MessageManager.sameRecipient m)
                  (Prisma.allRows messageT (prisma w)) = false).
  { apply find_none_existsb. exact Hfind. }
  rewrite Hex. msg_step.
  exists m. eexists. split; [reflexivity|].
  cbn [prisma messages msg_id msg_recipientId msg_switchId m].
  split; [exact Hid|]. split; [reflexivity|]. split; [reflexivity|].
  split; [reflexivity|]. split; [|split].
  - unfold MessageManager.decryptMessageForSending. msg_step.
    rewrite lookup_insert_eq. msg_step.
    cbn [m msg_recipientId msg_encryptedContent msg_subject].
    rewrite Hr. msg_step. by rewrite Hdec.
  - unfold MessageManager.getDecryptedMessage, MessageManager.findWithOwner.
    msg_step. rewrite lookup_insert_eq. msg_step.
    cbn [m msg_recipientId msg_encryptedContent msg_subject msg_id].
    rewrite Hr. msg_step. rewrite Hs. msg_step.
    rewrite (is_owner _ _ Hown). msg_step.
    change (msg_encryptedContent m) with (Encryption.encrypted e).
    by rewrite Hdec.
  - intros iv' salt' switchId' input' options' Hsame.
    unfold MessageManager.createMessage. msg_step.
    rewrite Hsame, Hr. msg_step. rewrite Hs, (is_owner _ _ Hown). msg_step.
    destruct (find_allRows_found messageT
                (setRows messageT (<[id := m]> (messages (prisma w)))
                   (prisma w))
                (fun m0 => String.eqb (msg_recipientId m0)
                             (MessageManager.recipientId input)) id m)
      as [m' Hm'].
    { cbn. apply lookup_insert_eq. }
    { cbn. apply String.eqb_refl. }
    match goal with
    | |- context [List.find ?P (Prisma.allRows messageT ?d)] =>
        change (List.find P (Prisma.allRows messageT d)) with (Some m')
          || (replace (List.find P (Prisma.allRows messageT d)) with (Some m'))
    end; reflexivity.
Qed.

Lemma X27_witness :
  exists m w',
    MessageManager.createMessage (Fixtures.runtime Fixtures.accepting)
      (list_ascii_of_string "nonce-0123456789")
      (list_ascii_of_string "salt-0123456789a") "sw1" "owner"
      (MessageManager.mkCreateMessageInput "r1" "Farewell, Ann." None) None
      (Fixtures.worldOf Recipients.oneRecipient) = (Ok m, w')
    /\ MessageManager.decryptMessageForSending
         (Fixtures.runtime Fixtures.accepting) (msg_id m) w'
       = (Ok (MessageManager.mkMessageForSending "Farewell, Ann." None
                "ann@example.org" (Some "Ann")), w').
Proof.
  destruct (X27_message_round_trip (Fixtures.runtime Fixtures.accepting)
              Fixtures.key64
              (list_ascii_of_string "nonce-0123456789")
              (list_ascii_of_string "salt-0123456789a") "sw1" "owner"
              (MessageManager.mkCreateMessageInput "r1" "Farewell, Ann." None)
              None (Fixtures.worldOf Recipients.oneRecipient)
              (mkRecipient "r1" "sw1" "ann@example.org" (Some "Ann"))
              (Fixtures.aSwitch "sw1" ACTIVE)
              (reference_contract Fixtures.accepting))
    as (m & w' & Hrun & _ & _ & _ & _ & Hread & _);
    try reflexivity.
  - discriminate.
  - intros k m Hm. cbn in Hm. by rewrite lookup_empty in Hm.
  - exists m, w'. split; [exact Hrun|exact Hread].
Defined.

(** X28. Who may touch a message is decided by the switch of its
    recipient: when that switch belongs to another user, [updateMessage] and
    [deleteMessage] raise 'Message not found or access denied' and
    [getDecryptedMessage] answers null without decrypting; when it is the
    caller's and EXECUTED, the message can be neither updated nor deleted.
    In all five cases the world is left as it was. *)
Theorem X28_message_guards
    rt iv salt messageId userId input options w m r sw :
  messages (prisma w) !! messageId = Some m ->
  recipients (prisma w) !! msg_recipientId m = Some r ->
  switches (prisma w) !! rc_switchId r = Some sw ->
  (sw_userId sw <> userId ->
   MessageManager.updateMessage rt iv salt messageId userId input options w
   = (Throw (Error "Message not found or access denied"), w)
   /\ MessageManager.deleteMessage messageId userId options w
      = (Throw (Error "Message not found or access denied"), w)
   /\ MessageManager.getDecryptedMessage rt messageId userId w
      = (Ok None, w))
  /\ (sw_userId sw = userId -> status sw = EXECUTED ->
      MessageManager.updateMessage rt iv salt messageId userId input options w
      = (Throw (Error "Cannot update message for an executed switch"), w)
      /\ MessageManager.deleteMessage messageId userId options w
         = (Throw (Error "Cannot delete message for an executed switch"), w)).
Proof.
  intros Hm Hr Hs.
  assert (Hfind : MessageManager.findWithOwner messageId w
                  = (Ok (Some (m, r, sw)), w)).
  { unfold MessageManager.findWithOwner. msg_step. rewrite Hm. msg_step.
    rewrite Hr. msg_step. by rewrite Hs. }
  unfold MessageManager.updateMessage, MessageManager.deleteMessage,
    MessageManager.getDecryptedMessage.
  rewrite !bind_run, !Hfind. split.
  - intros Hne. rewrite (not_owner _ _ Hne). by repeat split.
  - intros Hown Hst. rewrite (is_owner _ _ Hown).
    rewrite (bool_decide_eq_true_2 _ Hst). by split.
Qed.

Lemma X28_witness :
  MessageManager.getDecryptedMessage (Fixtures.runtime Fixtures.accepting)
    "m1" "mallory" (Fixtures.worldOf Fixtures.oneRecipientDb)
  = (Ok None, Fixtures.worldOf Fixtures.oneRecipientDb).
Proof.
  destruct (X28_message_guards (Fixtures.runtime Fixtures.accepting) [] []
              "m1" "mallory" (MessageManager.mkUpdateMessageInput None None)
              None (Fixtures.worldOf Fixtures.oneRecipientDb)
              (mkMessage "m1" "sw1" "r1"
                 (Fixtures.ciphertextOf "Farewell, Ann.") "" None)
              (mkRecipient "r1" "sw1" "ann@example.org" (Some "Ann"))
              Fixtures.dueSwitch eq_refl eq_refl eq_refl) as [Hother _].
  destruct Hother as (_ & _ & Hget); [discriminate|exact Hget].
Defined.

End Messages.

(** ** The active verification request *)

Section ActiveRequests.
Import ActiveRequest.

Lemma latest_In l r : latest l = Some r -> In r l.
Proof.
  revert r. induction l as [|a l IH]; intros r; cbn; [discriminate|].
  destruct (latest l) as [r'|].
  - destruct (vr_startedAt a <? vr_startedAt r'); intros [= <-]; auto.
  - intros [= <-]. by left.
Qed.

Lemma latest_None l : latest l = None -> l = [].
Proof.
  destruct l as [|a l]; [done|]. cbn.
  destruct (latest l) as [r'|]; [|discriminate].
  destruct (_ <? _); discriminate.
Qed.

Lemma latest_max l r :
  latest l = Some r -> forall r', In r' l -> vr_startedAt r' <= vr_startedAt r.
Proof.
  revert r. induction l as [|a l IH]; intros r; cbn; [discriminate|].
  destruct (latest l) as [r1|] eqn:E.
  - destruct (Z.ltb_spec (vr_startedAt a) (vr_startedAt r1));
      intros [= <-] r' [<-|Hin]; try lia.
    + by apply IH.
    + specialize (IH r1 eq_refl r' Hin). lia.
  - intros [= <-] r' [<-|Hin]; [lia|].
    apply latest_None in E. subst l. destruct Hin.
Qed.

(** X29. [getActiveVerificationRequest] reads only; what it returns is a
    stored request of the switch that is open and has not expired, and no
    such request was started later; it returns null exactly when the switch
    has no open, unexpired request. *)
Theorem X29_active_request_is_the_latest_open_one now switchId w :
  exists res,
    getActiveVerificationRequest now switchId w = (Ok res, w)
    /\ (forall r,
          res = Some r ->
          (exists k, verificationRequests (prisma w) !! k = Some r)
          /\ vr_switchId r = switchId /\ vr_completedAt r = None
          /\ now < vr_expiresAt r
          /\ forall k' r',
               verificationRequests (prisma w) !! k' = Some r' ->
               vr_switchId r' = switchId -> vr_completedAt r' = None ->
               now < vr_expiresAt r' ->
               vr_startedAt r' <= vr_startedAt r)
    /\ (res = None <->
        forall k r,
          verificationRequests (prisma w) !! k = Some r ->
          vr_switchId r = switchId -> vr_completedAt r = None ->
          ~ now < vr_expiresAt r).
Proof.
  eexists. split; [reflexivity|].
  assert (Hact : forall r,
            isActiveFor now switchId r = true
            <-> vr_switchId r = switchId /\ vr_completedAt r = None
                /\ now < vr_expiresAt r).
  { intros r. unfold isActiveFor.
    rewrite !andb_true_iff, String.eqb_eq, bool_decide_eq_true, Z.ltb_lt.
    tauto. }
  assert (Hrows : forall r,
            In r (Prisma.allRows verificationRequestT (prisma w))
            <-> exists k, verificationRequests (prisma w) !! k = Some r).
  { intros r. rewrite <- list_elem_of_In.
    apply (elem_of_allRows verificationRequestT). }
  split.
  - intros r Hres. pose proof (latest_In _ _ Hres) as Hin.
    apply filter_In in Hin as [Hin Hr]. apply Hact in Hr as (H1 & H2 & H3).
    split; [by apply Hrows|]. do 3 (split; [done|]).
    intros k' r' Hk' H1' H2' H3'. apply (latest_max _ _ Hres).
    apply filter_In. split; [apply Hrows; eauto|]. by apply Hact.
  - split.
    + intros Hnone k r Hk H1 H2 H3. apply latest_None in Hnone.
      assert (Hin : In r (List.filter (isActiveFor now switchId)
                            (Prisma.allRows verificationRequestT (prisma w)))).
      { apply filter_In. split; [apply Hrows; eauto|]. by apply Hact. }
      rewrite Hnone in Hin. destruct Hin.
    + intros Hno. destruct (latest _) as [r|] eqn:E; [|done].
      apply latest_In, filter_In in E as [Hin Hr].
      apply Hrows in Hin as [k Hk]. apply Hact in Hr as (H1 & H2 & H3).
      by destruct (Hno k r Hk H1 H2).
Qed.

End ActiveRequests.

(** ** The verification route *)

Section Route.
Import Http Outcomes.

(** X30. The handler of the verification route never raises: whatever the
    body, the query and the store, and whatever the invitation handler does,
    [POST] answers, with status 200 and success, or with status 400, no
    success and no data. A vote without one-time code that is answered with
    400 has left the world as it was. For the route with the one-time code
    branch and for the route without it. *)
Theorem X30_route_answers_200_or_400
    rt acceptVerifierInvitation now action headers body w :
  (exists resp w',
     VerifyRoute.POST rt acceptVerifierInvitation now action headers body w
     = (Ok resp, w')
     /\ ((httpStatus resp = 200 /\ success resp = true /\ error resp = None)
         \/ (httpStatus resp = 400 /\ success resp = false
             /\ data resp = None))
     /\ (action <> Some "accept-invite" -> jsTruthy (otp body) = false ->
         httpStatus resp = 400 -> w' = w))
  /\ (exists resp w',
        LegacyVerifyRoute.POST acceptVerifierInvitation now action headers
          body w = (Ok resp, w')
        /\ ((httpStatus resp = 200 /\ success resp = true
             /\ error resp = None)
            \/ (httpStatus resp = 400 /\ success resp = false
                /\ data resp = None))
        /\ (action <> Some "accept-invite" -> httpStatus resp = 400 ->
            w' = w)).
Proof.
  split.
  - unfold VerifyRoute.POST, catchAll, tryCatch.
    destruct (bool_decide (action = Some "accept-invite")) eqn:Ha.
    { apply bool_decide_eq_true in Ha.
      destruct (acceptInviteSchema body) as [t|].
      - rewrite bind_run.
        destruct (acceptVerifierInvitation now t (clientInfo headers) w)
          as [[v|[e]] w1]; do 2 eexists; (split; [reflexivity|]);
          (split; [cbn; tauto|]); intros Hna; by destruct Hna.
      - do 2 eexists. split; [reflexivity|]. split; [cbn; tauto|].
        intros Hna; by destruct Hna. }
    destruct (jsTruthy (otp body)) eqn:Hotp.
    { destruct (submitOtpVoteSchema body) as [message|[[t o] v]].
      - do 2 eexists. split; [reflexivity|]. split; [cbn; tauto|].
        intros _ Hf. discriminate Hf.
      - rewrite bind_run.
        destruct (VerificationSystem.verifyOtpAndVote rt now t o v
                    (clientInfo headers) w) as [[r|[e]] w1].
        + destruct (VerificationSystem.success r); do 2 eexists;
            (split; [reflexivity|]); (split; [cbn; tauto|]);
            intros _ Hf; discriminate Hf.
        + do 2 eexists. split; [reflexivity|]. split; [cbn; tauto|].
          intros _ Hf. discriminate Hf. }
    destruct (submitVoteSchema body) as [message|input].
    + do 2 eexists. split; [reflexivity|]. split; [cbn; tauto|]. done.
    + rewrite bind_run.
      destruct (VerificationSystem.submitVerificationVote now input
                  (clientInfo headers) w) as [[r|[e]] w1] eqn:Hrun.
      * do 2 eexists. split; [reflexivity|]. split; [cbn; tauto|].
        intros _ _ Hst. discriminate Hst.
      * do 2 eexists. split; [reflexivity|]. split; [cbn; tauto|].
        intros _ _ _. exact (submit_failsClean _ _ _ _ _ _ Hrun).
  - unfold LegacyVerifyRoute.POST, catchAll, tryCatch.
    destruct (bool_decide (action = Some "accept-invite")) eqn:Ha.
    { apply bool_decide_eq_true in Ha.
      destruct (acceptInviteSchema body) as [t|].
      - rewrite bind_run.
        destruct (acceptVerifierInvitation now t (clientInfo headers) w)
          as [[v|[e]] w1]; do 2 eexists; (split; [reflexivity|]);
          (split; [cbn; tauto|]); intros Hna; by destruct Hna.
      - do 2 eexists. split; [reflexivity|]. split; [cbn; tauto|].
        intros Hna; by destruct Hna. }
    destruct (submitVoteSchema body) as [message|input].
    + do 2 eexists. split; [reflexivity|]. split; [cbn; tauto|]. done.
    + rewrite bind_run.
      destruct (LegacyVerificationSystem.submitVerificationVote now input
                  (clientInfo headers) w) as [[r|[e]] w1] eqn:Hrun.
      * do 2 eexists. split; [reflexivity|]. split; [cbn; tauto|].
        intros _ Hst. discriminate Hst.
      * do 2 eexists. split; [reflexivity|]. split; [cbn; tauto|].
        intros _ _. exact (legacy_submit_failsClean _ _ _ _ _ _ Hrun).
Qed.

End Route.
